(** * Agentic development pipeline (without_mcp.py): a shallow embedding

    The pipeline of [src/without_mcp.py] is embedded as Rocq functions:
    Python strings are lists of code points, dictionaries are association
    lists in insertion order, the external collaborators (language-model
    API, HTTP services, file store, subprocesses, environment variables)
    are a scripted [World] threaded through an exception/state monad, and
    the interpreter's library functions that the repository only calls
    ([str.lower], [json.loads], base64 encoding, [str()] of a value or of
    an exception) are section variables. The prompts sent to the generator
    are not built; what can raise while a prompt is built is kept. The
    graph engine is taken as the sequential composition of the node
    functions along the edges; its checkpointing and its list reducers on
    ['messages'] and ['conversation_history'] are outside the model. *)

From Stdlib Require Import String Ascii DecimalString.
From Stdlib Require Import List ZArith NArith Bool Lia.
From Stdlib Require PrimFloat.
Import ListNotations.

(* ================================================================== *)
(** ** Python strings *)
(* ================================================================== *)

(** A Python [str] is a sequence of Unicode code points. *)
Definition str := list N.

(** A literal of the source, written as a Rocq string of ASCII characters. *)
Definition lit (s : string) : str := map N_of_ascii (list_ascii_of_string s).

Definition str_eqb (a b : str) : bool :=
  if list_eq_dec N.eq_dec a b then true else false.

(** [prefixb pat s]: [s.startswith(pat)]. *)
Fixpoint prefixb (pat s : str) : bool :=
  match pat, s with
  | [], _ => true
  | _ :: _, [] => false
  | a :: pat', b :: s' => N.eqb a b && prefixb pat' s'
  end.

(** Index of the first occurrence of [pat] in [s], if any. *)
Fixpoint find (pat s : str) : option nat :=
  if prefixb pat s then Some 0
  else match s with
       | [] => None
       | _ :: s' => option_map S (find pat s')
       end.

(** Index of the last occurrence of [pat] in [s], if any. *)
Fixpoint rfind (pat s : str) : option nat :=
  match s with
  | [] => if prefixb pat [] then Some 0 else None
  | _ :: s' =>
      match rfind pat s' with
      | Some i => Some (S i)
      | None => if prefixb pat s then Some 0 else None
      end
  end.

(** [s.find(pat)] and [s.rfind(pat)]: -1 when there is no occurrence. *)
Definition py_find (pat s : str) : Z :=
  match find pat s with Some i => Z.of_nat i | None => (-1)%Z end.

Definition py_rfind (pat s : str) : Z :=
  match rfind pat s with Some i => Z.of_nat i | None => (-1)%Z end.

(** [pat in s]. *)
Definition contains (pat s : str) : bool :=
  match find pat s with Some _ => true | None => false end.

(** No occurrence of [pat] starts inside [u] when [u] is followed by
    [rest]. *)
Fixpoint no_occ (pat u rest : str) : Prop :=
  match u with
  | [] => True
  | _ :: u' => prefixb pat (u ++ rest) = false /\ no_occ pat u' rest
  end.

(** [s[a:b]] with Python's treatment of negative and out-of-range bounds. *)
Definition clamp_index (n i : Z) : Z :=
  if (i <? 0)%Z then Z.max 0 (n + i) else Z.min i n.

Definition py_slice (s : str) (a b : Z) : str :=
  let n := Z.of_nat (length s) in
  let lo := clamp_index n a in
  let hi := clamp_index n b in
  firstn (Z.to_nat (hi - lo)) (skipn (Z.to_nat lo) s).

(** [s.split(sep)] for a non-empty [sep]: the text is scanned left to right,
    every occurrence found closes the current piece and the scan resumes
    after it. [skip] counts the characters of a matched separator still to
    be passed, [cur] holds the current piece reversed. *)
Fixpoint split_go (sep : str) (skip : nat) (cur : str) (s : str) : list str :=
  match s with
  | [] => [rev cur]
  | c :: s' =>
      match skip with
      | S k => split_go sep k cur s'
      | O =>
          if prefixb sep s
          then rev cur :: split_go sep (length sep - 1) [] s'
          else split_go sep 0 (c :: cur) s'
      end
  end.

Definition split (sep s : str) : list str := split_go sep 0 [] s.

(** [s.split(sep, 1)]: at most one cut, at the first occurrence. *)
Definition split1 (sep s : str) : list str :=
  match find sep s with
  | Some i => [firstn i s; skipn (i + length sep) s]
  | None => [s]
  end.

(** [s.replace(old, new)] for a non-empty [old]: the same left-to-right scan,
    each occurrence replaced by [new]. *)
Fixpoint replace_go (old new : str) (skip : nat) (s : str) : str :=
  match s with
  | [] => []
  | c :: s' =>
      match skip with
      | S k => replace_go old new k s'
      | O =>
          if prefixb old s
          then new ++ replace_go old new (length old - 1) s'
          else c :: replace_go old new 0 s'
      end
  end.

Definition replace (old new s : str) : str := replace_go old new 0 s.

(** [s.count(sub)] for a non-empty [sub]: non-overlapping occurrences. *)
Fixpoint count_go (sub : str) (skip : nat) (s : str) : nat :=
  match s with
  | [] => 0
  | _ :: s' =>
      match skip with
      | S k => count_go sub k s'
      | O =>
          if prefixb sub s
          then S (count_go sub (length sub - 1) s')
          else count_go sub 0 s'
      end
  end.

Definition count (sub s : str) : nat := count_go sub 0 s.

(** [str.isspace] on one code point (CPython's [_PyUnicode_IsWhitespace]). *)
Definition isspace (c : N) : bool :=
  ((9 <=? c) && (c <=? 13) || (28 <=? c) && (c <=? 32)
   || (c =? 133) || (c =? 160) || (c =? 5760)
   || (8192 <=? c) && (c <=? 8202)
   || (c =? 8232) || (c =? 8233) || (c =? 8239) || (c =? 8287)
   || (c =? 12288))%N.

Fixpoint lstrip (s : str) : str :=
  match s with
  | [] => []
  | c :: s' => if isspace c then lstrip s' else s
  end.

Definition rstrip (s : str) : str := rev (lstrip (rev s)).

(** [s.strip()]. *)
Definition strip (s : str) : str := rstrip (lstrip s).

(** [str(n)] for an integer. *)
Definition str_of_Z (z : Z) : str := lit (NilZero.string_of_int (Z.to_int z)).

(** Lower-casing of the ASCII letters: what [str.lower] does on ASCII text.
    The pipeline itself is stated over an arbitrary [lower]; this instance
    is used for the examples. *)
Definition ascii_lower_char (c : N) : N :=
  if ((65 <=? c) && (c <=? 90))%N then (c + 32)%N else c.

Definition ascii_lower (s : str) : str := map ascii_lower_char s.

(* ================================================================== *)
(** ** Values, dictionaries, exceptions *)
(* ================================================================== *)

(** What [json.loads] and [response.json()] produce. An object keeps its
    fields in order; [json.loads] leaves no key twice. *)
#[local] Unset Elimination Schemes.
Inductive json : Type :=
| JNull
| JBool (b : bool)
| JInt (z : Z)
| JFloat (f : PrimFloat.float)
| JStr (s : str)
| JArr (items : list json)
| JObj (fields : list (str * json)).
#[local] Set Elimination Schemes.

(** The exceptions that can reach the pipeline. [External] stands for what
    a collaborator raises (network error, time-out, operating-system
    error), tagged by the world that produced it. *)
Inductive exn : Type :=
| AttributeError
| TypeError
| KeyError (key : str)
| ValueError
| UnicodeEncodeError
| IsADirectoryError
| External (tag : str).

Definition result (A : Type) : Type := (exn + A)%type.

Fixpoint obj_lookup (k : str) (fields : list (str * json)) : option json :=
  match fields with
  | [] => None
  | (k', v) :: rest => if str_eqb k k' then Some v else obj_lookup k rest
  end.

(** [v[key]] with a string key. *)
Definition subscript (v : json) (key : str) : result json :=
  match v with
  | JObj fields =>
      match obj_lookup key fields with
      | Some x => inr x
      | None => inl (KeyError key)
      end
  | _ => inl TypeError
  end.

(** [v.get(key, default)]: only a dict has the method. *)
Definition get_method (v : json) (key : str) (default : json) : result json :=
  match v with
  | JObj fields =>
      match obj_lookup key fields with
      | Some x => inr x
      | None => inr default
      end
  | _ => inl AttributeError
  end.

(** [v.keys()]. *)
Definition keys_method (v : json) : result (list str) :=
  match v with
  | JObj fields => inr (map fst fields)
  | _ => inl AttributeError
  end.

(** Truth value of a JSON-derived object ([if v:]). *)
Definition truthy (v : json) : bool :=
  match v with
  | JNull => false
  | JBool b => b
  | JInt z => negb (Z.eqb z 0)
  | JFloat f => negb (PrimFloat.eqb f PrimFloat.zero)
  | JStr s => match s with [] => false | _ => true end
  | JArr l => match l with [] => false | _ => true end
  | JObj l => match l with [] => false | _ => true end
  end.

(** [for x in v]: the items a loop over [v] visits. *)
Definition iterate (v : json) : result (list json) :=
  match v with
  | JArr l => inr l
  | JObj fields => inr (map (fun kv => JStr (fst kv)) fields)
  | JStr s => inr (map (fun c => JStr [c]) s)
  | _ => inl TypeError
  end.

(** [v[:n]] evaluates without error on lists and strings only. *)
Definition sliceable (v : json) : bool :=
  match v with
  | JArr _ | JStr _ => true
  | _ => false
  end.

Definition is_JStr (v : json) : bool :=
  match v with JStr _ => true | _ => false end.

(** [sep.join(v)] evaluates without error when [v] is iterable and every
    item is a string. *)
Definition joinable (v : json) : bool :=
  match iterate v with
  | inr items => forallb is_JStr items
  | inl _ => false
  end.

(** [v == s] for a string literal [s]. *)
Definition json_eq_str (v : json) (s : str) : bool :=
  match v with JStr t => str_eqb t s | _ => false end.

(** A [dict] from file path to content, in insertion order. *)
Definition dict := list (str * str).

(** [d[k] = v]: an existing key keeps its place, a new one goes last. *)
Fixpoint dict_set (k v : str) (d : dict) : dict :=
  match d with
  | [] => [(k, v)]
  | (k', v') :: d' =>
      if str_eqb k k' then (k', v) :: d' else (k', v') :: dict_set k v d'
  end.

(** [{**a, **b}]. *)
Definition dict_merge (a b : dict) : dict :=
  fold_left (fun d kv => dict_set (fst kv) (snd kv) d) b a.

Definition dict_keys (d : dict) : list str := map fst d.

(* ================================================================== *)
(** ** State schema (cell 3) *)
(* ================================================================== *)

Record Message := { role : str; msg_content : str }.

(** The dictionaries [github_agent_node] stores under ['github_repo']: the
    full one after a created repository, and the two-key one of the
    local-only mode, which has neither ['owner'] nor ['branch']. *)
Record GithubRepo := {
  repo_name : json;
  repo_url : json;
  repo_owner : option json;
  repo_branch : option str
}.

(** [DevelopmentState], with the keys the workflow nodes read or write.
    ([user_request], [requirements_approved], [conversation_history],
    the test-result keys, [localhost_url] and [current_agent] are never
    touched by a node.) The schema declares ['messages'] as
    [Annotated[list, add]] (line 75): see [apply_update]. *)
Record DevelopmentState := {
  requirements : str;
  development_plan : option json;
  code_files : dict;
  unit_tests : dict;
  e2e_tests : dict;
  deployment_url : option str;
  deployment_platform : str;
  github_repo : option GithubRepo;
  current_stage : str;
  iteration_count : Z;
  errors : list str;
  messages : list Message
}.

Definition set_development_plan (v : option json) (s : DevelopmentState) :=
  {| requirements := requirements s; development_plan := v;
     code_files := code_files s; unit_tests := unit_tests s;
     e2e_tests := e2e_tests s; deployment_url := deployment_url s;
     deployment_platform := deployment_platform s;
     github_repo := github_repo s; current_stage := current_stage s;
     iteration_count := iteration_count s; errors := errors s;
     messages := messages s |}.

Definition set_code_files (v : dict) (s : DevelopmentState) :=
  {| requirements := requirements s; development_plan := development_plan s;
     code_files := v; unit_tests := unit_tests s;
     e2e_tests := e2e_tests s; deployment_url := deployment_url s;
     deployment_platform := deployment_platform s;
     github_repo := github_repo s; current_stage := current_stage s;
     iteration_count := iteration_count s; errors := errors s;
     messages := messages s |}.

Definition set_unit_tests (v : dict) (s : DevelopmentState) :=
  {| requirements := requirements s; development_plan := development_plan s;
     code_files := code_files s; unit_tests := v;
     e2e_tests := e2e_tests s; deployment_url := deployment_url s;
     deployment_platform := deployment_platform s;
     github_repo := github_repo s; current_stage := current_stage s;
     iteration_count := iteration_count s; errors := errors s;
     messages := messages s |}.

Definition set_e2e_tests (v : dict) (s : DevelopmentState) :=
  {| requirements := requirements s; development_plan := development_plan s;
     code_files := code_files s; unit_tests := unit_tests s;
     e2e_tests := v; deployment_url := deployment_url s;
     deployment_platform := deployment_platform s;
     github_repo := github_repo s; current_stage := current_stage s;
     iteration_count := iteration_count s; errors := errors s;
     messages := messages s |}.

Definition set_deployment (u : option str) (p : str) (s : DevelopmentState) :=
  {| requirements := requirements s; development_plan := development_plan s;
     code_files := code_files s; unit_tests := unit_tests s;
     e2e_tests := e2e_tests s; deployment_url := u;
     deployment_platform := p;
     github_repo := github_repo s; current_stage := current_stage s;
     iteration_count := iteration_count s; errors := errors s;
     messages := messages s |}.

Definition set_github_repo (v : option GithubRepo) (s : DevelopmentState) :=
  {| requirements := requirements s; development_plan := development_plan s;
     code_files := code_files s; unit_tests := unit_tests s;
     e2e_tests := e2e_tests s; deployment_url := deployment_url s;
     deployment_platform := deployment_platform s;
     github_repo := v; current_stage := current_stage s;
     iteration_count := iteration_count s; errors := errors s;
     messages := messages s |}.

Definition set_current_stage (v : str) (s : DevelopmentState) :=
  {| requirements := requirements s; development_plan := development_plan s;
     code_files := code_files s; unit_tests := unit_tests s;
     e2e_tests := e2e_tests s; deployment_url := deployment_url s;
     deployment_platform := deployment_platform s;
     github_repo := github_repo s; current_stage := v;
     iteration_count := iteration_count s; errors := errors s;
     messages := messages s |}.

Definition set_iteration_count (v : Z) (s : DevelopmentState) :=
  {| requirements := requirements s; development_plan := development_plan s;
     code_files := code_files s; unit_tests := unit_tests s;
     e2e_tests := e2e_tests s; deployment_url := deployment_url s;
     deployment_platform := deployment_platform s;
     github_repo := github_repo s; current_stage := current_stage s;
     iteration_count := v; errors := errors s;
     messages := messages s |}.

(** [state['errors'].append(e)]. *)
Definition append_error (e : str) (s : DevelopmentState) :=
  {| requirements := requirements s; development_plan := development_plan s;
     code_files := code_files s; unit_tests := unit_tests s;
     e2e_tests := e2e_tests s; deployment_url := deployment_url s;
     deployment_platform := deployment_platform s;
     github_repo := github_repo s; current_stage := current_stage s;
     iteration_count := iteration_count s; errors := errors s ++ [e];
     messages := messages s |}.

(** [state['messages'].append(m)]. *)
Definition append_message (m : Message) (s : DevelopmentState) :=
  {| requirements := requirements s; development_plan := development_plan s;
     code_files := code_files s; unit_tests := unit_tests s;
     e2e_tests := e2e_tests s; deployment_url := deployment_url s;
     deployment_platform := deployment_platform s;
     github_repo := github_repo s; current_stage := current_stage s;
     iteration_count := iteration_count s; errors := errors s;
     messages := messages s ++ [m] |}.

(** How the graph takes in what a node returns. Every node returns the
    whole state. A key without reducer is overwritten by the returned
    value; ['messages'] is declared with the reducer [add] (line 75), so
    the returned list is added to the list the graph holds. *)
Definition apply_update (held returned : DevelopmentState) : DevelopmentState :=
  {| requirements := requirements returned;
     development_plan := development_plan returned;
     code_files := code_files returned; unit_tests := unit_tests returned;
     e2e_tests := e2e_tests returned;
     deployment_url := deployment_url returned;
     deployment_platform := deployment_platform returned;
     github_repo := github_repo returned;
     current_stage := current_stage returned;
     iteration_count := iteration_count returned;
     errors := errors returned;
     messages := messages held ++ messages returned |}.

(* ================================================================== *)
(** ** The outside world *)
(* ================================================================== *)

Inductive HttpMethod := GET | POST | PUT.

(** A request as the code sends it: the bearer token of the
    [Authorization] header, the URL and the JSON payload, if any. *)
Record HttpRequest := {
  http_method : HttpMethod;
  http_url : str;
  http_bearer : str;
  http_payload : option json
}.

(** [response.status_code] and [response.json()] (an exception when the
    body is not JSON). *)
Record HttpResponse := {
  status_code : Z;
  json_body : result json
}.

(** The read and the write of a file's entry in a repository. *)
Definition get_request (tok url : str) : HttpRequest :=
  {| http_method := GET; http_url := url; http_bearer := tok;
     http_payload := None |}.

Definition put_request (tok url : str) (payload : json) : HttpRequest :=
  {| http_method := PUT; http_url := url; http_bearer := tok;
     http_payload := Some payload |}.

Definition is_put (rq : HttpRequest) : bool :=
  match http_method rq with PUT => true | _ => false end.

(** The number of file writes among the requests of a log. *)
Definition count_writes (log : list HttpRequest) : nat :=
  length (filter is_put log).

(** [subprocess.run(..., capture_output=True, text=True)]. *)
Record CompletedProcess := { stdout : str; stderr : str }.

(** Everything outside the interpreter. Each collaborator answers its n-th
    call as its reply function says; the logs record what the code did to
    it, oldest first. *)
Record World := {
  env_GITHUB_TOKEN : option str;
  env_VERCEL_TOKEN : option str;
  (** [client.messages.create]: the reply text, or an exception. *)
  api_reply : nat -> result str;
  api_calls : nat;
  (** The HTTP services the helpers call through [httpx]: GitHub and
      Vercel. *)
  http_reply : nat -> HttpRequest -> result HttpResponse;
  http_log : list HttpRequest;
  (** The project directory: whether the n-th write, to the given project
      and file name, raises, and the (project, file name, content)
      triples written. *)
  fs_fault : nat -> str -> str -> option exn;
  fs_calls : nat;
  fs_log : list (str * str * str);
  (** [subprocess.run] and [subprocess.Popen]: the outcome of the n-th
      call, and the dev-server processes started and not yet terminated. *)
  proc_reply : nat -> result CompletedProcess;
  proc_calls : nat;
  live_servers : nat
}.

(** A computation that reads and changes the world and may raise. *)
Definition M (A : Type) : Type := World -> result A * World.

Definition ret {A} (a : A) : M A := fun w => (inr a, w).

Definition raise {A} (e : exn) : M A := fun w => (inl e, w).

Definition bind {A B} (m : M A) (k : A -> M B) : M B :=
  fun w =>
    match m w with
    | (inr a, w') => k a w'
    | (inl e, w') => (inl e, w')
    end.

(** [try: m  except Exception as e: h e]. *)
Definition try_except {A} (m : M A) (h : exn -> M A) : M A :=
  fun w =>
    match m w with
    | (inr a, w') => (inr a, w')
    | (inl e, w') => h e w'
    end.

Definition lift {A} (r : result A) : M A := fun w => (r, w).

Notation "x <- m ;; k" := (bind m (fun x => k))
  (at level 61, m at next level, right associativity).
Notation "m ;;; k" := (bind m (fun _ => k))
  (at level 61, right associativity).

Fixpoint for_each {A} (f : A -> M unit) (l : list A) : M unit :=
  match l with
  | [] => ret tt
  | x :: rest => f x ;;; for_each f rest
  end.

Definition getenv_GITHUB_TOKEN : M (option str) :=
  fun w => (inr (env_GITHUB_TOKEN w), w).

Definition getenv_VERCEL_TOKEN : M (option str) :=
  fun w => (inr (env_VERCEL_TOKEN w), w).

(** [if not token]: unset or empty. *)
Definition no_token (t : option str) : bool :=
  match t with
  | None => true
  | Some [] => true
  | Some _ => false
  end.

Definition token_text (t : option str) : str :=
  match t with Some s => s | None => [] end.

Definition api_create : M str :=
  fun w =>
    (api_reply w (api_calls w),
     {| env_GITHUB_TOKEN := env_GITHUB_TOKEN w;
        env_VERCEL_TOKEN := env_VERCEL_TOKEN w;
        api_reply := api_reply w; api_calls := S (api_calls w);
        http_reply := http_reply w; http_log := http_log w;
        fs_fault := fs_fault w; fs_calls := fs_calls w; fs_log := fs_log w;
        proc_reply := proc_reply w; proc_calls := proc_calls w;
        live_servers := live_servers w |}).

Definition http_send (rq : HttpRequest) : M HttpResponse :=
  fun w =>
    (http_reply w (length (http_log w)) rq,
     {| env_GITHUB_TOKEN := env_GITHUB_TOKEN w;
        env_VERCEL_TOKEN := env_VERCEL_TOKEN w;
        api_reply := api_reply w; api_calls := api_calls w;
        http_reply := http_reply w; http_log := http_log w ++ [rq];
        fs_fault := fs_fault w; fs_calls := fs_calls w; fs_log := fs_log w;
        proc_reply := proc_reply w; proc_calls := proc_calls w;
        live_servers := live_servers w |}).

(** What [open(project_path / filename, 'w')] raises at the n-th write.
    Joining the empty file name gives the project directory itself, which
    cannot be opened for writing on any machine; for every other name the
    world decides (a name that denotes a directory, a full disk, ...). *)
Definition write_error (w : World) (n : nat) (project filename : str)
    : option exn :=
  match filename with
  | [] => Some IsADirectoryError
  | _ => fs_fault w n project filename
  end.

Definition fs_write (project filename content : str) : M unit :=
  fun w =>
    let w' fl :=
      {| env_GITHUB_TOKEN := env_GITHUB_TOKEN w;
         env_VERCEL_TOKEN := env_VERCEL_TOKEN w;
         api_reply := api_reply w; api_calls := api_calls w;
         http_reply := http_reply w; http_log := http_log w;
         fs_fault := fs_fault w; fs_calls := S (fs_calls w); fs_log := fl;
         proc_reply := proc_reply w; proc_calls := proc_calls w;
         live_servers := live_servers w |} in
    match write_error w (fs_calls w) project filename with
    | Some e => (inl e, w' (fs_log w))
    | None => (inr tt, w' (fs_log w ++ [(project, filename, content)]))
    end.

Definition set_proc (calls servers : nat) (w : World) : World :=
  {| env_GITHUB_TOKEN := env_GITHUB_TOKEN w;
     env_VERCEL_TOKEN := env_VERCEL_TOKEN w;
     api_reply := api_reply w; api_calls := api_calls w;
     http_reply := http_reply w; http_log := http_log w;
     fs_fault := fs_fault w; fs_calls := fs_calls w; fs_log := fs_log w;
     proc_reply := proc_reply w; proc_calls := calls;
     live_servers := servers |}.

(** [subprocess.run(argv, ...)]: waits for the process, or raises. *)
Definition subprocess_run : M CompletedProcess :=
  fun w =>
    (proc_reply w (proc_calls w), set_proc (S (proc_calls w)) (live_servers w) w).

(** [subprocess.Popen(argv, ...)]: the process runs on when it returns. *)
Definition subprocess_Popen : M unit :=
  fun w =>
    match proc_reply w (proc_calls w) with
    | inr _ => (inr tt, set_proc (S (proc_calls w)) (S (live_servers w)) w)
    | inl e => (inl e, set_proc (S (proc_calls w)) (live_servers w) w)
    end.

(** [dev_server.terminate(); dev_server.wait()]. *)
Definition terminate_and_wait : M unit :=
  fun w => (inr tt, set_proc (proc_calls w) (pred (live_servers w)) w).

(* ================================================================== *)
(** ** Literals of the source *)
(* ================================================================== *)

Definition NL : str := [10%N].

Definition FILE_START : str := Eval cbv in lit "===FILE:".
Definition SEPARATOR : str := Eval cbv in lit "===".
Definition FILE_END : str := Eval cbv in lit "===END FILE===".

Definition LOCAL_ONLY : str := Eval cbv in lit "local-only".

Definition stage_initial : str := Eval cbv in lit "initial".
Definition stage_planning_complete : str := Eval cbv in lit "planning_complete".
Definition stage_code_written : str := Eval cbv in lit "code_written".
Definition stage_tests_written : str := Eval cbv in lit "tests_written".
Definition stage_deployment_complete : str := Eval cbv in lit "deployment_complete".

(** The two markers counted by the fallback of [run_unit_tests], as the
    source file spells them (three code points each). *)
Definition PASS_MARK : str := [226; 339; 8220]%N.
Definition FAIL_MARK : str := [226; 339; 8212]%N.

(** The mark that opens the approval reply of [manager_agent]. *)
Definition CHECK_MARK : str := [226; 339; 8230]%N.

Definition approval_keywords : list str := Eval cbv in
  map lit ["approved"; "looks good"; "proceed"; "start building";
           "yes that's good"; "perfect"; "correct"; "satisfied"]%string.

(* ================================================================== *)
(** ** The pipeline *)
(* ================================================================== *)

(** Result dictionaries of the helpers. *)
Record ClaudeResult := { content : str; success : bool }.

Inductive GithubOperation :=
| create_repo (name description : str)
| commit_file (path file_content message : str).

(** What [github_operation] returns: [{"success": True, "repo_url": ..,
    "owner": .., "name": ..}], [{"success": b}] or
    [{"success": False, "error": ..}]. *)
Inductive OperationResult :=
| RepoCreated (url owner name : json)
| Finished (ok : bool)
| OperationFailed (error : str).

Definition op_success (r : OperationResult) : bool :=
  match r with
  | RepoCreated _ _ _ => true
  | Finished ok => ok
  | OperationFailed _ => false
  end.

Inductive DeployResult :=
| Deployed (url : str)
| DeployFailed (error : str).

(** The dictionary the test executors return. *)
Record TestSummary := {
  ts_success : bool;
  ts_total : json;
  ts_passed : json;
  ts_failed : json;
  ts_details : option json;
  ts_error : option str
}.

Inductive WorkflowNode :=
| github_init | planner | developer | github_commit_code
| tester | github_commit_tests | deployer | github_commit_deploy.

(** The controller object of cell 14. *)
Record AgenticDevSystem := {
  sys_conversation_history : list Message;
  sys_requirements : option str
}.

(* ================================================================== *)
(** ** The delimiter convention and the stage order of the specification *)
(* ================================================================== *)

(** The text the prompts ask the generator for (lines 406-408, 441-443 and
    551-553 of the source): [===FILE: filename===], the content on the
    following lines, then [===END FILE===]. [entry_tail] is what follows the
    start marker. *)
Definition entry_tail (kv : str * str) : str :=
  [32%N] ++ fst kv ++ SEPARATOR ++ NL ++ snd kv ++ NL ++ FILE_END ++ NL.

Definition serialize_entry (kv : str * str) : str :=
  FILE_START ++ entry_tail kv.

(** A mapping written out entry after entry, in the mapping's order. *)
Definition serialize_files (d : dict) : str :=
  concat (map serialize_entry d).



(** The nine states of the specification's stage sequencer, in its order. *)
(** The glyphs the specification's pass and fail markers stand for, as a
    test runner prints them: U+2713 CHECK MARK and U+2717 BALLOT X. Their
    UTF-8 bytes (E2 9C 93 and E2 9C 97) read as Windows-1252 text are the
    three characters of [PASS_MARK] and of [FAIL_MARK]. *)
Definition spec_pass_glyph : str := [10003%N].
Definition spec_fail_glyph : str := [10007%N].

Inductive SpecStage :=
| init | repoInit | planned | coded | codeCommitted
| tested | testsCommitted | deployed | deployCommitted.

(* ================================================================== *)
(** ** Sample inputs *)
(* ================================================================== *)

Definition sample_plan : json :=
  JObj [(lit "project_name", JStr (lit "Todo App"));
        (lit "components", JArr [JStr (lit "TodoList")]);
        (lit "file_structure", JObj [(lit "src/App.jsx", JStr (lit "Main app"))]);
        (lit "features", JArr [JStr (lit "add a task")])].

Definition sample_report : json :=
  JObj [(lit "numTotalTests", JInt 5); (lit "numPassedTests", JInt 3);
        (lit "numFailedTests", JInt 2); (lit "testResults", JArr [])].

Definition sample_plan_text : str := Eval cbv in lit "{plan}".
Definition sample_report_text : str := Eval cbv in lit "{report}".

(** A stand-in for [json.loads] that knows the two sample documents. *)
Definition sample_loads (s : str) : result json :=
  if str_eqb s sample_plan_text then inr sample_plan
  else if str_eqb s sample_report_text then inr sample_report
  else inl ValueError.

Definition sample_b64encode (s : str) : result str := inr s.

Definition sample_format (v : json) : str :=
  match v with
  | JStr s => s
  | _ => lit "<value>"
  end.

Definition sample_str_of_exn (e : exn) : str :=
  match e with
  | AttributeError => lit "AttributeError"
  | TypeError => lit "TypeError"
  | KeyError k => k
  | ValueError => lit "ValueError"
  | UnicodeEncodeError => lit "UnicodeEncodeError"
  | IsADirectoryError => lit "[Errno 21] Is a directory"
  | External tag => tag
  end.

(** A world without credentials in which every collaborator is down. *)
Definition offline_world : World :=
  {| env_GITHUB_TOKEN := None;
     env_VERCEL_TOKEN := None;
     api_reply := fun _ => inl (External (lit "APIConnectionError"));
     api_calls := 0;
     http_reply := fun _ _ => inl (External (lit "ConnectError"));
     http_log := [];
     fs_fault := fun _ _ _ => None;
     fs_calls := 0;
     fs_log := [];
     proc_reply := fun _ => inl (External (lit "FileNotFoundError"));
     proc_calls := 0;
     live_servers := 0 |}.

(** A generator reply in the delimiter format, and one holding a plan. *)
Definition sample_files : dict :=
  [(lit "src/App.jsx", lit "export default function App() {}");
   (lit "package.json", lit "{}")].

Definition sample_api_reply (n : nat) : result str :=
  match n with
  | 0 => inr sample_plan_text
  | _ => inr (serialize_files sample_files)
  end.

Definition sample_http_reply (n : nat) (rq : HttpRequest) : result HttpResponse :=
  match http_method rq with
  | POST =>
      inr {| status_code := 201;
             json_body := inr (JObj [(lit "html_url", JStr (lit "https://github.com/dev/todo-app"));
                                     (lit "owner", JObj [(lit "login", JStr (lit "dev"))]);
                                     (lit "name", JStr (lit "todo-app"));
                                     (lit "url", JStr (lit "todo-app"))]) |}
  | GET => inr {| status_code := 404; json_body := inl ValueError |}
  | PUT => inr {| status_code := 201; json_body := inr (JObj []) |}
  end.

(** A world with credentials in which every collaborator answers. *)
Definition online_world : World :=
  {| env_GITHUB_TOKEN := Some (lit "ghp_token");
     env_VERCEL_TOKEN := Some (lit "vercel_token");
     api_reply := sample_api_reply;
     api_calls := 0;
     http_reply := sample_http_reply;
     http_log := [];
     fs_fault := fun _ _ _ => None;
     fs_calls := 0;
     fs_log := [];
     proc_reply := fun _ => inr {| stdout := sample_report_text; stderr := [] |};
     proc_calls := 0;
     live_servers := 0 |}.

(** A state in which a plan is already present. *)
Definition sample_state : DevelopmentState :=
  {| requirements := lit "a todo app";
     development_plan := Some sample_plan;
     code_files := []; unit_tests := []; e2e_tests := [];
     deployment_url := None;
     deployment_platform := lit "vercel";
     github_repo := None;
     current_stage := stage_initial;
     iteration_count := 0;
     errors := [];
     messages := [] |}.

Definition sample_repo : GithubRepo :=
  {| repo_name := JStr (lit "todo-app");
     repo_url := JStr (lit "https://github.com/dev/todo-app");
     repo_owner := Some (JStr (lit "dev"));
     repo_branch := Some (lit "main") |}.

(** A repository in which every file read exists already. *)
Definition existing_file_reply (n : nat) (rq : HttpRequest) : result HttpResponse :=
  match http_method rq with
  | GET => inr {| status_code := 200;
                  json_body := inr (JObj [(lit "name", JStr (lit "README.md"));
                                          (lit "sha", JStr (lit "3d21ec5"))]) |}
  | _ => inr {| status_code := 200; json_body := inr (JObj []) |}
  end.

Definition synced_world : World :=
  {| env_GITHUB_TOKEN := Some (lit "ghp_token");
     env_VERCEL_TOKEN := None;
     api_reply := sample_api_reply;
     api_calls := 0;
     http_reply := existing_file_reply;
     http_log := [];
     fs_fault := fun _ _ _ => None;
     fs_calls := 0;
     fs_log := [];
     proc_reply := fun _ => inr {| stdout := []; stderr := [] |};
     proc_calls := 0;
     live_servers := 0 |}.

(** A runner whose output is plain text with three pass markers and one
    fail marker. *)
Definition marker_output : CompletedProcess :=
  {| stdout := PASS_MARK ++ lit " renders" ++ NL ++ PASS_MARK ++ lit " adds"
               ++ NL ++ FAIL_MARK ++ lit " removes" ++ NL;
     stderr := PASS_MARK ++ lit " persists" ++ NL |}.

Definition marker_world : World :=
  {| env_GITHUB_TOKEN := None;
     env_VERCEL_TOKEN := None;
     api_reply := sample_api_reply;
     api_calls := 0;
     http_reply := sample_http_reply;
     http_log := [];
     fs_fault := fun _ _ _ => None;
     fs_calls := 0;
     fs_log := [];
     proc_reply := fun _ => inr marker_output;
     proc_calls := 0;
     live_servers := 0 |}.

(** The same four lines as a runner prints them, with the glyphs U+2713
    and U+2717. *)
Definition glyph_output : CompletedProcess :=
  {| stdout := spec_pass_glyph ++ lit " renders" ++ NL
               ++ spec_pass_glyph ++ lit " adds" ++ NL
               ++ spec_fail_glyph ++ lit " removes" ++ NL;
     stderr := spec_pass_glyph ++ lit " persists" ++ NL |}.

Definition glyph_world : World :=
  {| env_GITHUB_TOKEN := None;
     env_VERCEL_TOKEN := None;
     api_reply := sample_api_reply;
     api_calls := 0;
     http_reply := sample_http_reply;
     http_log := [];
     fs_fault := fun _ _ _ => None;
     fs_calls := 0;
     fs_log := [];
     proc_reply := fun _ => inr glyph_output;
     proc_calls := 0;
     live_servers := 0 |}.

(** A machine on which the third subprocess call runs into its time-out. *)
Definition timeout_world : World :=
  {| env_GITHUB_TOKEN := None;
     env_VERCEL_TOKEN := None;
     api_reply := sample_api_reply;
     api_calls := 0;
     http_reply := sample_http_reply;
     http_log := [];
     fs_fault := fun _ _ _ => None;
     fs_calls := 0;
     fs_log := [];
     proc_reply := fun n =>
       match n with
       | 2 => inl (External (lit "TimeoutExpired"))
       | _ => inr {| stdout := []; stderr := [] |}
       end;
     proc_calls := 0;
     live_servers := 0 |}.

(** The sample state after a failed repository creation, at the first
    milestone. *)
Definition local_only_state : DevelopmentState :=
  {| requirements := lit "a todo app";
     development_plan := Some sample_plan;
     code_files := sample_files; unit_tests := []; e2e_tests := [];
     deployment_url := None;
     deployment_platform := lit "vercel";
     github_repo := Some {| repo_name := JStr (lit "todo-app");
                            repo_url := JStr LOCAL_ONLY;
                            repo_owner := None; repo_branch := None |};
     current_stage := stage_code_written;
     iteration_count := 1;
     errors := [];
     messages := [] |}.

(** The sample state with a created repository, after planning. *)
Definition planned_state : DevelopmentState :=
  {| requirements := lit "a todo app";
     development_plan := Some sample_plan;
     code_files := sample_files; unit_tests := []; e2e_tests := [];
     deployment_url := None;
     deployment_platform := lit "vercel";
     github_repo := Some sample_repo;
     current_stage := stage_planning_complete;
     iteration_count := 0;
     errors := [];
     messages := [] |}.

(** A generator that answers with a test report where a plan is due, and
    one that wraps the plan in prose. *)
Definition report_world : World :=
  {| env_GITHUB_TOKEN := None;
     env_VERCEL_TOKEN := None;
     api_reply := fun _ => inr sample_report_text;
     api_calls := 0;
     http_reply := sample_http_reply;
     http_log := [];
     fs_fault := fun _ _ _ => None;
     fs_calls := 0;
     fs_log := [];
     proc_reply := fun _ => inr {| stdout := []; stderr := [] |};
     proc_calls := 0;
     live_servers := 0 |}.


(** A state at the code milestone in which a unit test and a code file
    share the path [package.json]. *)
Definition overlap_state : DevelopmentState :=
  {| requirements := lit "a todo app";
     development_plan := Some sample_plan;
     code_files := sample_files;
     unit_tests := [(lit "src/App.test.jsx", lit "test('renders', () => {})");
                    (lit "package.json", lit "{test: vitest}")];
     e2e_tests := [];
     deployment_url := None;
     deployment_platform := lit "vercel";
     github_repo := Some sample_repo;
     current_stage := stage_code_written;
     iteration_count := 1;
     errors := [];
     messages := [] |}.

(** A generator whose first reply holds the sample files and whose second
    reply holds the unit tests of [overlap_state]: both name
    [package.json]. *)
Definition overlap_world : World :=
  {| env_GITHUB_TOKEN := None;
     env_VERCEL_TOKEN := None;
     api_reply := fun n =>
       match n with
       | 0 => inr (serialize_files sample_files)
       | _ => inr (serialize_files (unit_tests overlap_state))
       end;
     api_calls := 0;
     http_reply := sample_http_reply;
     http_log := [];
     fs_fault := fun _ _ _ => None;
     fs_calls := 0;
     fs_log := [];
     proc_reply := fun _ => inr {| stdout := []; stderr := [] |};
     proc_calls := 0;
     live_servers := 0 |}.

(** Closes [~ In c l] for a literal list [l] that does not hold [c]. *)
Ltac not_in_literal :=
  let F := fresh "F" in
  cbn; intros F; repeat (destruct F as [F|F]; [discriminate F|]); exact F.

Section Pipeline.

(** Library functions of the interpreter that the repository calls. *)
Variable lower : str -> str.                  (* str.lower *)
Variable json_loads : str -> result json.     (* json.loads *)
Variable b64encode : str -> result str.       (* base64 of s.encode() *)
Variable format_json : json -> str.           (* str(v), as an f-string prints it *)
Variable str_of_exn : exn -> str.             (* str(e) *)

(** *** Cell 4: helpers *)

Definition call_claude : M ClaudeResult :=
  try_except
    (text <- api_create ;;
     ret {| content := text; success := true |})
    (fun e =>
       ret {| content := lit "Error: " ++ str_of_exn e; success := false |}).

(** [PROJECT_DIR / project_name] needs a string. *)
Definition save_file (project_name : json) (filename body : str) : M unit :=
  match project_name with
  | JStr p => fs_write p filename body
  | _ => raise TypeError
  end.

Definition API_ROOT : str := Eval cbv in lit "https://api.github.com".

Definition contents_url (owner repo : json) (path : str) : str :=
  API_ROOT ++ lit "/repos/" ++ format_json owner ++ lit "/" ++ format_json repo
           ++ lit "/contents/" ++ path.

Definition create_payload (name description : str) : json :=
  JObj [(lit "name", JStr name); (lit "description", JStr description);
        (lit "private", JBool false); (lit "auto_init", JBool true)].

Definition commit_payload (message content_b64 : str) (sha : json) : json :=
  JObj ([(lit "message", JStr message); (lit "content", JStr content_b64);
         (lit "branch", JStr (lit "main"))]
        ++ (if truthy sha then [(lit "sha", sha)] else [])).

(** [repo_info] is the stored repository dictionary, or [None] for the
    empty dictionary that [create_repo] is called with. *)
Definition github_operation (operation : GithubOperation)
    (repo_info : option GithubRepo) : M OperationResult :=
  token <- getenv_GITHUB_TOKEN ;;
  if no_token token then ret (OperationFailed (lit "No GitHub token"))
  else
      let tok := token_text token in
      try_except
        (match operation with
         | create_repo name description =>
             response <- http_send
               {| http_method := POST; http_url := API_ROOT ++ lit "/user/repos";
                  http_bearer := tok;
                  http_payload := Some (create_payload name description) |} ;;
             if (status_code response =? 201)%Z then
               data <- lift (json_body response) ;;
               html_url <- lift (subscript data (lit "html_url")) ;;
               owner <- lift (subscript data (lit "owner")) ;;
               login <- lift (subscript owner (lit "login")) ;;
               nm <- lift (subscript data (lit "name")) ;;
               ret (RepoCreated html_url login nm)
             else
               ret (OperationFailed
                      (lit "Status " ++ str_of_Z (status_code response)))
         | commit_file path file_content message =>
             info <- lift (match repo_info with
                           | Some r => inr r
                           | None => inl (KeyError (lit "owner"))
                           end) ;;
             owner <- lift (match repo_owner info with
                            | Some o => inr o
                            | None => inl (KeyError (lit "owner"))
                            end) ;;
             let repo := repo_name info in
             let url := contents_url owner repo path in
             get_response <- http_send (get_request tok url) ;;
             sha <- (if (status_code get_response =? 200)%Z then
                       data <- lift (json_body get_response) ;;
                       lift (get_method data (lit "sha") JNull)
                     else ret JNull) ;;
             content_b64 <- lift (b64encode file_content) ;;
             response <- http_send
               (put_request tok url (commit_payload message content_b64 sha)) ;;
             ret (Finished ((status_code response =? 200)%Z
                            || (status_code response =? 201)%Z))
         end)
        (fun e => ret (OperationFailed (str_of_exn e))).

(** *** Cell 5: manager agent *)

Definition is_approved (user_message : str) : bool :=
  existsb (fun keyword => contains keyword (lower user_message))
          approval_keywords.

Definition approval_reply (summary : str) : str :=
  CHECK_MARK ++ lit " **Requirements Approved!**" ++ NL ++ NL ++ summary
             ++ NL ++ NL ++ lit "Proceeding to development...".

Definition manager_agent (user_message : str)
    (conversation_history : list Message)
    : M (str * list Message * bool) :=
  let history :=
    conversation_history
      ++ [{| role := lit "user"; msg_content := user_message |}] in
  if is_approved user_message then
    result <- call_claude ;;
    let response := approval_reply (content result) in
    ret (response,
         history ++ [{| role := lit "assistant"; msg_content := response |}],
         true)
  else
    result <- call_claude ;;
    let response := content result in
    ret (response,
         history ++ [{| role := lit "assistant"; msg_content := response |}],
         false).

(** *** Cell 6: GitHub agent *)

(** [state.get('development_plan', {}).get('project_name', 'react-app')]
    followed by [.lower().replace(' ', '-')]. The key ['development_plan']
    is present in every state (with value [None] before planning), so the
    default of the first [get] never applies. *)
Definition repo_project_name (state : DevelopmentState) : result str :=
  match development_plan state with
  | None => inl AttributeError
  | Some plan =>
      match get_method plan (lit "project_name") (JStr (lit "react-app")) with
      | inl e => inl e
      | inr (JStr s) => inr (replace (lit " ") (lit "-") (lower s))
      | inr _ => inl AttributeError
      end
  end.

Definition format_optional (v : option str) : str :=
  match v with Some s => s | None => lit "None" end.

(** The files and the message of a milestone commit, by stage. *)
Definition milestone (stage project_name : str) (state : DevelopmentState)
    : dict * str :=
  if contains stage_code_written stage then
    (dict_merge (code_files state) (unit_tests state),
     lit "feat: Add application code with unit tests")
  else if contains stage_tests_written stage then
    (e2e_tests state, lit "test: Add E2E Playwright tests")
  else if contains stage_deployment_complete stage then
    ([(lit "README.md",
       lit "# " ++ project_name ++ NL ++ NL ++ lit "Live: "
           ++ format_optional (deployment_url state))],
     lit "docs: Add deployment URL")
  else ([], []).

Definition github_agent_node (state : DevelopmentState) : M DevelopmentState :=
  let stage := current_stage state in
  project_name <- lift (repo_project_name state) ;;
  match github_repo state with
  | None =>
      (* Initialize repo *)
      result <- github_operation
                  (create_repo project_name (firstn 100 (requirements state)))
                  None ;;
      if op_success result then
        match result with
        | RepoCreated url owner name =>
            ret (set_github_repo
                   (Some {| repo_name := name; repo_url := url;
                            repo_owner := Some owner;
                            repo_branch := Some (lit "main") |}) state)
        | _ => raise (KeyError (lit "name"))
        end
      else
        ret (set_github_repo
               (Some {| repo_name := JStr project_name;
                        repo_url := JStr LOCAL_ONLY;
                        repo_owner := None; repo_branch := None |}) state)
  | Some repo =>
      (* Commit at milestones *)
      if json_eq_str (repo_url repo) LOCAL_ONLY then ret state
      else
        let '(files_to_commit, commit_msg) := milestone stage project_name state in
        for_each
          (fun kv : str * str =>
             github_operation (commit_file (fst kv) (snd kv) commit_msg)
                              (Some repo) ;;;
             ret tt)
          (firstn 10 files_to_commit) ;;;
        ret state
  end.

(** *** Cell 7: planner agent *)

Definition planner_node (state : DevelopmentState) : M DevelopmentState :=
  result <- call_claude ;;
  let state :=
    if success result then
      let content := content result in
      let json_start := py_find (lit "{") content in
      let json_end := (py_rfind (lit "}") content + 1)%Z in
      match json_loads (py_slice content json_start json_end) with
      | inl _ => append_error (lit "Failed to parse plan") state
      | inr plan =>
          let state := set_development_plan (Some plan) state in
          match subscript plan (lit "project_name") with
          | inl _ => append_error (lit "Failed to parse plan") state
          | inr name =>
              append_message
                {| role := lit "planner";
                   msg_content := lit "Plan created: " ++ format_json name |}
                state
          end
      end
    else state in
  ret (set_current_stage stage_planning_complete state).

(** *** The artifact parser (inlined three times: lines 417-423, 457-463
    and 568-574 of the source) *)

(** [header, content = part.split('===', 1)]. *)
Definition unpack_pair (l : list str) : result (str * str) :=
  match l with
  | [a; b] => inr (a, b)
  | _ => inl ValueError
  end.

(** One iteration of the loop body: the file a part yields, if any. *)
Definition parse_part (part : str) : result (option (str * str)) :=
  if contains SEPARATOR part then
    match unpack_pair (split1 SEPARATOR part) with
    | inl e => inl e
    | inr (header, content) =>
        let filename := strip header in
        let body := strip (replace FILE_END [] content) in
        inr (Some (filename, body))
    end
  else inr None.

(** The loop with its side effect: each file is stored in the dictionary
    and written to the project directory. *)
Fixpoint parse_and_save (project_name : json) (parts : list str)
    (files : dict) : M dict :=
  match parts with
  | [] => ret files
  | part :: rest =>
      parsed <- lift (parse_part part) ;;
      match parsed with
      | Some (filename, body) =>
          save_file project_name filename body ;;;
          parse_and_save project_name rest (dict_set filename body files)
      | None => parse_and_save project_name rest files
      end
  end.

(** The same loop without the write: the mapping the parser produces. *)
Fixpoint parse_parts (parts : list str) (files : dict) : result dict :=
  match parts with
  | [] => inr files
  | part :: rest =>
      match parse_part part with
      | inl e => inl e
      | inr (Some (filename, body)) =>
          parse_parts rest (dict_set filename body files)
      | inr None => parse_parts rest files
      end
  end.

(** [parts = text.split('===FILE:')] and the loop over [parts[1:]]. *)
Definition artifact_parser (text : str) : result dict :=
  parse_parts (tl (split FILE_START text)) [].

(** *** Cell 8: developer agent *)

Definition require_plan (state : DevelopmentState) : result (json * json) :=
  match development_plan state with
  | None => inl TypeError
  | Some plan =>
      match subscript plan (lit "project_name") with
      | inl e => inl e
      | inr name => inr (plan, name)
      end
  end.

(** [plan.get('file_structure', {}).keys()] in the code prompt. *)
Definition code_prompt_check (plan : json) : result unit :=
  match get_method plan (lit "file_structure") (JObj []) with
  | inl e => inl e
  | inr fs => match keys_method fs with inl e => inl e | inr _ => inr tt end
  end.

(** [plan.get('components', [])[:3]] in the unit-test prompt. *)
Definition unit_test_prompt_check (plan : json) : result unit :=
  match get_method plan (lit "components") (JArr []) with
  | inl e => inl e
  | inr comps => if sliceable comps then inr tt else inl TypeError
  end.

Definition developer_node (state : DevelopmentState) : M DevelopmentState :=
  pn <- lift (require_plan state) ;;
  let '(plan, project_name) := pn in
  lift (code_prompt_check plan) ;;;
  result <- call_claude ;;
  state <- (if success result then
              code_files <- parse_and_save project_name
                              (tl (split FILE_START (content result))) [] ;;
              ret (set_code_files code_files state)
            else ret state) ;;
  lift (unit_test_prompt_check plan) ;;;
  test_result <- call_claude ;;
  state <- (if success test_result then
              unit_tests <- parse_and_save project_name
                              (tl (split FILE_START (content test_result))) [] ;;
              ret (set_unit_tests unit_tests state)
            else ret state) ;;
  ret (set_iteration_count (iteration_count state + 1)%Z
         (set_current_stage stage_code_written state)).

(** *** Cell 9: unit test executor *)

Definition obj_get (fields : list (str * json)) (k : str) (default : json) : json :=
  match obj_lookup k fields with Some v => v | None => default end.

Definition JNat (n : nat) : json := JInt (Z.of_nat n).

Definition failure_summary (error : str) : TestSummary :=
  {| ts_success := false; ts_total := JInt 0; ts_passed := JInt 0;
     ts_failed := JInt 0; ts_details := None; ts_error := Some error |}.

(** The [try] around [json.loads(result.stdout)] and its bare [except]:
    the counts of the JSON report when the output is a JSON object,
    otherwise the marker counts over both streams. *)
Definition unit_test_summary (result : CompletedProcess) : TestSummary :=
  match json_loads (stdout result) with
  | inr (JObj data) =>
      {| ts_success := true;
         ts_total := obj_get data (lit "numTotalTests") (JInt 0);
         ts_passed := obj_get data (lit "numPassedTests") (JInt 0);
         ts_failed := obj_get data (lit "numFailedTests") (JInt 0);
         ts_details := Some (obj_get data (lit "testResults") (JArr []));
         ts_error := None |}
  | _ =>
      let lines := stdout result ++ stderr result in
      {| ts_success := true;
         ts_total := JNat (count PASS_MARK lines + count FAIL_MARK lines);
         ts_passed := JNat (count PASS_MARK lines);
         ts_failed := JNat (count FAIL_MARK lines);
         ts_details := Some (JArr []);
         ts_error := None |}
  end.

Definition run_unit_tests (project_name : str) : M TestSummary :=
  try_except
    (subprocess_run ;;;                      (* npm install *)
     result <- subprocess_run ;;             (* npx vitest run --reporter=json *)
     ret (unit_test_summary result))
    (fun e => ret (failure_summary (str_of_exn e))).

(** *** Cell 10: tester agent *)

(** [chr(10).join(plan.get('features', []))] in the prompt. *)
Definition e2e_prompt_check (plan : json) : result unit :=
  match get_method plan (lit "features") (JArr []) with
  | inl e => inl e
  | inr features => if joinable features then inr tt else inl TypeError
  end.

Definition tester_node (state : DevelopmentState) : M DevelopmentState :=
  pn <- lift (require_plan state) ;;
  let '(plan, project_name) := pn in
  lift (e2e_prompt_check plan) ;;;
  result <- call_claude ;;
  state <- (if success result then
              e2e_tests <- parse_and_save project_name
                             (tl (split FILE_START (content result))) [] ;;
              ret (set_e2e_tests e2e_tests state)
            else ret state) ;;
  ret (set_current_stage stage_tests_written state).

(** *** Cell 11: end-to-end test executor *)

Fixpoint fold_result {A B} (f : A -> B -> result A) (l : list B) (a : A)
    : result A :=
  match l with
  | [] => inr a
  | x :: rest =>
      match f a x with
      | inl e => inl e
      | inr a' => fold_result f rest a'
      end
  end.

Definition rbind {A B} (r : result A) (k : A -> result B) : result B :=
  match r with inl e => inl e | inr a => k a end.

(** The running totals of the flattening loop. *)
Record Tally := { total : nat; passed : nat; failed : nat; details : list json }.

Definition tally_test (t : Tally) (test : json) : result Tally :=
  rbind (get_method test (lit "status") (JStr (lit "unknown"))) (fun status =>
  let ok := json_eq_str status (lit "passed") in
  rbind (get_method test (lit "title") JNull) (fun title =>
  rbind (if ok then inr JNull
         else rbind (get_method test (lit "error") (JObj []))
                    (fun err => get_method err (lit "message") JNull))
        (fun error =>
  inr {| total := S (total t);
         passed := if ok then S (passed t) else passed t;
         failed := if ok then failed t else S (failed t);
         details := details t ++
           [JObj [(lit "test", title); (lit "status", status);
                  (lit "error", error)]] |}))).

Definition tally_spec (t : Tally) (spec : json) : result Tally :=
  rbind (get_method spec (lit "tests") (JArr [])) (fun tests =>
  rbind (iterate tests) (fun items => fold_result tally_test items t)).

Definition tally_suite (t : Tally) (suite : json) : result Tally :=
  rbind (get_method suite (lit "specs") (JArr [])) (fun specs =>
  rbind (iterate specs) (fun items => fold_result tally_spec items t)).

Definition e2e_summary (result : CompletedProcess) : TestSummary :=
  match rbind (json_loads (stdout result)) (fun data =>
        rbind (get_method data (lit "suites") (JArr [])) (fun suites =>
        rbind (iterate suites) (fun items =>
        fold_result tally_suite items
          {| total := 0; passed := 0; failed := 0; details := [] |})))
  with
  | inr t =>
      {| ts_success := true; ts_total := JNat (total t);
         ts_passed := JNat (passed t); ts_failed := JNat (failed t);
         ts_details := Some (JArr (details t)); ts_error := None |}
  | inl _ => failure_summary (lit "Failed to parse test results")
  end.

Definition run_e2e_tests (project_name localhost_url : str) : M TestSummary :=
  try_except
    (subprocess_run ;;;                      (* npx playwright install *)
     subprocess_Popen ;;;                    (* dev_server = Popen(npm run dev) *)
     result <- subprocess_run ;;             (* npx playwright test *)
     terminate_and_wait ;;;                  (* Kill dev server *)
     ret (e2e_summary result))
    (fun e => ret (failure_summary (str_of_exn e))).

(** *** Cell 12: deployment agent *)

Definition VERCEL_URL : str := Eval cbv in lit "https://api.vercel.com/v13/deployments".

Definition deploy_payload (project_name : json) (repo : str) : json :=
  JObj [(lit "name", project_name);
        (lit "gitSource",
         JObj [(lit "type", JStr (lit "github")); (lit "repo", JStr repo);
               (lit "ref", JStr (lit "main"))]);
        (lit "buildCommand", JStr (lit "npm run build"));
        (lit "framework", JStr (lit "vite"))].

Definition deploy_to_vercel (project_name : json)
    (github_repo : option GithubRepo) : M DeployResult :=
  vercel_token <- getenv_VERCEL_TOKEN ;;
  if no_token vercel_token then ret (DeployFailed (lit "No Vercel token"))
  else
      let tok := token_text vercel_token in
      try_except
        (info <- lift (match github_repo with
                       | Some r => inr r
                       | None => inl TypeError
                       end) ;;
         owner <- lift (match repo_owner info with
                        | Some o => inr o
                        | None => inl (KeyError (lit "owner"))
                        end) ;;
         let repo := format_json owner ++ lit "/" ++ format_json (repo_name info) in
         response <- http_send
           {| http_method := POST; http_url := VERCEL_URL; http_bearer := tok;
              http_payload := Some (deploy_payload project_name repo) |} ;;
         if ((status_code response =? 200) || (status_code response =? 201))%Z
         then
           data <- lift (json_body response) ;;
           host <- lift (get_method data (lit "url") project_name) ;;
           lift (get_method data (lit "id") JNull) ;;;
           ret (Deployed (lit "https://" ++ format_json host ++ lit ".vercel.app"))
         else
           ret (DeployFailed (lit "Status " ++ str_of_Z (status_code response))))
        (fun e => ret (DeployFailed (str_of_exn e))).

Definition deployer_node (state : DevelopmentState) : M DevelopmentState :=
  pn <- lift (require_plan state) ;;
  let '(_, project_name) := pn in
  result <- deploy_to_vercel project_name (github_repo state) ;;
  let state :=
    match result with
    | Deployed url => set_deployment (Some url) (lit "vercel") state
    | DeployFailed error =>
        append_error (lit "Deployment failed: " ++ error) state
    end in
  ret (set_current_stage stage_deployment_complete state).

(** *** Cell 13: the workflow graph *)

Definition node_function (n : WorkflowNode)
    : DevelopmentState -> M DevelopmentState :=
  match n with
  | github_init => github_agent_node
  | planner => planner_node
  | developer => developer_node
  | github_commit_code => github_agent_node
  | tester => tester_node
  | github_commit_tests => github_agent_node
  | deployer => deployer_node
  | github_commit_deploy => github_agent_node
  end.


Definition entry_point : WorkflowNode := github_init.

(** [workflow.add_edge(a, b)]; [None] is [END]. *)
Definition edges : list (WorkflowNode * option WorkflowNode) :=
  [ (github_init, Some planner);
    (planner, Some developer);
    (developer, Some github_commit_code);
    (github_commit_code, Some tester);
    (tester, Some github_commit_tests);
    (github_commit_tests, Some deployer);
    (deployer, Some github_commit_deploy);
    (github_commit_deploy, None) ].

Definition node_eqb (a b : WorkflowNode) : bool :=
  match a, b with
  | github_init, github_init | planner, planner | developer, developer
  | github_commit_code, github_commit_code | tester, tester
  | github_commit_tests, github_commit_tests | deployer, deployer
  | github_commit_deploy, github_commit_deploy => true
  | _, _ => false
  end.

(** The target of the edge leaving [n]. *)
Fixpoint successor (n : WorkflowNode)
    (es : list (WorkflowNode * option WorkflowNode)) : option WorkflowNode :=
  match es with
  | [] => None
  | (a, b) :: rest => if node_eqb a n then b else successor n rest
  end.

(** The order in which the graph runs its nodes from [n] on. *)
Fixpoint schedule (fuel : nat) (n : WorkflowNode) : list WorkflowNode :=
  match fuel with
  | O => []
  | S fuel' =>
      n :: match successor n edges with
           | Some n' => schedule fuel' n'
           | None => []
           end
  end.

(** The compiled graph run on a state: the nodes are called one after the
    other along the edges, each on the state the graph holds, and what a
    node returns is taken in with [apply_update]; an exception of a node
    ends the run. The result lists the state the graph holds after each
    node, in order. *)
Fixpoint run_nodes (nodes : list WorkflowNode) (state : DevelopmentState)
    : M (list (WorkflowNode * DevelopmentState)) :=
  match nodes with
  | [] => ret []
  | n :: rest =>
      returned <- node_function n state ;;
      let state' := apply_update state returned in
      events <- run_nodes rest state' ;;
      ret ((n, state') :: events)
  end.

Definition run_workflow (state : DevelopmentState)
    : M (list (WorkflowNode * DevelopmentState)) :=
  run_nodes (schedule (length edges) entry_point) state.

(** The value of ['current_stage'] after each node of a run. *)
Definition stage_trace (events : list (WorkflowNode * DevelopmentState))
    : list str :=
  map (fun e => current_stage (snd e)) events.

(** *** Cell 14: the controller *)

Definition chat_with_manager (self : AgenticDevSystem) (user_message : str)
    (history : list (str * str))
    : M (AgenticDevSystem * (str * list (str * str) * str)) :=
  r <- manager_agent user_message (sys_conversation_history self) ;;
  let '(response, conversation, approved) := r in
  if (approved : bool) then
    ret ({| sys_conversation_history := conversation;
            sys_requirements := Some response |},
         (response, history ++ [(user_message, response)], lit "approved"))
  else
    ret ({| sys_conversation_history := conversation;
            sys_requirements := sys_requirements self |},
         (response, history ++ [(user_message, response)], lit "continue")).

(** [initial_state] of [run_development]. *)
Definition initial_state (requirements : str) : DevelopmentState :=
  {| requirements := requirements;
     development_plan := None;
     code_files := []; unit_tests := []; e2e_tests := [];
     deployment_url := None;
     deployment_platform := lit "vercel";
     github_repo := None;
     current_stage := stage_initial;
     iteration_count := 0;
     errors := [];
     messages := [] |}.

(** What [run_development] returns: the ["success"] report with the final
    state, or the ["error"] report with [str(e)]. *)
Definition run_development (requirements : str)
    : M (str + DevelopmentState) :=
  try_except
    (events <- run_workflow (initial_state requirements) ;;
     ret (inr (match last events (entry_point, initial_state requirements) with
               | (_, final) => final
               end)))
    (fun e => ret (inl (str_of_exn e))).

(** *** Notions used to state properties of the pipeline *)

(** [d.get(k)]. *)
Fixpoint dict_lookup (k : str) (d : dict) : option str :=
  match d with
  | [] => None
  | (k', v) :: d' => if str_eqb k k' then Some v else dict_lookup k d'
  end.

(** The files the parser's loop finds, one per well-formed part, in the
    order of the text and before they are merged into a dictionary. *)
Definition part_files (part : str) : list (str * str) :=
  match parse_part part with
  | inr (Some kv) => [kv]
  | _ => []
  end.

Definition segments (parts : list str) : list (str * str) :=
  flat_map part_files parts.

Definition text_segments (text : str) : list (str * str) :=
  segments (tl (split FILE_START text)).

(** The directory [save_file] writes under. *)
Definition project_text (project_name : json) : str :=
  match project_name with JStr p => p | _ => [] end.

(** Neither the GitHub nor the Vercel token is set. *)
Definition offline (w : World) : Prop :=
  no_token (env_GITHUB_TOKEN w) = true /\ no_token (env_VERCEL_TOKEN w) = true.

(** A computation that, started without tokens, ends without tokens and
    has sent no request to GitHub or Vercel, whether it returns or
    raises. (Calls of the generator go through its own client and are
    counted in [api_calls].) *)
Definition quiet {A} (m : M A) : Prop :=
  forall w, offline w ->
    offline (snd (m w)) /\ http_log (snd (m w)) = http_log w.

(** The running totals agree: every test counted is passed or failed and
    has one detail entry. *)
Definition tally_ok (t : Tally) : Prop :=
  total t = passed t + failed t /\ length (details t) = total t.

(** The fields no node owns: the requirements stay as they are, and the
    two logs only grow at their end, by at most [budget] error
    entries. *)
Definition extends_by (budget : nat) (state state' : DevelopmentState) : Prop :=
  requirements state' = requirements state
  /\ (exists more, errors state' = errors state ++ more
                   /\ length more <= budget)
  /\ (exists more, messages state' = messages state ++ more).



(** A computation that calls the generator at most [n] times, and
    exactly [n] times when it returns. *)
Definition generator_calls {A} (n : nat) (m : M A) : Prop :=
  forall w,
    api_calls w <= api_calls (snd (m w)) <= api_calls w + n
    /\ (forall a, fst (m w) = inr a ->
                  api_calls (snd (m w)) = api_calls w + n).

(** The generator calls of each node. *)
Definition prompts (n : WorkflowNode) : nat :=
  match n with
  | planner | tester => 1
  | developer => 2
  | _ => 0
  end.


(** What [call_claude] makes of the reply of the generator. *)
Definition claude_result (reply : result str) : ClaudeResult :=
  match reply with
  | inr text => {| content := text; success := true |}
  | inl e => {| content := lit "Error: " ++ str_of_exn e; success := false |}
  end.

(** The files a generation node writes for a reply: its segments when
    the call succeeded, none otherwise. *)
Definition writes_of (r : ClaudeResult) : list (str * str) :=
  if success r then text_segments (content r) else [].

(** The store takes every write of a list of files, in order, the first
    of them being its [n]-th write. *)
Fixpoint accepted (w : World) (n : nat) (project : str)
    (files : list (str * str)) : bool :=
  match files with
  | [] => true
  | kv :: rest =>
      match write_error w n project (fst kv) with
      | Some _ => false
      | None => accepted w (S n) project rest
      end
  end.

(** The content of the last write a log holds for a file name of a
    project. *)
Fixpoint last_write (project path : str) (log : list (str * str * str))
    : option str :=
  match log with
  | [] => None
  | (p, f, c) :: rest =>
      match last_write project path rest with
      | Some v => Some v
      | None => if str_eqb p project && str_eqb path f then Some c else None
      end
  end.


(** The same with a bound on the new ['messages'] entries as well. *)
Definition grows_by (errs msgs : nat) (state state' : DevelopmentState)
    : Prop :=
  requirements state' = requirements state
  /\ (exists more, errors state' = errors state ++ more
                   /\ length more <= errs)
  /\ (exists more, messages state' = messages state ++ more
                   /\ length more <= msgs).



(* ================================================================== *)
(** ** Properties of the string scans *)
(* ================================================================== *)

Lemma prefixb_app (p r : str) : prefixb p (p ++ r) = true.
Proof.
  induction p as [|a p IH]; simpl; [reflexivity|].
  now rewrite N.eqb_refl, IH.
Qed.

Lemma prefixb_true (p s : str) :
  prefixb p s = true -> s = p ++ skipn (length p) s.
Proof.
  revert s; induction p as [|a p IH]; intros [|b s] H; simpl in *; try easy.
  apply andb_true_iff in H as [E H]. apply N.eqb_eq in E. subst b.
  f_equal. now apply IH.
Qed.


Lemma find_none_no_occ pat s : find pat s = None -> no_occ pat s [].
Proof.
  induction s as [|c s IH]; cbn [find no_occ]; [easy|].
  destruct (prefixb pat (c :: s)) eqn:P; [discriminate|].
  destruct (find pat s); [discriminate|]. intros _.
  rewrite app_nil_r. split; [exact P | now apply IH].
Qed.

Lemma find_hit pat s : prefixb pat s = true -> find pat s = Some 0.
Proof. intros H. destruct s; cbn [find]; now rewrite H. Qed.


Lemma find_some pat s i :
  find pat s = Some i ->
  s = firstn i s ++ pat ++ skipn (i + length pat) s
  /\ no_occ pat (firstn i s) (pat ++ skipn (i + length pat) s).
Proof.
  revert i; induction s as [|c s IH]; intros i.
  - simpl. destruct pat; [|discriminate]. intros [= <-]. now simpl.
  - cbn [find]. destruct (prefixb pat (c :: s)) eqn:P.
    + intros [= <-]. simpl firstn. simpl plus. split; [|exact I].
      now apply prefixb_true.
    + destruct (find pat s) as [j|] eqn:F; [|discriminate].
      simpl. intros [= <-]. destruct (IH j eq_refl) as [E N]. simpl.
      split; [now rewrite <- E|].
      split; [now rewrite <- E | exact N].
Qed.

Lemma split_go_skip sep v cur r :
  split_go sep (length v) cur (v ++ r) = split_go sep 0 cur r.
Proof. induction v as [|c v IH]; simpl; [reflexivity | exact IH]. Qed.

Lemma split_go_no_occ sep u rest cur :
  no_occ sep u rest ->
  split_go sep 0 cur (u ++ rest) = split_go sep 0 (rev u ++ cur) rest.
Proof.
  revert cur; induction u as [|c u IH]; intros cur; simpl; [reflexivity|].
  intros [H Hu]. simpl in H. rewrite H. rewrite IH by exact Hu.
  now rewrite <- app_assoc.
Qed.

Lemma split_go_hit sep r cur :
  sep <> [] -> split_go sep 0 cur (sep ++ r) = rev cur :: split_go sep 0 [] r.
Proof.
  destruct sep as [|a sep]; [easy|]. intros _.
  cbn [app split_go]. 
  change (prefixb (a :: sep) (a :: sep ++ r)) with (prefixb (a :: sep) ((a :: sep) ++ r)).
  rewrite prefixb_app. f_equal.
  replace (length (a :: sep) - 1) with (length sep) by (simpl; lia).
  apply split_go_skip.
Qed.

Lemma split_first sep u r :
  sep <> [] -> no_occ sep u (sep ++ r) ->
  split sep (u ++ sep ++ r) = u :: split sep r.
Proof.
  intros Hs Hu. unfold split. rewrite split_go_no_occ by exact Hu.
  rewrite split_go_hit by exact Hs. now rewrite app_nil_r, rev_involutive.
Qed.

Lemma split_none sep u : no_occ sep u [] -> split sep u = [u].
Proof.
  intros Hu. unfold split. rewrite <- (app_nil_r u) at 1.
  rewrite split_go_no_occ by exact Hu. simpl.
  now rewrite app_nil_r, rev_involutive.
Qed.




(** *** Whitespace stripping, occurrences, dictionaries *)

Lemma lstrip_length s : length (lstrip s) <= length s.
Proof.
  induction s as [|c s IH]; simpl; [lia|].
  destruct (isspace c); simpl; lia.
Qed.















Lemma dict_set_in k v k' v' d :
  In (k, v) (dict_set k' v' d) -> (k = k' /\ v = v') \/ In (k, v) d.
Proof.
  induction d as [|[k0 v0] d IH]; simpl.
  - intros [[= -> ->]|[]]. now left.
  - unfold str_eqb. destruct (list_eq_dec N.eq_dec k' k0) as [->|_]; simpl.
    + intros [[= -> ->]|H]; [now left | right; now right].
    + intros [H|H]; [right; now left|].
      destruct (IH H) as [?|?]; [now left | right; now right].
Qed.

(* ================================================================== *)
(** ** The artifact parser on serialized mappings *)
(* ================================================================== *)







(* ================================================================== *)
(** ** The artifact parser on arbitrary text *)
(* ================================================================== *)

Lemma find_skipn pat s i :
  find pat s = Some i -> skipn i s = pat ++ skipn (i + length pat) s.
Proof.
  revert i; induction s as [|c s IH]; intros i.
  - cbn [find]. destruct pat; [|discriminate]. now intros [= <-].
  - cbn [find]. destruct (prefixb pat (c :: s)) eqn:P.
    + intros [= <-]. now apply prefixb_true.
    + destruct (find pat s) as [j|] eqn:F; [|discriminate].
      cbn [option_map]. intros [= <-]. cbn [skipn Nat.add]. now apply IH.
Qed.

Lemma parse_part_total part : exists r, parse_part part = inr r.
Proof.
  unfold parse_part, contains, split1.
  destruct (find SEPARATOR part); cbn [unpack_pair]; eauto.
Qed.

Lemma parse_parts_total parts : forall acc, exists d, parse_parts parts acc = inr d.
Proof.
  induction parts as [|part parts IH]; intros acc; cbn [parse_parts]; [eauto|].
  destruct (parse_part_total part) as [[[k v]|] ->]; apply IH.
Qed.

Lemma parse_part_some part k v :
  parse_part part = inr (Some (k, v)) ->
  exists header content,
    part = header ++ SEPARATOR ++ content
    /\ no_occ SEPARATOR header (SEPARATOR ++ content)
    /\ k = strip header
    /\ v = strip (replace FILE_END [] content).
Proof.
  unfold parse_part, contains, split1.
  destruct (find SEPARATOR part) as [i|] eqn:F; [|discriminate].
  cbn [unpack_pair]. intros [= <- <-].
  destruct (find_some _ _ _ F) as [E N].
  exists (firstn i part), (skipn (i + length SEPARATOR) part). auto.
Qed.

Lemma parse_parts_origin parts : forall acc d k v,
  parse_parts parts acc = inr d -> In (k, v) d ->
  In (k, v) acc \/ exists part, In part parts /\ parse_part part = inr (Some (k, v)).
Proof.
  induction parts as [|part parts IH]; intros acc d k v; cbn [parse_parts].
  - intros [= <-] H. now left.
  - destruct (parse_part part) as [e|[[k' v']|]] eqn:P; [discriminate| |].
    + intros H Hin. destruct (IH _ _ _ _ H Hin) as [Hacc|(q & Hq & Pq)].
      * apply dict_set_in in Hacc as [[-> ->]|Hacc]; [|now left].
        right. exists part. split; [now left | exact P].
      * right. exists q. split; [now right | exact Pq].
    + intros H Hin. destruct (IH _ _ _ _ H Hin) as [Hacc|(q & Hq & Pq)].
      * now left.
      * right. exists q. split; [now right | exact Pq].
Qed.

Lemma parse_parts_skip part parts acc :
  contains SEPARATOR part = false ->
  parse_parts (part :: parts) acc = parse_parts parts acc.
Proof. intros H. cbn [parse_parts]. unfold parse_part. now rewrite H. Qed.

Lemma parse_parts_all_skipped parts : forall acc,
  Forall (fun part => contains SEPARATOR part = false) parts ->
  parse_parts parts acc = inr acc.
Proof.
  induction parts as [|part parts IH]; intros acc H; [reflexivity|].
  inversion H; subst. rewrite parse_parts_skip by assumption. now apply IH.
Qed.

Lemma parser_discards_prefix text i :
  find FILE_START text = Some i ->
  artifact_parser text = artifact_parser (skipn i text).
Proof.
  intros F. unfold artifact_parser.
  destruct (find_some _ _ _ F) as [E N]. rewrite (find_skipn _ _ _ F).
  rewrite E at 1. rewrite split_first by (discriminate || exact N).
  rewrite <- (app_nil_l (FILE_START ++ _)).
  rewrite split_first by (discriminate || exact I). reflexivity.
Qed.

Lemma parser_no_marker text :
  find FILE_START text = None -> artifact_parser text = inr [].
Proof.
  intros F. unfold artifact_parser.
  rewrite split_none by now apply find_none_no_occ. reflexivity.
Qed.

Lemma parser_skips_segment seg rest :
  contains SEPARATOR seg = false ->
  no_occ FILE_START seg (FILE_START ++ rest) ->
  artifact_parser (FILE_START ++ seg ++ FILE_START ++ rest)
  = artifact_parser (FILE_START ++ rest).
Proof.
  intros Hs Hn. unfold artifact_parser.
  rewrite <- (app_nil_l (FILE_START ++ seg ++ _)).
  rewrite split_first by (discriminate || exact I).
  rewrite split_first by (discriminate || exact Hn).
  rewrite <- (app_nil_l (FILE_START ++ rest)).
  rewrite split_first by (discriminate || exact I).
  cbn [tl]. now apply parse_parts_skip.
Qed.

(** The loop of the nodes, which also writes each file, builds the same
    mapping as the parser whenever it completes. *)
Lemma parse_and_save_dict project_name parts : forall acc d w w',
  parse_and_save project_name parts acc w = (inr d, w') ->
  parse_parts parts acc = inr d.
Proof.
  induction parts as [|part parts IH]; intros acc d w w';
    cbn [parse_and_save parse_parts].
  - unfold ret. now intros [= <- _].
  - unfold bind, lift. destruct (parse_part part) as [e|[[k v]|]]; [discriminate| |].
    + destruct (save_file project_name k v w) as [[e|[]] w1]; [discriminate|].
      apply IH.
    + apply IH.
Qed.

(** Whether the store takes a list of writes depends on the store's
    behaviour only. *)
Lemma accepted_ext w0 w1 project files : forall n,
  fs_fault w1 = fs_fault w0 ->
  accepted w1 n project files = accepted w0 n project files.
Proof.
  induction files as [|kv files IH]; intros n E; cbn [accepted];
    [reflexivity|].
  replace (write_error w1 n project (fst kv))
    with (write_error w0 n project (fst kv))
    by (unfold write_error; now rewrite E).
  destruct (write_error w0 n project (fst kv)); [reflexivity | now apply IH].
Qed.

Lemma accepted_app w project a b : forall n,
  accepted w n project (a ++ b)
  = accepted w n project a && accepted w (n + length a) project b.
Proof.
  induction a as [|kv a IH]; intros n; cbn [app accepted length andb].
  - now rewrite Nat.add_0_r.
  - destruct (write_error w n project (fst kv)); [reflexivity|].
    rewrite IH. now rewrite Nat.add_succ_r.
Qed.

(** A write with an empty file name is never taken. *)
Lemma accepted_empty_path w project files body : forall n,
  In ([], body) files -> accepted w n project files = false.
Proof.
  induction files as [|[f c] files IH]; intros n; [intros []|].
  intros [E|Hin]; cbn [accepted fst].
  - injection E as -> _. reflexivity.
  - destruct (write_error w n project f); [reflexivity | now apply IH].
Qed.

(** The loop completes when the project name is a string and the store
    takes every write it asks for, and leaves the store's behaviour as it
    was. *)
Lemma parse_and_save_accepted project parts : forall acc w,
  accepted w (fs_calls w) project (segments parts) = true ->
  exists d w',
    parse_and_save (JStr project) parts acc w = (inr d, w')
    /\ fs_fault w' = fs_fault w
    /\ fs_calls w' = fs_calls w + length (segments parts).
Proof.
  induction parts as [|part parts IH]; intros acc w H;
    cbn [parse_and_save segments flat_map].
  - unfold ret. exists acc, w. cbn [length]. now rewrite Nat.add_0_r.
  - fold (segments parts). cbn [segments flat_map] in H.
    fold (segments parts) in H. unfold part_files in H |- *.
    unfold bind, lift.
    destruct (parse_part_total part) as [[[k v]|] E]; rewrite E in H |- *;
      [|cbn [app length]; now apply IH].
    cbn [app accepted fst] in H. cbn [save_file]. unfold fs_write.
    destruct (write_error w (fs_calls w) project k); [discriminate|].
    match goal with
    | |- context [parse_and_save _ _ _ ?w2] =>
        destruct (IH (dict_set k v acc) w2) as (d & w' & R & F & C)
    end.
    { rewrite <- H. now apply accepted_ext. }
    exists d, w'. split; [exact R|]. split; [exact F|].
    rewrite C. cbn [fs_calls app length]. lia.
Qed.

(** It raises when the store refuses one of them. *)
Lemma parse_and_save_refused project parts : forall acc w,
  accepted w (fs_calls w) project (segments parts) = false ->
  exists e w', parse_and_save (JStr project) parts acc w = (inl e, w').
Proof.
  induction parts as [|part parts IH]; intros acc w H;
    cbn [parse_and_save segments flat_map].
  - discriminate H.
  - fold (segments parts). cbn [segments flat_map] in H.
    fold (segments parts) in H. unfold part_files in H.
    unfold bind, lift.
    destruct (parse_part_total part) as [[[k v]|] E]; rewrite E in H |- *;
      [|now apply IH].
    cbn [app accepted fst] in H. cbn [save_file]. unfold fs_write.
    destruct (write_error w (fs_calls w) project k); [eauto|].
    apply IH. rewrite <- H. now apply accepted_ext.
Qed.

(* ================================================================== *)
(** ** The monad and the generation collaborator *)
(* ================================================================== *)

Lemma bind_inr {A B} (m : M A) (k : A -> M B) w b w' :
  bind m k w = (inr b, w') ->
  exists a w1, m w = (inr a, w1) /\ k a w1 = (inr b, w').
Proof.
  unfold bind. destruct (m w) as [[e|a] w1]; [discriminate|]. eauto.
Qed.

Lemma ret_inr {A} (x : A) w a w' : ret x w = (inr a, w') -> a = x /\ w' = w.
Proof. unfold ret. now intros [= -> ->]. Qed.

Ltac bind_inv H :=
  let a := fresh "a" in
  let w1 := fresh "w" in
  let H1 := fresh "H" in
  apply bind_inr in H as (a & w1 & H1 & H).

(** [call_claude] never raises: it answers with [success = True] and the
    reply text, or with [success = False] when the API call raised. *)
Lemma call_claude_total w :
  exists r, call_claude w = (inr r, snd (api_create w))
    /\ (success r = false <-> exists e, api_reply w (api_calls w) = inl e).
Proof.
  unfold call_claude, try_except, bind, api_create, ret. cbn [snd].
  destruct (api_reply w (api_calls w)) as [e|text].
  - eexists. split; [reflexivity|]. cbn [success]. split; eauto.
  - eexists. split; [reflexivity|]. cbn [success].
    split; [discriminate | intros [e [=]]].
Qed.

(* ================================================================== *)
(** ** The stage field after each node *)
(* ================================================================== *)

Lemma planner_node_stage state w state' w' :
  planner_node state w = (inr state', w') ->
  current_stage state' = stage_planning_complete.
Proof.
  unfold planner_node. intros H. bind_inv H.
  apply ret_inr in H as [-> _]. reflexivity.
Qed.

Lemma github_agent_node_stage state w state' w' :
  github_agent_node state w = (inr state', w') ->
  current_stage state' = current_stage state.
Proof.
  unfold github_agent_node. intros H. bind_inv H.
  destruct (github_repo state) as [repo|].
  - destruct (json_eq_str (repo_url repo) LOCAL_ONLY).
    + apply ret_inr in H as [-> _]. reflexivity.
    + destruct (milestone (current_stage state) a state) as [files msg].
      bind_inv H. apply ret_inr in H as [-> _]. reflexivity.
  - bind_inv H. destruct a0 as [url owner name|[]|err]; cbn [op_success] in H;
      try (apply ret_inr in H as [-> _]; reflexivity).
    discriminate.
Qed.

Lemma developer_node_stage state w state' w' :
  developer_node state w = (inr state', w') ->
  current_stage state' = stage_code_written.
Proof.
  unfold developer_node. intros H. bind_inv H. destruct a as [plan name].
  do 6 bind_inv H. apply ret_inr in H as [-> _]. reflexivity.
Qed.

Lemma tester_node_stage state w state' w' :
  tester_node state w = (inr state', w') ->
  current_stage state' = stage_tests_written.
Proof.
  unfold tester_node. intros H. bind_inv H. destruct a as [plan name].
  do 3 bind_inv H. apply ret_inr in H as [-> _]. reflexivity.
Qed.

Lemma deployer_node_stage state w state' w' :
  deployer_node state w = (inr state', w') ->
  current_stage state' = stage_deployment_complete.
Proof.
  unfold deployer_node. intros H. bind_inv H. destruct a as [plan name].
  bind_inv H. apply ret_inr in H as [-> _]. reflexivity.
Qed.

(** The graph is a chain: from the entry point the edges lead through the
    eight nodes, each once, to [END]. *)
Lemma schedule_is_fixed :
  schedule (length edges) entry_point
  = [github_init; planner; developer; github_commit_code;
     tester; github_commit_tests; deployer; github_commit_deploy].
Proof. reflexivity. Qed.

Lemma run_nodes_cons n rest state w events w' :
  run_nodes (n :: rest) state w = (inr events, w') ->
  exists returned w1 events1,
    node_function n state w = (inr returned, w1)
    /\ run_nodes rest (apply_update state returned) w1 = (inr events1, w')
    /\ events = (n, apply_update state returned) :: events1.
Proof.
  cbn [run_nodes]. intros H.
  apply bind_inr in H as (returned & w1 & Hn & H).
  apply bind_inr in H as (events1 & w2 & Hr & H).
  apply ret_inr in H as [-> ->]. eauto 6.
Qed.

(* ================================================================== *)
(** ** Stage sequencer: generation failure (C1) and stage order (C2) *)
(* ================================================================== *)

(** With the generator failing, a generation node changes the stage
    field only (the developer: the stage field and the iteration count). *)
Lemma generation_failure_changes_only_the_stage state w w1 r1 :
  call_claude w = (inr r1, w1) ->
  success r1 = false ->
  planner_node state w
    = (inr (set_current_stage stage_planning_complete state), w1)
  /\ (forall plan name,
        require_plan state = inr (plan, name) ->
        e2e_prompt_check plan = inr tt ->
        tester_node state w
          = (inr (set_current_stage stage_tests_written state), w1))
  /\ (forall plan name w2 r2,
        require_plan state = inr (plan, name) ->
        code_prompt_check plan = inr tt ->
        unit_test_prompt_check plan = inr tt ->
        call_claude w1 = (inr r2, w2) ->
        success r2 = false ->
        developer_node state w
          = (inr (set_iteration_count (iteration_count state + 1)%Z
                    (set_current_stage stage_code_written state)), w2)).
Proof.
  intros Hc Hs. split; [|split].
  - unfold planner_node, bind. rewrite Hc, Hs. reflexivity.
  - intros plan name Hp Hq.
    unfold tester_node, bind, lift. rewrite Hp, Hq, Hc, Hs. reflexivity.
  - intros plan name w2 r2 Hp Hq Hu Hc2 Hs2.
    unfold developer_node, bind, lift.
    rewrite Hp, Hq, Hc, Hs. cbn [ret]. rewrite Hu, Hc2, Hs2. reflexivity.
Qed.

(** C1 (amended). When the generation call of the planner or the tester
    returns [success = False], or both generation calls of the developer
    do, the node still completes and sets ['current_stage'] to its own
    completion value ([planning_complete], [tests_written],
    [code_written]), whatever the value was before the call. The tester
    and the developer need a plan that their prompts can be built from. *)
Theorem C1_generation_failure_completes_the_stage :
  forall (state : DevelopmentState) (w w1 : World) (r1 : ClaudeResult),
    call_claude w = (inr r1, w1) ->
    success r1 = false ->
    (exists state',
        planner_node state w = (inr state', w1)
        /\ current_stage state' = stage_planning_complete)
    /\ (forall plan name,
          require_plan state = inr (plan, name) ->
          e2e_prompt_check plan = inr tt ->
          exists state',
            tester_node state w = (inr state', w1)
            /\ current_stage state' = stage_tests_written)
    /\ (forall plan name w2 r2,
          require_plan state = inr (plan, name) ->
          code_prompt_check plan = inr tt ->
          unit_test_prompt_check plan = inr tt ->
          call_claude w1 = (inr r2, w2) ->
          success r2 = false ->
          exists state',
            developer_node state w = (inr state', w2)
            /\ current_stage state' = stage_code_written).
Proof.
  intros state w w1 r1 Hc Hs.
  destruct (generation_failure_changes_only_the_stage state w w1 r1 Hc Hs)
    as (P & T & D).
  split; [|split].
  - eexists. split; [exact P | reflexivity].
  - intros plan name Hp Hq. eexists. split; [exact (T _ _ Hp Hq) | reflexivity].
  - intros plan name w2 r2 Hp Hq Hu Hc2 Hs2. eexists.
    split; [exact (D _ _ _ _ Hp Hq Hu Hc2 Hs2) | reflexivity].
Qed.

(** C2 (amended). The workflow runs its eight nodes in the fixed order
    [github_init], [planner], [developer], [github_commit_code],
    [tester], [github_commit_tests], [deployer], [github_commit_deploy],
    each once. In a run that starts with ['current_stage'] at [initial]
    and in which all eight nodes complete, the field takes the values
    [initial], [planning_complete], [code_written], [tests_written],
    [deployment_complete] in this order: it changes at the planner, the
    developer, the tester and the deployer, keeps its value at the four
    repository nodes, never goes back, and is [deployment_complete] at
    the end. *)
Theorem C2_stage_field_along_a_completed_run :
  forall (state : DevelopmentState) (w w' : World)
         (events : list (WorkflowNode * DevelopmentState)),
    current_stage state = stage_initial ->
    run_workflow state w = (inr events, w') ->
    map fst events
      = [github_init; planner; developer; github_commit_code;
         tester; github_commit_tests; deployer; github_commit_deploy]
    /\ stage_trace events
      = [stage_initial; stage_planning_complete; stage_code_written;
         stage_code_written; stage_tests_written; stage_tests_written;
         stage_deployment_complete; stage_deployment_complete]
    /\ current_stage (snd (last events (entry_point, state)))
      = stage_deployment_complete.
Proof.
  intros state w w' events H0 H. unfold run_workflow in H.
  rewrite schedule_is_fixed in H.
  apply run_nodes_cons in H as (s1 & w1 & ev1 & N1 & H & ->).
  apply run_nodes_cons in H as (s2 & w2 & ev2 & N2 & H & ->).
  apply run_nodes_cons in H as (s3 & w3 & ev3 & N3 & H & ->).
  apply run_nodes_cons in H as (s4 & w4 & ev4 & N4 & H & ->).
  apply run_nodes_cons in H as (s5 & w5 & ev5 & N5 & H & ->).
  apply run_nodes_cons in H as (s6 & w6 & ev6 & N6 & H & ->).
  apply run_nodes_cons in H as (s7 & w7 & ev7 & N7 & H & ->).
  apply run_nodes_cons in H as (s8 & w8 & ev8 & N8 & H & ->).
  cbn [run_nodes] in H. apply ret_inr in H as [-> _].
  cbn [node_function] in N1, N2, N3, N4, N5, N6, N7, N8.
  apply github_agent_node_stage in N1, N4, N6, N8.
  apply planner_node_stage in N2. apply developer_node_stage in N3.
  apply tester_node_stage in N5. apply deployer_node_stage in N7.
  unfold stage_trace. cbn [map fst snd last].
  cbn [apply_update current_stage] in N1, N4, N6, N8 |- *.
  rewrite N8, N7, N6, N5, N4, N3, N2, N1, H0. auto.
Qed.

(* ================================================================== *)
(** ** Artifact parser: round trip (C4) and malformed input (C5) *)
(* ================================================================== *)


Lemma parse_part_cut part :
  contains SEPARATOR part = true ->
  exists header content,
    part = header ++ SEPARATOR ++ content
    /\ no_occ SEPARATOR header (SEPARATOR ++ content)
    /\ parse_part part
       = inr (Some (strip header, strip (replace FILE_END [] content))).
Proof.
  intros H. destruct (parse_part_total part) as [[[k v]|] P].
  - destruct (parse_part_some _ _ _ P) as (header & content & E & N & -> & ->).
    exists header, content. auto.
  - unfold parse_part in P. rewrite H in P.
    now destruct (unpack_pair (split1 SEPARATOR part)) as [e|[h c]].
Qed.

(** C5 (amended). The parsing steps of the loop (split, cut, strip) never
    raise: every text has a mapping. Text before the first start marker
    is discarded; a segment that holds no ['==='] at all is skipped; a
    text without start marker, or whose segments all lack ['==='], gives
    the empty mapping. A segment that holds ['==='] anywhere, be it only
    in its end marker, is not skipped: it is cut at its first ['==='] and
    yields the stripped text before it as path and the stripped text
    after it, end markers removed, as content; every pair of the mapping
    arises so. The loop writes each file as soon as it is parsed: it
    returns the mapping exactly when the file store takes every write,
    and raises otherwise, as it always does when a path is empty. *)
Theorem C5_parsing_never_raises_but_the_loop_can :
  forall text : str,
    exists files : dict,
      artifact_parser text = inr files
      /\ (forall i, find FILE_START text = Some i ->
            artifact_parser (skipn i text) = inr files)
      /\ (find FILE_START text = None -> files = [])
      /\ (Forall (fun part => contains SEPARATOR part = false)
                 (tl (split FILE_START text)) -> files = [])
      /\ (forall seg rest,
            contains SEPARATOR seg = false ->
            no_occ FILE_START seg (FILE_START ++ rest) ->
            artifact_parser (FILE_START ++ seg ++ FILE_START ++ rest)
            = artifact_parser (FILE_START ++ rest))
      /\ (forall part,
            contains SEPARATOR part = true ->
            exists header content,
              part = header ++ SEPARATOR ++ content
              /\ no_occ SEPARATOR header (SEPARATOR ++ content)
              /\ parse_part part
                 = inr (Some (strip header,
                              strip (replace FILE_END [] content))))
      /\ (forall k v, In (k, v) files ->
            exists header content,
              In (header ++ SEPARATOR ++ content) (tl (split FILE_START text))
              /\ no_occ SEPARATOR header (SEPARATOR ++ content)
              /\ k = strip header
              /\ v = strip (replace FILE_END [] content))
      /\ (forall project w,
            (accepted w (fs_calls w) project (text_segments text) = true ->
             exists w',
               parse_and_save (JStr project) (tl (split FILE_START text)) [] w
               = (inr files, w'))
            /\ (accepted w (fs_calls w) project (text_segments text) = false ->
                exists e w',
                  parse_and_save (JStr project) (tl (split FILE_START text))
                    [] w = (inl e, w')))
      /\ (forall project w body,
            In ([], body) (text_segments text) ->
            exists e w',
              parse_and_save (JStr project) (tl (split FILE_START text)) [] w
              = (inl e, w')).
Proof.
  intros text.
  destruct (parse_parts_total (tl (split FILE_START text)) []) as [files Hf].
  change (artifact_parser text = inr files) in Hf.
  exists files. split; [exact Hf|].
  split; [|split; [|split; [|split; [|split; [|split; [|split]]]]]].
  - intros i Hi. rewrite <- (parser_discards_prefix _ _ Hi). exact Hf.
  - intros Hn. rewrite (parser_no_marker _ Hn) in Hf. congruence.
  - intros Hall. unfold artifact_parser in Hf.
    rewrite (parse_parts_all_skipped _ _ Hall) in Hf. congruence.
  - intros seg rest. apply parser_skips_segment.
  - intros part. apply parse_part_cut.
  - intros k v Hin.
    unfold artifact_parser in Hf.
    destruct (parse_parts_origin _ _ _ _ _ Hf Hin) as [[]|(part & Hp & Hq)].
    destruct (parse_part_some _ _ _ Hq) as (header & content & -> & Hn & -> & ->).
    exists header, content. auto.
  - intros project w. unfold text_segments. split.
    + intros Ha.
      destruct (parse_and_save_accepted project (tl (split FILE_START text))
                  [] w Ha) as (d & w' & Hs & _).
      pose proof (parse_and_save_dict _ _ _ _ _ _ Hs) as Hd.
      unfold artifact_parser in Hf. rewrite Hf in Hd. injection Hd as <-.
      eauto.
    + apply parse_and_save_refused.
  - intros project w body Hin. apply parse_and_save_refused.
    exact (accepted_empty_path w project _ body _ Hin).
Qed.

(* ================================================================== *)
(** ** Approval gate (C3, C10) *)
(* ================================================================== *)

Lemma contains_true_iff pat s :
  contains pat s = true <-> exists pre post, s = pre ++ pat ++ post.
Proof.
  unfold contains. split.
  - destruct (find pat s) as [i|] eqn:F; [|discriminate]. intros _.
    destruct (find_some _ _ _ F) as [E _]. eauto.
  - intros (pre & post & ->).
    enough (exists i, find pat (pre ++ pat ++ post) = Some i) as [i ->] by reflexivity.
    induction pre as [|c pre [i IH]]; cbn [app].
    + exists 0. apply find_hit, prefixb_app.
    + cbn [find]. destruct (prefixb pat (c :: pre ++ pat ++ post)); [eauto|].
      rewrite IH. cbn. eauto.
Qed.

Lemma is_approved_iff user_message :
  is_approved user_message = true
  <-> exists keyword, In keyword approval_keywords
        /\ contains keyword (lower user_message) = true.
Proof. unfold is_approved. apply existsb_exists. Qed.

Lemma manager_agent_approved user_message history w :
  is_approved user_message = true ->
  exists r, call_claude w = (inr r, snd (api_create w))
    /\ manager_agent user_message history w
       = (inr (approval_reply (content r),
               history
                 ++ [{| role := lit "user"; msg_content := user_message |}]
                 ++ [{| role := lit "assistant";
                        msg_content := approval_reply (content r) |}],
               true),
          snd (api_create w)).
Proof.
  intros H. destruct (call_claude_total w) as (r & Hr & _).
  exists r. split; [exact Hr|].
  unfold manager_agent, bind. rewrite H, Hr. cbn [ret].
  now rewrite <- app_assoc.
Qed.

Lemma manager_agent_continue user_message history w :
  is_approved user_message = false ->
  exists r, call_claude w = (inr r, snd (api_create w))
    /\ manager_agent user_message history w
       = (inr (content r,
               history
                 ++ [{| role := lit "user"; msg_content := user_message |}]
                 ++ [{| role := lit "assistant"; msg_content := content r |}],
               false),
          snd (api_create w)).
Proof.
  intros H. destruct (call_claude_total w) as (r & Hr & _).
  exists r. split; [exact Hr|].
  unfold manager_agent, bind. rewrite H, Hr. cbn [ret].
  now rewrite <- app_assoc.
Qed.

(** C3. A message whose lower-cased text contains ["looks good"] makes
    [chat_with_manager] answer ["approved"] and set the requirements to
    the reply (so they are not [None]); and every call, approved or not,
    extends the conversation by exactly two entries: the user's message,
    then one assistant reply. *)
Theorem C3_looks_good_approves_and_chat_grows_by_two :
  forall (self : AgenticDevSystem) (user_message : str)
         (history : list (str * str)) (w : World),
    exists (self' : AgenticDevSystem) (response status : str) (w' : World),
      chat_with_manager self user_message history w
        = (inr (self', (response, history ++ [(user_message, response)], status)), w')
      /\ sys_conversation_history self'
         = sys_conversation_history self
             ++ [{| role := lit "user"; msg_content := user_message |};
                 {| role := lit "assistant"; msg_content := response |}]
      /\ length (sys_conversation_history self')
         = length (sys_conversation_history self) + 2
      /\ (contains (lit "looks good") (lower user_message) = true ->
          status = lit "approved" /\ sys_requirements self' = Some response).
Proof.
  intros self user_message history w.
  destruct (is_approved user_message) eqn:A.
  - destruct (manager_agent_approved user_message (sys_conversation_history self) w A)
      as (r & _ & Hm).
    eexists _, _, _, _. split; [|split; [|split]].
    + unfold chat_with_manager, bind. rewrite Hm. reflexivity.
    + reflexivity.
    + cbn [sys_conversation_history]. rewrite !length_app. cbn. lia.
    + intros _. split; reflexivity.
  - destruct (manager_agent_continue user_message (sys_conversation_history self) w A)
      as (r & _ & Hm).
    eexists _, _, _, _. split; [|split; [|split]].
    + unfold chat_with_manager, bind. rewrite Hm. reflexivity.
    + reflexivity.
    + cbn [sys_conversation_history]. rewrite !length_app. cbn. lia.
    + intros C. exfalso.
      assert (T : is_approved user_message = true).
      { apply is_approved_iff. exists (lit "looks good"). split; [|exact C].
        cbv. auto 10. }
      congruence.
Qed.

(** C10. The approval test is a substring test on the lower-cased
    message: the message is approved exactly when its lower-cased text
    has one of the eight phrases somewhere inside it, whatever comes
    before or after (so a lower-cased text with ["correct"] inside a
    longer word is approved); and an approved message makes the manager
    call the generator once for the requirements document and answer with
    the approval reply built from it. *)
Theorem C10_approval_is_a_substring_test :
  forall user_message : str,
    (is_approved user_message = true
     <-> exists keyword pre post,
           In keyword approval_keywords
           /\ lower user_message = pre ++ keyword ++ post)
    /\ (forall pre post,
          lower user_message = pre ++ lit "correct" ++ post ->
          is_approved user_message = true)
    /\ (is_approved user_message = true ->
        forall history w,
        exists r,
          call_claude w = (inr r, snd (api_create w))
          /\ api_calls (snd (api_create w)) = S (api_calls w)
          /\ manager_agent user_message history w
             = (inr (approval_reply (content r),
                     history
                       ++ [{| role := lit "user"; msg_content := user_message |}]
                       ++ [{| role := lit "assistant";
                              msg_content := approval_reply (content r) |}],
                     true),
                snd (api_create w))).
Proof.
  intros user_message.
  assert (E : is_approved user_message = true
     <-> exists keyword pre post,
           In keyword approval_keywords
           /\ lower user_message = pre ++ keyword ++ post).
  { rewrite is_approved_iff. split.
    - intros (k & Hk & Hc). apply contains_true_iff in Hc as (pre & post & Hc).
      eauto 6.
    - intros (k & pre & post & Hk & Hc). exists k. split; [exact Hk|].
      apply contains_true_iff. eauto. }
  split; [exact E|]. split.
  - intros pre post H. apply E. exists (lit "correct"), pre, post.
    split; [cbv; auto 10 | exact H].
  - intros A history w.
    destruct (manager_agent_approved user_message history w A) as (r & Hr & Hm).
    exists r. auto.
Qed.

(* ================================================================== *)
(** ** Repository sync (C6, C7) *)
(* ================================================================== *)

Ltac split_matches :=
  repeat match goal with
         | |- context [match ?x with _ => _ end] => destruct x eqn:?
         end.

Ltac split_all :=
  split_matches;
  repeat match goal with
         | H : (if ?c then _ else _) _ = _ |- _ => destruct c eqn:?; cbv beta in H
         | H : context [match ?x with _ => _ end] |- _ => destruct x eqn:?
         | H : (_, _) = (_, _) |- _ => inversion H; subst; clear H
         end.

(** Whatever happens, a [commit_file] operation sends nothing, or the read
    alone, or the read followed by one write to the URL it read. *)
Lemma commit_file_requests w repo_info path file_content message :
  exists reqs,
    http_log (snd (github_operation (commit_file path file_content message)
                                    repo_info w))
    = http_log w ++ reqs
    /\ (reqs = []
        \/ exists tok url,
             reqs = [get_request tok url]
             \/ exists payload,
                  reqs = [get_request tok url; put_request tok url payload]).
Proof.
  unfold github_operation, bind, getenv_GITHUB_TOKEN, try_except, lift,
    http_send, ret.
  split_all; cbn [snd http_log];
    try (exists []; split; [now rewrite app_nil_r | now left]);
    try (eexists; split; [reflexivity|]; right; eexists _, _; left; reflexivity);
    try (eexists; split; [rewrite <- app_assoc; reflexivity|];
         right; eexists _, _; right; eexists; reflexivity).
Qed.




(** [github_operation] catches what its requests raise. *)
Lemma github_operation_total operation repo_info w :
  exists r w', github_operation operation repo_info w = (inr r, w').
Proof.
  unfold github_operation, bind, getenv_GITHUB_TOKEN, try_except, ret.
  repeat match goal with
         | |- context [match ?x with _ => _ end] => destruct x
         end; eauto.
Qed.

Lemma github_operation_without_token operation repo_info w :
  no_token (env_GITHUB_TOKEN w) = true ->
  github_operation operation repo_info w
  = (inr (OperationFailed (lit "No GitHub token")), w).
Proof.
  intros H. unfold github_operation, bind, getenv_GITHUB_TOKEN, ret.
  now rewrite H.
Qed.

(** With a plan to take the project name from, a failed repository
    creation records the local-only sentinel. *)
Lemma failed_creation_records_local_only state w project_name r w' :
  github_repo state = None ->
  repo_project_name state = inr project_name ->
  github_operation (create_repo project_name (firstn 100 (requirements state)))
                   None w = (inr r, w') ->
  op_success r = false ->
  github_agent_node state w
  = (inr (set_github_repo
            (Some {| repo_name := JStr project_name;
                     repo_url := JStr LOCAL_ONLY;
                     repo_owner := None; repo_branch := None |}) state), w').
Proof.
  intros Hg Hp Ho Hs. unfold github_agent_node, bind, lift.
  now rewrite Hp, Hg, Ho, Hs.
Qed.

(** X1. Once the local-only sentinel is recorded as the repository URL, a
    repository node sends no request and changes neither the state nor
    anything else of the world: it returns the state as it is, or raises
    [AttributeError] when the plan has no usable project name. *)
Theorem X1_local_only_disables_repository_sync :
  forall (state : DevelopmentState) (w : World) (repo : GithubRepo),
    github_repo state = Some repo ->
    json_eq_str (repo_url repo) LOCAL_ONLY = true ->
    github_agent_node state w = (inr state, w)
    \/ github_agent_node state w = (inl AttributeError, w).
Proof.
  intros state w repo Hg Hu. unfold github_agent_node, bind, lift.
  destruct (repo_project_name state) as [e|pn] eqn:Hp.
  - right. unfold repo_project_name in Hp.
    destruct (development_plan state) as [plan|]; [|now inversion Hp].
    destruct plan; cbn in Hp; try (now inversion Hp).
    destruct (obj_lookup _ _) as [[]|]; now inversion Hp.
  - left. now rewrite Hg, Hu.
Qed.

(** C7 (failing input). On the state [run_development] builds, whose
    ['development_plan'] is [None], the repository node raises
    [AttributeError] before it reaches the token check: no repository
    entry, hence no local-only sentinel, is recorded, and the run ends
    with the error report. *)
Theorem C7_repository_init_raises_on_the_initial_state :
  forall (requirements : str) (w : World),
    github_agent_node (initial_state requirements) w = (inl AttributeError, w)
    /\ run_workflow (initial_state requirements) w = (inl AttributeError, w)
    /\ run_development requirements w
       = (inr (inl (str_of_exn AttributeError)), w).
Proof.
  intros requirements w.
  assert (H : github_agent_node (initial_state requirements) w
              = (inl AttributeError, w)) by reflexivity.
  split; [exact H|].
  assert (R : run_workflow (initial_state requirements) w
              = (inl AttributeError, w)).
  { unfold run_workflow. rewrite schedule_is_fixed.
    cbn [run_nodes node_function]. unfold bind at 1. now rewrite H. }
  split; [exact R|].
  unfold run_development, try_except, bind. now rewrite R.
Qed.

(* ================================================================== *)
(** ** Test executors (C8, C9) *)
(* ================================================================== *)

Lemma run_unit_tests_completed project_name w installed result :
  proc_reply w (proc_calls w) = inr installed ->
  proc_reply w (S (proc_calls w)) = inr result ->
  run_unit_tests project_name w
  = (inr (unit_test_summary result),
     set_proc (S (S (proc_calls w))) (live_servers w) w).
Proof.
  intros H1 H2.
  unfold run_unit_tests, try_except, bind, subprocess_run, ret.
  rewrite H1. cbn [set_proc proc_reply proc_calls live_servers]. rewrite H2.
  reflexivity.
Qed.

(** A text without the first character of a marker holds no occurrence
    of the marker. *)
Lemma count_go_absent (c : N) (rest s : str) : forall skip,
  ~ In c s -> count_go (c :: rest) skip s = 0.
Proof.
  induction s as [|a s IH]; intros skip Hn; cbn [count_go]; [reflexivity|].
  assert (Hs : ~ In c s) by (intros Hin; apply Hn; now right).
  destruct skip as [|k]; [|now apply IH].
  cbn [prefixb]. destruct (N.eqb_spec c a) as [->|Hne];
    [destruct Hn; now left|].
  cbn [andb]. now apply IH.
Qed.

(** C8 (failing input). When both subprocess calls of [run_unit_tests]
    return: if the runner's standard output parses as a JSON object with
    [numTotalTests] 5, [numPassedTests] 3 and [numFailedTests] 2, the
    summary has total 5, passed 3, failed 2. If it does not parse as a
    JSON object, the summary counts the two literals of the source file
    over both streams; these are not the glyphs U+2713 and U+2717 but
    three-character sequences that both start with the character 226, so
    on output without that character, whatever pass and fail glyphs it
    holds, the summary has total 0, passed 0, failed 0. *)
Theorem C8_marker_fallback_misses_the_runner_glyphs :
  forall (project_name : str) (w : World) (installed result : CompletedProcess),
    proc_reply w (proc_calls w) = inr installed ->
    proc_reply w (S (proc_calls w)) = inr result ->
    exists w',
      (forall data,
          json_loads (stdout result) = inr (JObj data) ->
          obj_lookup (lit "numTotalTests") data = Some (JInt 5) ->
          obj_lookup (lit "numPassedTests") data = Some (JInt 3) ->
          obj_lookup (lit "numFailedTests") data = Some (JInt 2) ->
          exists summary,
            run_unit_tests project_name w = (inr summary, w')
            /\ ts_success summary = true
            /\ ts_total summary = JInt 5
            /\ ts_passed summary = JInt 3
            /\ ts_failed summary = JInt 2)
      /\ ((forall data, json_loads (stdout result) <> inr (JObj data)) ->
          run_unit_tests project_name w
          = (inr {| ts_success := true;
                    ts_total :=
                      JNat (count PASS_MARK (stdout result ++ stderr result)
                            + count FAIL_MARK (stdout result ++ stderr result));
                    ts_passed :=
                      JNat (count PASS_MARK (stdout result ++ stderr result));
                    ts_failed :=
                      JNat (count FAIL_MARK (stdout result ++ stderr result));
                    ts_details := Some (JArr []); ts_error := None |}, w'))
      /\ ((forall data, json_loads (stdout result) <> inr (JObj data)) ->
          ~ In 226%N (stdout result ++ stderr result) ->
          run_unit_tests project_name w
          = (inr {| ts_success := true; ts_total := JInt 0;
                    ts_passed := JInt 0; ts_failed := JInt 0;
                    ts_details := Some (JArr []); ts_error := None |}, w')).
Proof.
  intros project_name w installed result H1 H2.
  exists (set_proc (S (S (proc_calls w))) (live_servers w) w).
  assert (F : (forall data, json_loads (stdout result) <> inr (JObj data)) ->
              unit_test_summary result
              = {| ts_success := true;
                   ts_total :=
                     JNat (count PASS_MARK (stdout result ++ stderr result)
                           + count FAIL_MARK (stdout result ++ stderr result));
                   ts_passed :=
                     JNat (count PASS_MARK (stdout result ++ stderr result));
                   ts_failed :=
                     JNat (count FAIL_MARK (stdout result ++ stderr result));
                   ts_details := Some (JArr []); ts_error := None |}).
  { intros Hn. unfold unit_test_summary.
    destruct (json_loads (stdout result)) as [e|[| | | | | |data]];
      try reflexivity.
    now destruct (Hn data). }
  split; [|split].
  - intros data Hd Ht Hp Hf. eexists. split.
    + apply (run_unit_tests_completed _ _ _ _ H1 H2).
    + unfold unit_test_summary, obj_get. rewrite Hd, Ht, Hp, Hf. auto.
  - intros Hn. rewrite (run_unit_tests_completed _ _ _ _ H1 H2).
    now rewrite (F Hn).
  - intros Hn Ha. rewrite (run_unit_tests_completed _ _ _ _ H1 H2).
    rewrite (F Hn). unfold count, PASS_MARK, FAIL_MARK.
    rewrite !(count_go_absent 226 _ _ 0 Ha). reflexivity.
Qed.

(** X2. When the Playwright installation returns, the dev server starts
    and the test run returns, [run_e2e_tests] terminates the dev server
    before it reads the report: no server it started is left running. *)
Theorem X2_dev_server_terminated_after_the_test_run :
  forall (project_name url : str) (w : World)
         (installed started result : CompletedProcess),
    proc_reply w (proc_calls w) = inr installed ->
    proc_reply w (S (proc_calls w)) = inr started ->
    proc_reply w (S (S (proc_calls w))) = inr result ->
    exists w',
      run_e2e_tests project_name url w = (inr (e2e_summary result), w')
      /\ live_servers w' = live_servers w.
Proof.
  intros project_name url w installed started result H1 H2 H3. eexists.
  unfold run_e2e_tests, try_except, bind, subprocess_run, subprocess_Popen,
    terminate_and_wait, ret.
  rewrite H1. cbn [set_proc proc_reply proc_calls live_servers]. rewrite H2.
  cbn [set_proc proc_reply proc_calls live_servers]. rewrite H3.
  cbn [set_proc proc_reply proc_calls live_servers]. split; reflexivity.
Qed.

(** C9 (failing input). When the Playwright installation returns, the dev
    server starts and the test run then raises (its 120-second time-out,
    for one), [run_e2e_tests] returns the failure summary with the dev
    server still running: the exception handler is reached without the
    termination. *)
Theorem C9_dev_server_outlives_a_raising_test_run :
  forall (project_name url : str) (w : World)
         (installed started : CompletedProcess) (e : exn),
    proc_reply w (proc_calls w) = inr installed ->
    proc_reply w (S (proc_calls w)) = inr started ->
    proc_reply w (S (S (proc_calls w))) = inl e ->
    exists w',
      run_e2e_tests project_name url w
      = (inr (failure_summary (str_of_exn e)), w')
      /\ live_servers w' = S (live_servers w).
Proof.
  intros project_name url w installed started e H1 H2 H3. eexists.
  unfold run_e2e_tests, try_except, bind, subprocess_run, subprocess_Popen,
    terminate_and_wait, ret.
  rewrite H1. cbn [set_proc proc_reply proc_calls live_servers]. rewrite H2.
  cbn [set_proc proc_reply proc_calls live_servers]. rewrite H3.
  cbn [set_proc proc_reply proc_calls live_servers]. split; reflexivity.
Qed.

(* ================================================================== *)
(** ** Further properties of the stages *)
(* ================================================================== *)


(** X3. A planner whose generator answers with text that [json.loads]
    rejects appends exactly one entry, ["Failed to parse plan"], to
    ['errors'], leaves the plan as it was and still sets the stage to
    [planning_complete]. *)
Theorem X3_unparsable_plan_is_logged_once :
  forall (state : DevelopmentState) (w w1 : World) (r : ClaudeResult) (e : exn),
    call_claude w = (inr r, w1) ->
    success r = true ->
    json_loads (py_slice (content r) (py_find (lit "{") (content r))
                         (py_rfind (lit "}") (content r) + 1)) = inl e ->
    exists state',
      planner_node state w = (inr state', w1)
      /\ errors state' = errors state ++ [lit "Failed to parse plan"]
      /\ development_plan state' = development_plan state
      /\ current_stage state' = stage_planning_complete.
Proof.
  intros state w w1 r e Hc Hs Hj. eexists. split.
  - unfold planner_node, bind. rewrite Hc, Hs, Hj. reflexivity.
  - auto.
Qed.


(** X5. Whenever the developer node completes, ['iteration_count'] has
    grown by exactly one. *)
Theorem X5_developer_counts_its_runs :
  forall (state state' : DevelopmentState) (w w' : World),
    developer_node state w = (inr state', w') ->
    iteration_count state' = (iteration_count state + 1)%Z.
Proof.
  intros state state' w w' H. unfold developer_node in H.
  apply bind_inr in H as ([plan name] & wa & _ & H).
  apply bind_inr in H as (u1 & wb & _ & H).
  apply bind_inr in H as (r1 & wc & _ & H).
  apply bind_inr in H as (s1 & wd & H1 & H).
  apply bind_inr in H as (u2 & we & _ & H).
  apply bind_inr in H as (r2 & wf & _ & H).
  apply bind_inr in H as (s2 & wg & H2 & H).
  apply ret_inr in H as [-> _]. cbn [iteration_count].
  assert (E1 : iteration_count s1 = iteration_count state).
  { destruct (success r1).
    - apply bind_inr in H1 as (d & wx & _ & H1).
      apply ret_inr in H1 as [-> _]. reflexivity.
    - apply ret_inr in H1 as [-> _]. reflexivity. }
  assert (E2 : iteration_count s2 = iteration_count s1).
  { destruct (success r2).
    - apply bind_inr in H2 as (d & wx & _ & H2).
      apply ret_inr in H2 as [-> _]. reflexivity.
    - apply ret_inr in H2 as [-> _]. reflexivity. }
  unfold set_iteration_count. cbn [iteration_count]. now rewrite E2, E1.
Qed.

Lemma count_writes_app a b : count_writes (a ++ b) = count_writes a + count_writes b.
Proof. unfold count_writes. now rewrite filter_app, length_app. Qed.

Lemma create_repo_writes_no_file name description repo_info w :
  count_writes (http_log (snd (github_operation (create_repo name description)
                                                repo_info w)))
  = count_writes (http_log w).
Proof.
  unfold github_operation, bind, getenv_GITHUB_TOKEN, try_except, lift,
    http_send, ret.
  split_all; cbn [snd http_log]; rewrite ?count_writes_app; cbn; lia.
Qed.

Lemma commit_file_writes_once path file_content message repo_info w :
  count_writes (http_log (snd (github_operation
                                 (commit_file path file_content message)
                                 repo_info w)))
  <= count_writes (http_log w) + 1.
Proof.
  destruct (commit_file_requests w repo_info path file_content message)
    as (reqs & -> & [->|(tok & url & [->|(payload & ->)])]);
    rewrite count_writes_app; cbn; lia.
Qed.

Lemma commit_loop_writes repo message files : forall w,
  count_writes
    (http_log
       (snd (for_each
               (fun kv : str * str =>
                  github_operation (commit_file (fst kv) (snd kv) message)
                                   (Some repo) ;;;
                  ret tt)
               files w)))
  <= count_writes (http_log w) + length files.
Proof.
  induction files as [|kv files IH]; intros w; cbn [for_each length].
  - unfold ret. cbn [snd]. lia.
  - unfold bind at 1. unfold bind at 1.
    pose proof (commit_file_writes_once (fst kv) (snd kv) message (Some repo) w)
      as Hw.
    destruct (github_operation_total
                (commit_file (fst kv) (snd kv) message) (Some repo) w)
      as (r & w1 & Ho).
    rewrite Ho in Hw |- *. cbn [snd] in Hw. cbn [ret].
    specialize (IH w1). lia.
Qed.

(** X6. One call of the repository node writes at most ten files, however
    many the milestone holds. *)
Theorem X6_milestone_commits_are_capped :
  forall (state : DevelopmentState) (w : World),
    count_writes (http_log (snd (github_agent_node state w)))
    <= count_writes (http_log w) + 10.
Proof.
  intros state w. unfold github_agent_node, bind at 1, lift.
  destruct (repo_project_name state) as [e|project_name]; [cbn [snd]; lia|].
  destruct (github_repo state) as [repo|].
  - destruct (json_eq_str (repo_url repo) LOCAL_ONLY); [cbn; lia|].
    destruct (milestone (current_stage state) project_name state)
      as [files message].
    pose proof (commit_loop_writes repo message (firstn 10 files) w) as Hl.
    pose proof (firstn_le_length 10 files) as Hf.
    unfold bind.
    destruct (for_each _ (firstn 10 files) w) as [[e|[]] w1];
      cbn [snd ret] in Hl |- *; lia.
  - pose proof (create_repo_writes_no_file project_name
                  (firstn 100 (requirements state)) None w) as Hc.
    unfold bind.
    destruct (github_operation _ None w) as [[e|r] w1]; cbn [snd] in Hc |- *;
      [lia|].
    destruct (op_success r); [destruct r|]; cbn; lia.
Qed.

(* ================================================================== *)
(** ** The parsed mapping: distinct stripped paths, last segment wins *)
(* ================================================================== *)

Lemma str_eqb_true a b : str_eqb a b = true <-> a = b.
Proof. unfold str_eqb. destruct (list_eq_dec N.eq_dec a b); split; easy. Qed.

Lemma dict_set_keys k v d :
  dict_keys (dict_set k v d)
  = if existsb (str_eqb k) (dict_keys d) then dict_keys d else dict_keys d ++ [k].
Proof.
  induction d as [|[k' v'] d IH]; cbn [dict_set dict_keys map fst existsb];
    [reflexivity|].
  destruct (str_eqb k k') eqn:E; cbn [orb map fst]; [reflexivity|].
  fold (dict_keys (dict_set k v d)). fold (dict_keys d). rewrite IH.
  destruct (existsb (str_eqb k) (dict_keys d)); reflexivity.
Qed.

Lemma dict_set_NoDup k v d :
  NoDup (dict_keys d) -> NoDup (dict_keys (dict_set k v d)).
Proof.
  intros H. rewrite dict_set_keys.
  destruct (existsb (str_eqb k) (dict_keys d)) eqn:E; [exact H|].
  apply NoDup_app; [exact H | repeat constructor; easy |].
  intros x Hx [->|[]].
  assert (T : existsb (str_eqb x) (dict_keys d) = true).
  { apply existsb_exists. exists x. split; [exact Hx | now apply str_eqb_true]. }
  congruence.
Qed.

Lemma dict_set_length k v d : length (dict_set k v d) <= S (length d).
Proof.
  induction d as [|[k' v'] d IH]; cbn [dict_set length]; [lia|].
  destruct (str_eqb k k'); cbn [length]; lia.
Qed.

Lemma lstrip_head s c r : lstrip s = c :: r -> isspace c = false.
Proof.
  induction s as [|x s IH]; cbn [lstrip]; [discriminate|].
  destruct (isspace x) eqn:E; [exact IH|]. now intros [= <- _].
Qed.

Lemma lstrip_idempotent s : lstrip (lstrip s) = lstrip s.
Proof.
  destruct (lstrip s) as [|c r] eqn:E; [reflexivity|].
  cbn [lstrip]. now rewrite (lstrip_head _ _ _ E).
Qed.

Lemma lstrip_split s :
  exists ws, s = ws ++ lstrip s /\ forallb isspace ws = true.
Proof.
  induction s as [|c s (ws & E & H)]; [now exists []|].
  cbn [lstrip]. destruct (isspace c) eqn:C.
  - exists (c :: ws). cbn [app forallb]. rewrite C, H. now rewrite <- E.
  - now exists [].
Qed.

(** [strip] leaves nothing to strip. *)
Lemma strip_idempotent s : strip (strip s) = strip s.
Proof.
  unfold strip, rstrip.
  set (t := lstrip s). set (u := lstrip (rev t)).
  assert (Hu : lstrip u = u) by apply lstrip_idempotent.
  assert (Ht : lstrip t = t) by apply lstrip_idempotent.
  assert (Hr : lstrip (rev u) = rev u).
  { destruct (lstrip_split (rev t)) as (ws & E & _). fold u in E.
    apply (f_equal (@rev N)) in E. rewrite rev_involutive, rev_app_distr in E.
    destruct (rev u) as [|c r] eqn:R; [reflexivity|].
    cbn [app] in E. rewrite E in Ht. cbn [lstrip] in Ht |- *.
    destruct (isspace c); [|reflexivity].
    pose proof (lstrip_length (r ++ rev ws)) as L.
    apply (f_equal (@length N)) in Ht. cbn [length] in Ht. lia. }
  now rewrite Hr, rev_involutive, Hu.
Qed.

Lemma parse_part_stripped part k v :
  parse_part part = inr (Some (k, v)) -> strip k = k /\ strip v = v.
Proof.
  intros H. destruct (parse_part_some _ _ _ H) as (h & c & _ & _ & -> & ->).
  split; apply strip_idempotent.
Qed.

Lemma split_go_length sep s : forall skip cur,
  length (split_go sep skip cur s) = S (count_go sep skip s).
Proof.
  induction s as [|c s IH]; intros skip cur; cbn [split_go count_go];
    [reflexivity|].
  destruct skip; [|apply IH].
  destruct (prefixb sep (c :: s)); cbn [length]; now rewrite IH.
Qed.

Lemma parse_parts_invariants parts : forall acc files,
  parse_parts parts acc = inr files ->
  NoDup (dict_keys acc) ->
  Forall (fun kv => strip (fst kv) = fst kv /\ strip (snd kv) = snd kv) acc ->
  NoDup (dict_keys files)
  /\ Forall (fun kv => strip (fst kv) = fst kv /\ strip (snd kv) = snd kv) files
  /\ length files <= length acc + length parts.
Proof.
  induction parts as [|part parts IH]; intros acc files; cbn [parse_parts].
  - intros [= <-] Hn Hs. cbn [length]. auto with arith.
  - destruct (parse_part part) as [e|[[k v]|]] eqn:P; [discriminate| |].
    + intros H Hn Hs.
      destruct (parse_part_stripped _ _ _ P) as [Sk Sv].
      destruct (IH _ _ H (dict_set_NoDup k v _ Hn)) as (A & B & C).
      * apply Forall_forall. intros [k' v'] Hin.
        apply dict_set_in in Hin as [[-> ->]|Hin]; [now split|].
        rewrite Forall_forall in Hs. exact (Hs _ Hin).
      * pose proof (dict_set_length k v acc). cbn [length]. repeat split; auto; lia.
    + intros H Hn Hs. destruct (IH _ _ H Hn Hs) as (A & B & C).
      cbn [length]. repeat split; auto; lia.
Qed.

(** X7. For every text the parser returns a mapping whose paths are
    pairwise distinct, whose paths and contents carry no leading or
    trailing whitespace, and that holds at most as many files as the text
    has start markers. *)
Theorem X7_parsed_paths_are_distinct_and_stripped :
  forall text : str,
    exists files : dict,
      artifact_parser text = inr files
      /\ NoDup (dict_keys files)
      /\ Forall (fun kv => strip (fst kv) = fst kv /\ strip (snd kv) = snd kv)
                files
      /\ length files <= count FILE_START text.
Proof.
  intros text.
  destruct (parse_parts_total (tl (split FILE_START text)) []) as [files Hf].
  exists files. split; [exact Hf|].
  destruct (parse_parts_invariants _ _ _ Hf (NoDup_nil _) (Forall_nil _))
    as (A & B & C).
  split; [exact A|]. split; [exact B|].
  assert (L : length (tl (split FILE_START text)) = count FILE_START text).
  { unfold split, count.
    pose proof (split_go_length FILE_START text 0 []) as E.
    destruct (split_go FILE_START 0 [] text); cbn [length tl] in *; lia. }
  cbn [length] in C. lia.
Qed.

Lemma dict_lookup_set k k' v d :
  dict_lookup k' (dict_set k v d)
  = if str_eqb k' k then Some v else dict_lookup k' d.
Proof.
  induction d as [|[k0 v0] d IH]; cbn [dict_set dict_lookup]; [reflexivity|].
  destruct (str_eqb k k0) eqn:E.
  - apply str_eqb_true in E. subst k0. cbn [dict_lookup].
    now destruct (str_eqb k' k).
  - cbn [dict_lookup]. destruct (str_eqb k' k0) eqn:E0; [|exact IH].
    apply str_eqb_true in E0. subst k0.
    destruct (str_eqb k' k) eqn:E1; [|reflexivity].
    apply str_eqb_true in E1. subst k'.
    assert (T : str_eqb k k = true) by now apply str_eqb_true.
    congruence.
Qed.

Lemma dict_lookup_app k a b :
  dict_lookup k (a ++ b)
  = match dict_lookup k a with Some v => Some v | None => dict_lookup k b end.
Proof.
  induction a as [|[k0 v0] a IH]; cbn [app dict_lookup]; [reflexivity|].
  now destruct (str_eqb k k0).
Qed.

(** Storing a list of pairs one after the other: the last pair with a
    given key decides. *)
Lemma dict_lookup_fold k l : forall acc,
  dict_lookup k (fold_left (fun d kv => dict_set (fst kv) (snd kv) d) l acc)
  = match dict_lookup k (rev l) with
    | Some v => Some v
    | None => dict_lookup k acc
    end.
Proof.
  induction l as [|[k0 v0] l IH]; intros acc; cbn [fold_left rev];
    [reflexivity|].
  rewrite IH, dict_lookup_app. cbn [fst snd dict_lookup].
  destruct (dict_lookup k (rev l)); [reflexivity|].
  rewrite dict_lookup_set. now destruct (str_eqb k k0).
Qed.

Lemma parse_parts_fold parts : forall acc,
  parse_parts parts acc
  = inr (fold_left (fun d kv => dict_set (fst kv) (snd kv) d)
                   (segments parts) acc).
Proof.
  induction parts as [|part parts IH]; intros acc;
    cbn [parse_parts segments flat_map]; [reflexivity|].
  fold (segments parts). unfold part_files.
  destruct (parse_part_total part) as [[[k v]|] ->]; cbn [app fold_left];
    apply IH.
Qed.

(** X8. When a text names the same path in several well-formed segments,
    the mapping holds the content of the last of them: looking a path up
    in the parsed mapping gives what the last segment with that path
    carries, and nothing for a path no segment carries. *)
Theorem X8_last_segment_of_a_path_wins :
  forall (text path : str),
    exists files : dict,
      artifact_parser text = inr files
      /\ dict_lookup path files = dict_lookup path (rev (text_segments text)).
Proof.
  intros text path. eexists. split.
  - unfold artifact_parser. apply parse_parts_fold.
  - rewrite dict_lookup_fold. unfold text_segments.
    now destruct (dict_lookup path (rev (segments (tl (split FILE_START text))))).
Qed.

(* ================================================================== *)
(** ** What the generation nodes record and write *)
(* ================================================================== *)

Lemma fold_dict_set_in k v l : forall acc,
  In (k, v) (fold_left (fun d kv => dict_set (fst kv) (snd kv) d) l acc) ->
  In (k, v) acc \/ In (k, v) l.
Proof.
  induction l as [|[k0 v0] l IH]; intros acc; cbn [fold_left fst snd];
    [now left|].
  intros H. destruct (IH _ H) as [Ha|Hl]; [|right; now right].
  apply dict_set_in in Ha as [[-> ->]|Ha]; [right; now left | now left].
Qed.

(** The loop of the nodes writes every segment, in order, under the
    project's directory, and returns the segments stored one by one. *)
Lemma parse_and_save_effect project_name parts : forall acc w d w',
  parse_and_save project_name parts acc w = (inr d, w') ->
  d = fold_left (fun d kv => dict_set (fst kv) (snd kv) d) (segments parts) acc
  /\ fs_log w'
     = fs_log w
         ++ map (fun kv => (project_text project_name, fst kv, snd kv))
                (segments parts).
Proof.
  induction parts as [|part parts IH]; intros acc w d w';
    cbn [parse_and_save segments flat_map].
  - unfold ret. intros [= <- <-]. cbn [fold_left map]. now rewrite app_nil_r.
  - fold (segments parts). unfold bind, lift, part_files.
    destruct (parse_part part) as [e|[[k v]|]]; [discriminate| |].
    + unfold save_file. destruct project_name as [| | | |p| |];
        try discriminate.
      unfold fs_write.
      destruct (write_error w (fs_calls w) p k); [discriminate|].
      intros H. apply IH in H as [-> ->]. cbn [fs_log app fold_left map fst snd
        project_text]. split; [reflexivity|]. now rewrite <- app_assoc.
    + cbn [app]. apply IH.
Qed.

Lemma call_claude_keeps_files w r w1 :
  call_claude w = (inr r, w1) -> fs_log w1 = fs_log w.
Proof.
  unfold call_claude, try_except, bind, api_create, ret.
  destruct (api_reply w (api_calls w)); now intros [= _ <-].
Qed.

(** The block both generation nodes run on a reply: on success the
    parser's mapping replaces the old one and its segments are written;
    on failure nothing happens. *)
Lemma recording_block project_name r
      (setter : dict -> DevelopmentState -> DevelopmentState) state w state1 w1 :
  (if success r
   then files <- parse_and_save project_name
                   (tl (split FILE_START (content r))) [] ;;
        ret (setter files state)
   else ret state) w = (inr state1, w1) ->
  (if success r
   then exists files,
          artifact_parser (content r) = inr files /\ state1 = setter files state
   else state1 = state)
  /\ fs_log w1
     = fs_log w
         ++ map (fun kv => (project_text project_name, fst kv, snd kv))
                (if success r then text_segments (content r) else []).
Proof.
  destruct (success r).
  - intros H. apply bind_inr in H as (files & w2 & Hp & H).
    apply ret_inr in H as [-> ->].
    pose proof (parse_and_save_dict _ _ _ _ _ _ Hp) as Hd.
    apply parse_and_save_effect in Hp as [_ Hl].
    split; [exists files; now split | exact Hl].
  - intros H. apply ret_inr in H as [-> ->]. cbn [map].
    now rewrite app_nil_r.
Qed.

Lemma call_claude_result w :
  call_claude w
  = (inr (claude_result (api_reply w (api_calls w))), snd (api_create w)).
Proof.
  unfold call_claude, try_except, bind, api_create, ret, claude_result.
  cbn [snd]. now destruct (api_reply w (api_calls w)).
Qed.

(** The loop leaves the generator and the store's behaviour alone,
    whether it returns or raises. *)
Lemma parse_and_save_frame project_name parts : forall acc w,
  api_reply (snd (parse_and_save project_name parts acc w)) = api_reply w
  /\ api_calls (snd (parse_and_save project_name parts acc w)) = api_calls w
  /\ fs_fault (snd (parse_and_save project_name parts acc w)) = fs_fault w.
Proof.
  induction parts as [|part parts IH]; intros acc w; cbn [parse_and_save].
  - now cbn.
  - unfold bind, lift.
    destruct (parse_part_total part) as [[[k v]|] ->]; [|apply IH].
    unfold save_file. destruct project_name as [| | | |p| |]; try (now cbn).
    unfold fs_write. destruct (write_error w (fs_calls w) p k); [now cbn|].
    match goal with
    | |- context [parse_and_save _ _ ?a ?w2] =>
        destruct (IH a w2) as (A & B & C)
    end.
    rewrite A, B, C. now cbn.
Qed.

Lemma recording_block_frame project_name r
      (setter : dict -> DevelopmentState -> DevelopmentState) state w state1 w1 :
  (if success r
   then files <- parse_and_save project_name
                   (tl (split FILE_START (content r))) [] ;;
        ret (setter files state)
   else ret state) w = (inr state1, w1) ->
  api_reply w1 = api_reply w /\ api_calls w1 = api_calls w.
Proof.
  destruct (success r).
  - intros H. apply bind_inr in H as (files & w2 & Hp & H).
    apply ret_inr in H as [_ ->].
    destruct (parse_and_save_frame project_name
                (tl (split FILE_START (content r))) [] w) as (A & B & _).
    rewrite Hp in A, B. now split.
  - intros H. apply ret_inr in H as [_ ->]. now split.
Qed.

Lemma last_write_app project path a b :
  last_write project path (a ++ b)
  = match last_write project path b with
    | Some v => Some v
    | None => last_write project path a
    end.
Proof.
  induction a as [|[[p f] c] a IH]; cbn [app last_write].
  - now destruct (last_write project path b).
  - rewrite IH. now destruct (last_write project path b).
Qed.

(** Among the writes of a list of files under one project, the last one
    to a path carries what the list, read from its end, holds for it. *)
Lemma last_write_files project path files :
  last_write project path
    (map (fun kv : str * str => (project, fst kv, snd kv)) files)
  = dict_lookup path (rev files).
Proof.
  induction files as [|[k v] files IH]; cbn [map last_write rev fst snd];
    [reflexivity|].
  rewrite IH, dict_lookup_app. cbn [dict_lookup].
  destruct (dict_lookup path (rev files)); [reflexivity|].
  assert (T : str_eqb project project = true) by now apply str_eqb_true.
  rewrite T. cbn [andb]. reflexivity.
Qed.

Lemma writes_of_lookup r files path :
  success r = true ->
  artifact_parser (content r) = inr files ->
  dict_lookup path files = dict_lookup path (rev (writes_of r)).
Proof.
  intros Hs Hp. unfold writes_of. rewrite Hs.
  unfold artifact_parser in Hp. rewrite parse_parts_fold in Hp.
  injection Hp as <-. rewrite dict_lookup_fold. unfold text_segments.
  now destruct (dict_lookup path (rev (segments (tl (split FILE_START (content r)))))).
Qed.

(** X9. Whenever the developer node completes, with [r1] and [r2] what
    [call_claude] made of the first and of the second reply the
    generator gave in this run: for each reply that succeeded the state
    holds exactly the parser's mapping of that reply (the previous
    mapping is replaced, not extended), and for a reply that failed the
    mapping is left as it was; the writes sent to the project directory
    are exactly the segments of the successful replies, code first, then
    unit tests, each under the plan's project name. So the last write to
    a path carries what the unit tests record for it, and what the code
    files record for it when no unit-test segment names the same path;
    a path named by both ends with the unit test's content, whatever the
    code files record. *)
Theorem X9_developer_records_and_writes_what_it_parsed :
  forall (state state' : DevelopmentState) (w w' : World),
    developer_node state w = (inr state', w') ->
    exists (plan name : json) (r1 r2 : ClaudeResult),
      require_plan state = inr (plan, name)
      /\ r1 = claude_result (api_reply w (api_calls w))
      /\ r2 = claude_result (api_reply w (S (api_calls w)))
      /\ (if success r1
          then artifact_parser (content r1) = inr (code_files state')
          else code_files state' = code_files state)
      /\ (if success r2
          then artifact_parser (content r2) = inr (unit_tests state')
          else unit_tests state' = unit_tests state)
      /\ fs_log w'
         = fs_log w
             ++ map (fun kv => (project_text name, fst kv, snd kv))
                    (writes_of r1 ++ writes_of r2)
      /\ (forall path,
            last_write (project_text name) path (fs_log w')
            = match dict_lookup path (rev (writes_of r2)) with
              | Some v => Some v
              | None =>
                  match dict_lookup path (rev (writes_of r1)) with
                  | Some v => Some v
                  | None => last_write (project_text name) path (fs_log w)
                  end
              end)
      /\ (success r2 = true ->
          forall path v,
            dict_lookup path (unit_tests state') = Some v ->
            last_write (project_text name) path (fs_log w') = Some v)
      /\ (success r1 = true ->
          forall path v,
            dict_lookup path (code_files state') = Some v ->
            dict_lookup path (rev (writes_of r2)) = None ->
            last_write (project_text name) path (fs_log w') = Some v).
Proof.
  intros state state' w w' H. unfold developer_node in H.
  apply bind_inr in H as ([plan name] & wa & Ha & H).
  apply bind_inr in H as (u1 & wb & Hb & H).
  apply bind_inr in H as (r1 & wc & Hc & H).
  apply bind_inr in H as (s1 & wd & H1 & H).
  apply bind_inr in H as (u2 & we & He & H).
  apply bind_inr in H as (r2 & wf & Hf & H).
  apply bind_inr in H as (s2 & wg & H2 & H).
  apply ret_inr in H as [-> ->].
  unfold lift in Ha, Hb, He.
  injection Ha as Ha <-. injection Hb as _ <-. injection He as _ <-.
  rewrite call_claude_result in Hc. injection Hc as <- <-.
  destruct (recording_block_frame _ _ _ _ _ _ _ H1) as (A1 & C1).
  rewrite call_claude_result in Hf. injection Hf as Er2 <-.
  rewrite A1, C1 in Er2. cbn [api_create snd api_reply api_calls] in Er2.
  set (r1 := claude_result (api_reply w (api_calls w))) in *.
  apply recording_block in H1 as [B1 L1]. apply recording_block in H2 as [B2 L2].
  fold (writes_of r1) in L1. fold (writes_of r2) in L2.
  cbn [api_create snd fs_log] in L1, L2.
  assert (L : fs_log wg
              = fs_log w
                  ++ map (fun kv => (project_text name, fst kv, snd kv))
                       (writes_of r1 ++ writes_of r2)).
  { rewrite L2, L1, map_app. now rewrite <- app_assoc. }
  assert (P1 : if success r1
               then artifact_parser (content r1) = inr (code_files s2)
               else code_files s2 = code_files state).
  { destruct (success r1), (success r2).
    - destruct B1 as (f1 & P1 & ->), B2 as (f2 & _ & ->). exact P1.
    - destruct B1 as (f1 & P1 & ->). subst s2. exact P1.
    - destruct B2 as (f2 & _ & ->). now subst s1.
    - now subst s2 s1. }
  assert (P2 : if success r2
               then artifact_parser (content r2) = inr (unit_tests s2)
               else unit_tests s2 = unit_tests state).
  { destruct (success r1), (success r2).
    - destruct B1 as (f1 & _ & ->), B2 as (f2 & P2 & ->). exact P2.
    - destruct B1 as (f1 & _ & ->). now subst s2.
    - destruct B2 as (f2 & P2 & ->). exact P2.
    - now subst s2 s1. }
  assert (W : forall path,
            last_write (project_text name) path (fs_log wg)
            = match dict_lookup path (rev (writes_of r2)) with
              | Some v => Some v
              | None =>
                  match dict_lookup path (rev (writes_of r1)) with
                  | Some v => Some v
                  | None => last_write (project_text name) path (fs_log w)
                  end
              end).
  { intros path. rewrite L, last_write_app, last_write_files.
    rewrite rev_app_distr, dict_lookup_app.
    now destruct (dict_lookup path (rev (writes_of r2))). }
  exists plan, name, r1, r2.
  split; [exact Ha|]. split; [reflexivity|]. split; [now symmetry|].
  cbn [code_files unit_tests set_iteration_count set_current_stage].
  split; [exact P1|]. split; [exact P2|]. split; [exact L|].
  split; [exact W|]. split.
  - intros S2 path v Hv. rewrite S2 in P2.
    rewrite (writes_of_lookup r2 _ path S2 P2) in Hv.
    rewrite W, Hv. reflexivity.
  - intros S1 path v Hv Hn. rewrite S1 in P1.
    rewrite (writes_of_lookup r1 _ path S1 P1) in Hv.
    rewrite W, Hn, Hv. reflexivity.
Qed.

(* ================================================================== *)
(** ** The repository entry and the milestones *)
(* ================================================================== *)

Lemma repo_project_name_error state e :
  repo_project_name state = inl e -> e = AttributeError.
Proof.
  unfold repo_project_name.
  destruct (development_plan state) as [plan|]; [|now intros [= <-]].
  destruct plan; cbn [get_method]; try (now intros [= <-]).
  destruct (obj_lookup _ _) as [[]|]; cbn; now intros [= <-].
Qed.

(** X10. A repository node that completes changes nothing of the state
    but the repository entry, and that only when there was none: an
    entry, once set, is never replaced, and the entry it sets is the
    local-only one or one with an owner and the branch [main]. *)
Theorem X10_repository_entry_is_set_once :
  forall (state state' : DevelopmentState) (w w' : World),
    github_agent_node state w = (inr state', w') ->
    (forall repo, github_repo state = Some repo -> state' = state)
    /\ (github_repo state = None ->
        exists repo,
          state' = set_github_repo (Some repo) state
          /\ ((repo_url repo = JStr LOCAL_ONLY /\ repo_owner repo = None)
              \/ (exists owner, repo_owner repo = Some owner
                               /\ repo_branch repo = Some (lit "main")))).
Proof.
  intros state state' w w' H. unfold github_agent_node in H.
  apply bind_inr in H as (pn & w1 & _ & H).
  destruct (github_repo state) as [repo|].
  - split; [|discriminate]. intros _ _.
    destruct (json_eq_str (repo_url repo) LOCAL_ONLY).
    + now apply ret_inr in H as [-> _].
    + destruct (milestone (current_stage state) pn state) as [files msg].
      apply bind_inr in H as (u & w2 & _ & H). now apply ret_inr in H as [-> _].
  - split; [discriminate|]. intros _.
    apply bind_inr in H as (r & w2 & _ & H).
    destruct (op_success r).
    + destruct r as [url owner name| |]; try discriminate.
      apply ret_inr in H as [-> _]. eexists. split; [reflexivity|].
      right. eexists. split; reflexivity.
    + apply ret_inr in H as [-> _]. eexists. split; [reflexivity|].
      left. split; reflexivity.
Qed.

(** X11. With a repository entry present and a stage that names no
    milestone (as [initial] and [planning_complete]), a repository node
    is a no-op: it sends no request and returns the state as it is (or
    raises [AttributeError] when the plan has no usable project name).
    Calling it a second time is harmless. *)
Theorem X11_repository_node_without_milestone_is_a_no_op :
  forall (state : DevelopmentState) (w : World) (repo : GithubRepo),
    github_repo state = Some repo ->
    contains stage_code_written (current_stage state) = false ->
    contains stage_tests_written (current_stage state) = false ->
    contains stage_deployment_complete (current_stage state) = false ->
    github_agent_node state w = (inr state, w)
    \/ github_agent_node state w = (inl AttributeError, w).
Proof.
  intros state w repo Hg H1 H2 H3. unfold github_agent_node, bind, lift.
  destruct (repo_project_name state) as [e|pn] eqn:Hp.
  - right. now rewrite (repo_project_name_error _ _ Hp).
  - left. rewrite Hg. unfold milestone. rewrite H1, H2, H3.
    now destruct (json_eq_str (repo_url repo) LOCAL_ONLY).
Qed.

(** X12. In local-only mode (a repository entry without owner) the
    deployer sends no request: the deployment fails before the request
    is built, exactly one ["Deployment failed: ..."] entry is appended to
    ['errors'], nothing else changes, and the stage still becomes
    [deployment_complete]. *)
Theorem X12_local_only_deployment_fails_without_a_request :
  forall (state : DevelopmentState) (w : World) (repo : GithubRepo)
         (plan name : json),
    github_repo state = Some repo ->
    repo_owner repo = None ->
    require_plan state = inr (plan, name) ->
    exists error,
      deployer_node state w
      = (inr (set_current_stage stage_deployment_complete
                (append_error (lit "Deployment failed: " ++ error) state)), w)
      /\ error = (if no_token (env_VERCEL_TOKEN w)
                  then lit "No Vercel token"
                  else str_of_exn (KeyError (lit "owner"))).
Proof.
  intros state w repo plan name Hg Ho Hp. eexists. split; [|reflexivity].
  unfold deployer_node, bind, lift. rewrite Hp.
  unfold deploy_to_vercel, bind, getenv_VERCEL_TOKEN, try_except, lift, ret.
  rewrite Hg, Ho. now destruct (no_token (env_VERCEL_TOKEN w)).
Qed.

(* ================================================================== *)
(** ** A run without credentials *)
(* ================================================================== *)

Lemma quiet_ret {A} (a : A) : quiet (ret a).
Proof. intros w H. now split. Qed.

Lemma quiet_raise {A} (e : exn) : quiet (@raise A e).
Proof. intros w H. now split. Qed.

Lemma quiet_lift {A} (r : result A) : quiet (lift r).
Proof. intros w H. now split. Qed.

Lemma quiet_bind {A B} (m : M A) (k : A -> M B) :
  quiet m -> (forall a, quiet (k a)) -> quiet (bind m k).
Proof.
  intros Hm Hk w H. unfold bind. destruct (Hm w H) as [O L].
  destruct (m w) as [[e|a] w1]; cbn [snd] in O, L |- *; [now split|].
  destruct (Hk a w1 O) as [O2 L2]. split; [exact O2 | congruence].
Qed.

Lemma quiet_try {A} (m : M A) (h : exn -> M A) :
  quiet m -> (forall e, quiet (h e)) -> quiet (try_except m h).
Proof.
  intros Hm Hh w H. unfold try_except. destruct (Hm w H) as [O L].
  destruct (m w) as [[e|a] w1]; cbn [snd] in O, L |- *; [|now split].
  destruct (Hh e w1 O) as [O2 L2]. split; [exact O2 | congruence].
Qed.

Lemma quiet_for_each {A} (f : A -> M unit) l :
  (forall x, quiet (f x)) -> quiet (for_each f l).
Proof.
  intros Hf. induction l as [|x l IH]; cbn [for_each]; [apply quiet_ret|].
  apply quiet_bind; [apply Hf | intros _; exact IH].
Qed.

Lemma quiet_call_claude : quiet call_claude.
Proof. intros w H. unfold call_claude, try_except, bind, api_create, ret.
  destruct (api_reply w (api_calls w)); now split. Qed.

Lemma quiet_save_file project_name filename body :
  quiet (save_file project_name filename body).
Proof.
  intros w H. unfold save_file.
  destruct project_name; try (now split).
  unfold fs_write.
  match goal with
  | |- context [write_error w ?n ?a ?b] => destruct (write_error w n a b)
  end; now split.
Qed.

Lemma quiet_parse_and_save project_name parts : forall acc,
  quiet (parse_and_save project_name parts acc).
Proof.
  induction parts as [|part parts IH]; intros acc; cbn [parse_and_save];
    [apply quiet_ret|].
  apply quiet_bind; [apply quiet_lift|]. intros [[k v]|]; [|apply IH].
  apply quiet_bind; [apply quiet_save_file | intros _; apply IH].
Qed.

(** Without a token the helpers return before they open a connection. *)
Lemma quiet_github_operation operation repo_info :
  quiet (github_operation operation repo_info).
Proof.
  intros w H. destruct H as [Hg Hv].
  rewrite (github_operation_without_token operation repo_info w Hg).
  now repeat split.
Qed.

Lemma quiet_deploy_to_vercel project_name repo :
  quiet (deploy_to_vercel project_name repo).
Proof.
  intros w H. destruct H as [Hg Hv].
  unfold deploy_to_vercel, bind, getenv_VERCEL_TOKEN, ret. rewrite Hv.
  now repeat split.
Qed.

Lemma quiet_node n state : quiet (node_function n state).
Proof.
  assert (G : quiet (github_agent_node state)).
  { unfold github_agent_node. apply quiet_bind; [apply quiet_lift|].
    intros pn. destruct (github_repo state) as [repo|].
    - destruct (json_eq_str (repo_url repo) LOCAL_ONLY); [apply quiet_ret|].
      destruct (milestone (current_stage state) pn state) as [files msg].
      apply quiet_bind; [|intros _; apply quiet_ret].
      apply quiet_for_each. intros kv.
      apply quiet_bind; [apply quiet_github_operation | intros _; apply quiet_ret].
    - apply quiet_bind; [apply quiet_github_operation|]. intros r.
      destruct (op_success r); [destruct r|];
        try apply quiet_ret; apply quiet_raise. }
  destruct n; cbn [node_function]; try exact G.
  - unfold planner_node. apply quiet_bind; [apply quiet_call_claude|].
    intros r. apply quiet_ret.
  - unfold developer_node. apply quiet_bind; [apply quiet_lift|].
    intros [plan name]. apply quiet_bind; [apply quiet_lift|]. intros _.
    apply quiet_bind; [apply quiet_call_claude|]. intros r1.
    apply quiet_bind.
    { destruct (success r1); [|apply quiet_ret].
      apply quiet_bind; [apply quiet_parse_and_save | intros; apply quiet_ret]. }
    intros s1. apply quiet_bind; [apply quiet_lift|]. intros _.
    apply quiet_bind; [apply quiet_call_claude|]. intros r2.
    apply quiet_bind; [|intros; apply quiet_ret].
    destruct (success r2); [|apply quiet_ret].
    apply quiet_bind; [apply quiet_parse_and_save | intros; apply quiet_ret].
  - unfold tester_node. apply quiet_bind; [apply quiet_lift|].
    intros [plan name]. apply quiet_bind; [apply quiet_lift|]. intros _.
    apply quiet_bind; [apply quiet_call_claude|]. intros r1.
    apply quiet_bind; [|intros; apply quiet_ret].
    destruct (success r1); [|apply quiet_ret].
    apply quiet_bind; [apply quiet_parse_and_save | intros; apply quiet_ret].
  - unfold deployer_node. apply quiet_bind; [apply quiet_lift|].
    intros [plan name].
    apply quiet_bind; [apply quiet_deploy_to_vercel | intros; apply quiet_ret].
Qed.

Lemma quiet_run_nodes nodes : forall state, quiet (run_nodes nodes state).
Proof.
  induction nodes as [|n nodes IH]; intros state; cbn [run_nodes];
    [apply quiet_ret|].
  apply quiet_bind; [apply quiet_node|]. intros s.
  apply quiet_bind; [apply IH | intros; apply quiet_ret].
Qed.

(** X13. With neither the GitHub nor the Vercel token set, a run of the
    workflow sends no request to GitHub and none to Vercel, from
    whatever state it starts and whether it completes or a node raises:
    the log of the requests the two helpers send stays as it was. (The
    calls of the generator are not in this log; a run makes up to four
    of them.) *)
Theorem X13_no_credentials_no_repository_or_deployment_request :
  forall (state : DevelopmentState) (w : World),
    offline w ->
    http_log (snd (run_workflow state w)) = http_log w
    /\ offline (snd (run_workflow state w)).
Proof.
  intros state w H. unfold run_workflow.
  destruct (quiet_run_nodes (schedule (length edges) entry_point) state w H).
  now split.
Qed.

(* ================================================================== *)
(** ** The summaries of the test executors *)
(* ================================================================== *)

(** X14. [run_unit_tests] never raises. Its summary has
    [success = True] exactly when both subprocess calls returned,
    whatever the tests did; otherwise it has [success = False], the
    exception's text and all counts 0. When the runner's output is not a
    JSON object, passed and failed are the numbers of occurrences of the
    source's two marker literals in standard output followed by standard
    error, the total is their sum and the details are empty. *)
Theorem X14_unit_test_summary_shapes :
  forall (project_name : str) (w : World),
    exists (summary : TestSummary) (w' : World),
      run_unit_tests project_name w = (inr summary, w')
      /\ (ts_success summary = true
          <-> exists installed result,
                proc_reply w (proc_calls w) = inr installed
                /\ proc_reply w (S (proc_calls w)) = inr result)
      /\ (ts_success summary = false ->
          ts_total summary = JInt 0 /\ ts_passed summary = JInt 0
          /\ ts_failed summary = JInt 0 /\ ts_details summary = None
          /\ exists e, ts_error summary = Some (str_of_exn e))
      /\ (forall installed result,
            proc_reply w (proc_calls w) = inr installed ->
            proc_reply w (S (proc_calls w)) = inr result ->
            (forall data, json_loads (stdout result) <> inr (JObj data)) ->
            ts_passed summary
            = JNat (count PASS_MARK (stdout result ++ stderr result))
            /\ ts_failed summary
               = JNat (count FAIL_MARK (stdout result ++ stderr result))
            /\ ts_total summary
               = JNat (count PASS_MARK (stdout result ++ stderr result)
                       + count FAIL_MARK (stdout result ++ stderr result))
            /\ ts_details summary = Some (JArr [])).
Proof.
  intros project_name w.
  destruct (proc_reply w (proc_calls w)) as [e1|installed] eqn:R1.
  - exists (failure_summary (str_of_exn e1)), (set_proc (S (proc_calls w)) (live_servers w) w).
    split.
    { unfold run_unit_tests, try_except, bind, subprocess_run, ret.
      now rewrite R1. }
    cbn [failure_summary ts_success ts_total ts_passed ts_failed ts_details ts_error].
    split; [split; [discriminate | intros (a & b & [=] & _)]|].
    split; [intros _; repeat split; eauto | intros a b [=]].
  - destruct (proc_reply w (S (proc_calls w))) as [e2|result] eqn:R2.
    + exists (failure_summary (str_of_exn e2)),
        (set_proc (S (S (proc_calls w))) (live_servers w) w).
      split.
      { unfold run_unit_tests, try_except, bind, subprocess_run, ret.
        rewrite R1. cbn [set_proc proc_reply proc_calls live_servers].
        now rewrite R2. }
      cbn [failure_summary ts_success ts_total ts_passed ts_failed ts_details ts_error].
      split; [split; [discriminate | intros (a & b & _ & [=])]|].
      split; [intros _; repeat split; eauto | intros a b _ [=]].
    + exists (unit_test_summary result),
        (set_proc (S (S (proc_calls w))) (live_servers w) w).
      split; [apply (run_unit_tests_completed _ _ _ _ R1 R2)|].
      assert (Hok : ts_success (unit_test_summary result) = true).
      { unfold unit_test_summary.
        now destruct (json_loads (stdout result)) as [?|[]]. }
      split; [split; [eauto | intros _; exact Hok]|].
      split; [rewrite Hok; discriminate|].
      intros a b _ [= <-] Hn. unfold unit_test_summary.
      destruct (json_loads (stdout result)) as [?|[| | | | | |data]] eqn:J;
        try (cbn [ts_passed ts_failed ts_total ts_details];
             repeat split; reflexivity).
      now destruct (Hn data).
Qed.

Lemma fold_result_invariant {A B} (P : A -> Prop) (f : A -> B -> result A) l :
  (forall a x a', P a -> f a x = inr a' -> P a') ->
  forall a a', P a -> fold_result f l a = inr a' -> P a'.
Proof.
  intros Hf. induction l as [|x l IH]; intros a a' Ha; cbn [fold_result].
  - now intros [= <-].
  - destruct (f a x) as [e|a1] eqn:E; [discriminate|].
    apply IH. exact (Hf _ _ _ Ha E).
Qed.

Lemma tally_test_ok t test t' :
  tally_ok t -> tally_test t test = inr t' -> tally_ok t'.
Proof.
  intros [H1 H2]. unfold tally_test, rbind.
  destruct (get_method test _ _) as [e|status]; [discriminate|].
  destruct (get_method test (lit "title") JNull) as [e|title]; [discriminate|].
  destruct (json_eq_str status (lit "passed")).
  - intros [= <-]. unfold tally_ok. cbn [total passed failed details].
    rewrite length_app. cbn [length]. lia.
  - destruct (get_method test (lit "error") (JObj [])) as [e|err];
      [discriminate|].
    destruct (get_method err (lit "message") JNull) as [e|msg]; [discriminate|].
    intros [= <-]. unfold tally_ok. cbn [total passed failed details].
    rewrite length_app. cbn [length]. lia.
Qed.

Lemma tally_spec_ok t spec t' :
  tally_ok t -> tally_spec t spec = inr t' -> tally_ok t'.
Proof.
  intros H. unfold tally_spec, rbind.
  destruct (get_method spec _ _) as [e|tests]; [discriminate|].
  destruct (iterate tests) as [e|items]; [discriminate|].
  apply (fold_result_invariant tally_ok); [|exact H].
  intros a x a'. apply tally_test_ok.
Qed.

Lemma tally_suite_ok t suite t' :
  tally_ok t -> tally_suite t suite = inr t' -> tally_ok t'.
Proof.
  intros H. unfold tally_suite, rbind.
  destruct (get_method suite _ _) as [e|specs]; [discriminate|].
  destruct (iterate specs) as [e|items]; [discriminate|].
  apply (fold_result_invariant tally_ok); [|exact H].
  intros a x a'. apply tally_spec_ok.
Qed.

(** X15. Whatever the end-to-end runner printed, the summary built from
    it is either a success summary in which the total equals passed plus
    failed and the details hold exactly one entry per test counted, or
    the failure summary ["Failed to parse test results"] with all counts
    0: a report that is malformed anywhere gives no partial counts. *)
Theorem X15_e2e_summary_counts_agree :
  forall (result : CompletedProcess),
    (exists p f ds,
        e2e_summary result
        = {| ts_success := true; ts_total := JNat (p + f);
             ts_passed := JNat p; ts_failed := JNat f;
             ts_details := Some (JArr ds); ts_error := None |}
        /\ length ds = p + f)
    \/ e2e_summary result
       = failure_summary (lit "Failed to parse test results").
Proof.
  intros result. unfold e2e_summary, rbind.
  destruct (json_loads (stdout result)) as [e|data]; [now right|].
  destruct (get_method data _ _) as [e|suites]; [now right|].
  destruct (iterate suites) as [e|items]; [now right|].
  destruct (fold_result tally_suite items _) as [e|t] eqn:F; [now right|].
  left.
  assert (T : tally_ok t).
  { apply (fold_result_invariant tally_ok tally_suite items
             (fun a x a' => @tally_suite_ok a x a') _ t) in F; [exact F|].
    split; reflexivity. }
  destruct T as [T1 T2]. exists (passed t), (failed t), (details t).
  rewrite <- T1. split; [reflexivity | exact T2].
Qed.

(* ================================================================== *)
(** ** The plan: who needs it, and what the planner accepts *)
(* ================================================================== *)

(** X16. No node other than the planner runs on a state without a plan:
    each raises ([AttributeError] in the repository nodes, [TypeError] in
    the others) before it has touched anything, and so ends the run of
    any list of nodes it heads. *)
Theorem X16_no_stage_runs_without_a_plan :
  forall (n : WorkflowNode) (state : DevelopmentState) (w : World),
    development_plan state = None ->
    n <> planner ->
    exists e : exn,
      node_function n state w = (inl e, w)
      /\ (e = AttributeError \/ e = TypeError)
      /\ forall rest, run_nodes (n :: rest) state w = (inl e, w).
Proof.
  intros n state w H Hn.
  assert (G : github_agent_node state w = (inl AttributeError, w)).
  { unfold github_agent_node, bind, lift, repo_project_name. now rewrite H. }
  assert (R : require_plan state = inl TypeError).
  { unfold require_plan. now rewrite H. }
  assert (D : developer_node state w = (inl TypeError, w)).
  { unfold developer_node, bind, lift. now rewrite R. }
  assert (T : tester_node state w = (inl TypeError, w)).
  { unfold tester_node, bind, lift. now rewrite R. }
  assert (P : deployer_node state w = (inl TypeError, w)).
  { unfold deployer_node, bind, lift. now rewrite R. }
  destruct n; try (now destruct Hn); cbn [node_function];
    eexists; (split; [eassumption|]); (split; [auto|]);
    intros rest; cbn [run_nodes node_function]; unfold bind at 1;
    first [now rewrite G | now rewrite D | now rewrite T | now rewrite P].
Qed.

(** X17. The planner stores whatever [json.loads] returns before it
    reads the project name. A plan without a readable ['project_name'] is
    therefore kept as the development plan and, at the same time, logged
    as ["Failed to parse plan"]; no planner message is added; and the
    developer, the tester and the deployer each raise the planner's
    swallowed exception on the state the planner returned, before they
    touch anything. *)
Theorem X17_plan_without_a_project_name_is_kept :
  forall (state : DevelopmentState) (w : World) (text : str) (plan : json)
         (e : exn),
    api_reply w (api_calls w) = inr text ->
    json_loads (py_slice text (py_find (lit "{") text)
                         (py_rfind (lit "}") text + 1)) = inr plan ->
    subscript plan (lit "project_name") = inl e ->
    exists state',
      planner_node state w = (inr state', snd (api_create w))
      /\ development_plan state' = Some plan
      /\ errors state' = errors state ++ [lit "Failed to parse plan"]
      /\ messages state' = messages state
      /\ forall w',
           developer_node state' w' = (inl e, w')
           /\ tester_node state' w' = (inl e, w')
           /\ deployer_node state' w' = (inl e, w').
Proof.
  intros state w text plan e Ha Hj Hs.
  exists (set_current_stage stage_planning_complete
            (append_error (lit "Failed to parse plan")
               (set_development_plan (Some plan) state))).
  split.
  { assert (C : call_claude w
                 = (inr {| content := text; success := true |},
                    snd (api_create w))).
    { unfold call_claude, try_except, bind, api_create, ret. now rewrite Ha. }
    unfold planner_node, bind. rewrite C. cbn [success content].
    now rewrite Hj, Hs. }
  split; [reflexivity|]. split; [reflexivity|]. split; [reflexivity|].
  intros w'.
  assert (R : require_plan
                (set_current_stage stage_planning_complete
                   (append_error (lit "Failed to parse plan")
                      (set_development_plan (Some plan) state))) = inl e).
  { unfold require_plan. cbn [development_plan set_current_stage append_error
      set_development_plan]. now rewrite Hs. }
  split; [|split].
  - unfold developer_node, bind, lift. now rewrite R.
  - unfold tester_node, bind, lift. now rewrite R.
  - unfold deployer_node, bind, lift. now rewrite R.
Qed.







(* ================================================================== *)
(** ** The chat turn *)
(* ================================================================== *)

(** X19. A chat turn never raises and calls the generator exactly once.
    The answer is [result['content']] whether or not the call
    succeeded: an approved message is answered ["approved"] and the
    requirements become the approval text around that content, which is
    ["Error: ..."] when the generator call raised; any other message is
    answered ["continue"] and leaves the requirements as they were. *)
Theorem X19_chat_turn_outcomes :
  forall (self : AgenticDevSystem) (user_message : str)
         (history : list (str * str)) (w : World),
    exists (r : ClaudeResult) (self' : AgenticDevSystem)
           (response status : str),
      chat_with_manager self user_message history w
      = (inr (self', (response, history ++ [(user_message, response)], status)),
         snd (api_create w))
      /\ api_calls (snd (api_create w)) = S (api_calls w)
      /\ content r
         = match api_reply w (api_calls w) with
           | inr text => text
           | inl e => lit "Error: " ++ str_of_exn e
           end
      /\ (if is_approved user_message
          then response = approval_reply (content r)
               /\ status = lit "approved"
               /\ sys_requirements self' = Some response
          else response = content r
               /\ status = lit "continue"
               /\ sys_requirements self' = sys_requirements self).
Proof.
  intros self user_message history w.
  assert (C : exists r, call_claude w = (inr r, snd (api_create w))
                /\ content r
                   = match api_reply w (api_calls w) with
                     | inr text => text
                     | inl e => lit "Error: " ++ str_of_exn e
                     end).
  { unfold call_claude, try_except, bind, api_create, ret. cbn [snd].
    destruct (api_reply w (api_calls w)); eexists; split; reflexivity. }
  destruct C as (r & Hc & Hr). exists r.
  unfold chat_with_manager, manager_agent.
  destruct (is_approved user_message); unfold bind; rewrite Hc; cbn [ret];
    eexists _, _, _; (split; [reflexivity|]); (split; [reflexivity|]);
    (split; [exact Hr|]); repeat split.
Qed.

(* ================================================================== *)
(** ** Repository creation and the milestone commits *)
(* ================================================================== *)

(** X20. With a token set, [create_repo] sends exactly one request, a
    POST to [/user/repos] carrying the token and the four-field payload,
    and never raises. It reports success exactly when the answer has
    status 201 and a JSON body holding ['html_url'], ['owner']['login']
    and ['name'], and then returns those three values. *)
Theorem X20_create_repo_sends_one_request :
  forall (name description : str) (repo_info : option GithubRepo) (w : World),
    no_token (env_GITHUB_TOKEN w) = false ->
    let rq := {| http_method := POST; http_url := API_ROOT ++ lit "/user/repos";
                 http_bearer := token_text (env_GITHUB_TOKEN w);
                 http_payload := Some (create_payload name description) |} in
    exists r : OperationResult,
      github_operation (create_repo name description) repo_info w
      = (inr r, snd (http_send rq w))
      /\ http_log (snd (http_send rq w)) = http_log w ++ [rq]
      /\ (op_success r = true
          <-> exists response data html_url owner login nm,
                http_reply w (length (http_log w)) rq = inr response
                /\ status_code response = 201%Z
                /\ json_body response = inr data
                /\ subscript data (lit "html_url") = inr html_url
                /\ subscript data (lit "owner") = inr owner
                /\ subscript owner (lit "login") = inr login
                /\ subscript data (lit "name") = inr nm
                /\ r = RepoCreated html_url login nm).
Proof.
  intros name description repo_info w Ht rq.
  unfold github_operation, bind at 1, getenv_GITHUB_TOKEN. rewrite Ht.
  fold rq. unfold try_except, bind, http_send, lift, ret.
  cbn [snd http_log].
  destruct (http_reply w (length (http_log w)) rq) as [e|response] eqn:Hr.
  { eexists. split; [reflexivity|]. split; [reflexivity|].
    split; [discriminate | now intros (? & ? & ? & ? & ? & ? & [=] & _)]. }
  destruct (Z.eqb_spec (status_code response) 201) as [E|E].
  2:{ eexists. split; [reflexivity|]. split; [reflexivity|].
      split; [discriminate|].
      intros (? & ? & ? & ? & ? & ? & [= <-] & E' & _). contradiction. }
  destruct (json_body response) as [e|data] eqn:Hb.
  { eexists. split; [reflexivity|]. split; [reflexivity|].
    split; [discriminate|].
    intros (? & ? & ? & ? & ? & ? & [= <-] & _ & B & _). congruence. }
  destruct (subscript data (lit "html_url")) as [e|html_url] eqn:H1.
  { eexists. split; [reflexivity|]. split; [reflexivity|].
    split; [discriminate|].
    intros (? & ? & ? & ? & ? & ? & [= <-] & _ & B & U & _). congruence. }
  destruct (subscript data (lit "owner")) as [e|owner] eqn:H2.
  { eexists. split; [reflexivity|]. split; [reflexivity|].
    split; [discriminate|].
    intros (? & ? & ? & ? & ? & ? & [= <-] & _ & B & _ & U & _). congruence. }
  destruct (subscript owner (lit "login")) as [e|login] eqn:H3.
  { eexists. split; [reflexivity|]. split; [reflexivity|].
    split; [discriminate|].
    intros (? & d & ? & o & ? & ? & [= <-] & _ & B & _ & U & L & _).
    assert (d = data) by congruence. subst d.
    assert (o = owner) by congruence. subst o. congruence. }
  destruct (subscript data (lit "name")) as [e|nm] eqn:H4.
  { eexists. split; [reflexivity|]. split; [reflexivity|].
    split; [discriminate|].
    intros (? & d & ? & ? & ? & ? & [= <-] & _ & B & _ & _ & _ & U & _).
    assert (d = data) by congruence. subst d. congruence. }
  eexists. split; [reflexivity|]. split; [reflexivity|].
  split; [intros _ | reflexivity].
  exists response, data, html_url, owner, login, nm. repeat split; assumption.
Qed.

Lemma dict_lookup_none_rev k d :
  dict_lookup k d = None -> dict_lookup k (rev d) = None.
Proof.
  induction d as [|[k0 v0] d IH]; cbn [dict_lookup rev]; [easy|].
  destruct (str_eqb k k0) eqn:E; [discriminate|]. intros H.
  rewrite dict_lookup_app, (IH H). cbn [dict_lookup]. now rewrite E.
Qed.

Lemma dict_lookup_some_in k v d : dict_lookup k d = Some v -> In k (dict_keys d).
Proof.
  induction d as [|[k0 v0] d IH]; cbn [dict_lookup dict_keys map fst];
    [discriminate|].
  destruct (str_eqb k k0) eqn:E.
  - apply str_eqb_true in E. subst k0. now left.
  - intros H. right. now apply IH.
Qed.

(** Without a repeated key, reading an association list from either end
    finds the same entry. *)
Lemma dict_lookup_rev k d :
  NoDup (dict_keys d) -> dict_lookup k (rev d) = dict_lookup k d.
Proof.
  induction d as [|[k0 v0] d IH]; cbn [dict_lookup rev dict_keys map fst];
    [reflexivity|].
  intros N. inversion N as [|? ? Hn N']; subst.
  rewrite dict_lookup_app, (IH N'). cbn [dict_lookup].
  destruct (str_eqb k k0) eqn:E; [|now destruct (dict_lookup k d)].
  apply str_eqb_true in E. subst k0.
  destruct (dict_lookup k d) as [v|] eqn:L; [|reflexivity].
  destruct Hn. exact (dict_lookup_some_in _ _ _ L).
Qed.

Lemma dict_merge_NoDup a b :
  NoDup (dict_keys a) -> NoDup (dict_keys (dict_merge a b)).
Proof.
  unfold dict_merge. revert a.
  induction b as [|[k v] b IH]; intros a N; cbn [fold_left fst snd];
    [exact N|].
  apply IH. now apply dict_set_NoDup.
Qed.

(** X21. The files of the code milestone are [{**code_files,
    **unit_tests}]: a path present in both is committed once, with the
    unit test's content; every other path keeps its own content; and no
    path is committed twice. *)
Theorem X21_unit_tests_override_code_in_the_commit :
  forall (state : DevelopmentState) (project_name path : str),
    contains stage_code_written (current_stage state) = true ->
    NoDup (dict_keys (code_files state)) ->
    NoDup (dict_keys (unit_tests state)) ->
    exists files,
      milestone (current_stage state) project_name state
      = (files, lit "feat: Add application code with unit tests")
      /\ NoDup (dict_keys files)
      /\ dict_lookup path files
         = match dict_lookup path (unit_tests state) with
           | Some v => Some v
           | None => dict_lookup path (code_files state)
           end.
Proof.
  intros state project_name path Hs Nc Nu.
  exists (dict_merge (code_files state) (unit_tests state)).
  split; [unfold milestone; now rewrite Hs|].
  split; [now apply dict_merge_NoDup|].
  unfold dict_merge. rewrite dict_lookup_fold.
  now rewrite (dict_lookup_rev _ _ Nu).
Qed.

(* ================================================================== *)
(** ** The dev server, on every path *)
(* ================================================================== *)

(** X22. [run_e2e_tests] never raises and makes at least one and at
    most three subprocess calls. It returns with the number of running dev servers either
    unchanged or raised by one, and raised by one exactly when the
    installation returned, the server started and the test run raised:
    on no other path does a server stay behind. *)
Theorem X22_dev_server_balance :
  forall (project_name url : str) (w : World),
    exists (summary : TestSummary) (w' : World),
      run_e2e_tests project_name url w = (inr summary, w')
      /\ proc_calls w < proc_calls w' <= proc_calls w + 3
      /\ (live_servers w' = live_servers w
          \/ live_servers w' = S (live_servers w))
      /\ (live_servers w' = S (live_servers w)
          <-> exists installed started e,
                proc_reply w (proc_calls w) = inr installed
                /\ proc_reply w (S (proc_calls w)) = inr started
                /\ proc_reply w (S (S (proc_calls w))) = inl e).
Proof.
  intros project_name url w.
  unfold run_e2e_tests, try_except, bind, subprocess_run, subprocess_Popen,
    terminate_and_wait, ret.
  destruct (proc_reply w (proc_calls w)) as [e1|installed] eqn:R1.
  { eexists _, _. split; [reflexivity|].
    cbn [set_proc proc_calls live_servers].
    split; [lia|]. split; [now left|].
    split; [lia | now intros (? & ? & ? & [=] & _)]. }
  cbn [set_proc proc_reply proc_calls live_servers].
  destruct (proc_reply w (S (proc_calls w))) as [e2|started] eqn:R2.
  { eexists _, _. split; [reflexivity|].
    cbn [set_proc proc_calls live_servers].
    split; [lia|]. split; [now left|].
    split; [lia | now intros (? & ? & ? & _ & [=] & _)]. }
  cbn [set_proc proc_reply proc_calls live_servers].
  destruct (proc_reply w (S (S (proc_calls w)))) as [e3|result] eqn:R3.
  - eexists _, _. split; [reflexivity|].
    cbn [set_proc proc_calls live_servers].
    split; [lia|]. split; [now right|].
    split; [intros _; eexists _, _, _; repeat split | reflexivity].
  - eexists _, _. split; [reflexivity|].
    cbn [set_proc proc_calls live_servers Nat.pred].
    split; [lia|]. split; [now left|].
    split; [lia | now intros (? & ? & ? & _ & _ & [=])].
Qed.

(* ================================================================== *)
(** ** What no node touches *)
(* ================================================================== *)



Lemma grows_by_extends a b s1 s2 : grows_by a b s1 s2 -> extends_by a s1 s2.
Proof.
  intros (R & E & (m & M & _)). split; [exact R|]. split; [exact E|].
  now exists m.
Qed.









(* ================================================================== *)
(** ** What the tester records and writes *)
(* ================================================================== *)

(** X24. Whenever the tester node completes: when its generator call
    succeeded, ['e2e_tests'] is exactly the parser's mapping of the reply
    (replacing the previous one) and the files written are exactly the
    reply's segments, in order, under the plan's project name; when the
    call failed, ['e2e_tests'] is unchanged and nothing is written.
    Nothing else of the state changes but the stage. *)
Theorem X24_tester_records_and_writes_what_it_parsed :
  forall (state state' : DevelopmentState) (w w' : World),
    tester_node state w = (inr state', w') ->
    exists (plan name : json) (r : ClaudeResult) (files : dict),
      require_plan state = inr (plan, name)
      /\ fst (call_claude w) = inr r
      /\ (if success r then artifact_parser (content r) = inr files
          else files = e2e_tests state)
      /\ state' = set_current_stage stage_tests_written
                    (set_e2e_tests files state)
      /\ fs_log w'
         = fs_log w
             ++ map (fun kv => (project_text name, fst kv, snd kv))
                    (if success r then text_segments (content r) else []).
Proof.
  intros state state' w w' H. unfold tester_node in H.
  apply bind_inr in H as ([plan name] & wa & Ha & H).
  apply bind_inr in H as (u1 & wb & Hb & H).
  apply bind_inr in H as (r & wc & Hc & H).
  apply bind_inr in H as (s1 & wd & H1 & H).
  apply ret_inr in H as [-> ->].
  unfold lift in Ha, Hb. injection Ha as Ha <-. injection Hb as _ <-.
  apply recording_block in H1 as [B L].
  pose proof (call_claude_keeps_files _ _ _ Hc) as F.
  exists plan, name, r, (e2e_tests s1).
  split; [exact Ha|]. split; [now rewrite Hc|].
  rewrite L, F. destruct (success r).
  - destruct B as (files & P & ->). cbn [e2e_tests set_e2e_tests].
    split; [exact P|]. split; reflexivity.
  - subst s1. split; [reflexivity|]. split; [|reflexivity].
    now destruct state.
Qed.

(* ================================================================== *)
(** ** The deployment request *)
(* ================================================================== *)

(** X25. With a Vercel token set and a repository entry that has an
    owner, [deploy_to_vercel] sends exactly one request, a POST carrying
    the token and the repository as [owner/name], and never raises. It
    reports a deployment exactly when the answer has status 200 or 201
    and a JSON object as body; the URL is then ["https://"], the body's
    ['url'] (the project name when the body has none) and
    [".vercel.app"]. *)
Theorem X25_deployment_sends_one_request :
  forall (project_name : json) (repo : GithubRepo) (owner : json) (w : World),
    no_token (env_VERCEL_TOKEN w) = false ->
    repo_owner repo = Some owner ->
    let rq := {| http_method := POST; http_url := VERCEL_URL;
                 http_bearer := token_text (env_VERCEL_TOKEN w);
                 http_payload :=
                   Some (deploy_payload project_name
                           (format_json owner ++ lit "/"
                              ++ format_json (repo_name repo))) |} in
    exists r : DeployResult,
      deploy_to_vercel project_name (Some repo) w
      = (inr r, snd (http_send rq w))
      /\ http_log (snd (http_send rq w)) = http_log w ++ [rq]
      /\ forall url,
           r = Deployed url
           <-> exists response data host,
                 http_reply w (length (http_log w)) rq = inr response
                 /\ (status_code response = 200 \/ status_code response = 201)%Z
                 /\ json_body response = inr data
                 /\ get_method data (lit "url") project_name = inr host
                 /\ url = lit "https://" ++ format_json host
                            ++ lit ".vercel.app".
Proof.
  intros project_name repo owner w Ht Ho rq.
  unfold deploy_to_vercel, bind at 1, getenv_VERCEL_TOKEN. rewrite Ht.
  unfold try_except, bind, lift. rewrite Ho. fold rq.
  unfold http_send, ret. cbn [snd http_log].
  destruct (http_reply w (length (http_log w)) rq) as [e|response] eqn:Hr.
  { eexists. split; [reflexivity|]. split; [reflexivity|]. intros url.
    split; [discriminate | now intros (? & ? & ? & [=] & _)]. }
  destruct ((status_code response =? 200) || (status_code response =? 201))%Z
    eqn:Hst.
  2:{ eexists. split; [reflexivity|]. split; [reflexivity|]. intros url.
      split; [discriminate|].
      intros (? & ? & ? & [= <-] & St & _).
      apply orb_false_iff in Hst as [S1 S2].
      apply Z.eqb_neq in S1, S2. now destruct St. }
  assert (St : (status_code response = 200 \/ status_code response = 201)%Z).
  { apply orb_true_iff in Hst as [S1|S1]; apply Z.eqb_eq in S1; auto. }
  destruct (json_body response) as [e|data] eqn:Hb.
  { eexists. split; [reflexivity|]. split; [reflexivity|]. intros url.
    split; [discriminate|].
    intros (? & ? & ? & [= <-] & _ & B & _). congruence. }
  destruct data as [| | | | | |fields];
    try (eexists; split; [reflexivity|]; split; [reflexivity|]; intros url;
         split; [discriminate|];
         intros (? & d & ? & [= <-] & _ & B & G & _);
         rewrite Hb in B; injection B as <-; cbn [get_method] in G;
         discriminate G).
  cbn [get_method].
  destruct (obj_lookup (lit "url") fields) as [host|] eqn:Hu;
    destruct (obj_lookup (lit "id") fields);
    (eexists; split; [reflexivity|]; split; [reflexivity|]; intros url; split;
     [ intros [= <-]; exists response, (JObj fields); eexists;
       cbn [get_method]; rewrite Hu; repeat split; [exact St | exact Hb]
     | intros (? & d & host' & [= <-] & _ & B & G & ->);
       rewrite Hb in B; injection B as <-; cbn [get_method] in G;
       rewrite Hu in G; now injection G as -> ]).
Qed.

(* ================================================================== *)
(** ** Generator calls *)
(* ================================================================== *)

Lemma generator_calls_ret {A} (a : A) : generator_calls 0 (ret a).
Proof. intros w. cbn. split; [lia | intros; lia]. Qed.

Lemma generator_calls_raise {A} (e : exn) : generator_calls 0 (@raise A e).
Proof. intros w. cbn. split; [lia | intros; lia]. Qed.

Lemma generator_calls_lift {A} (r : result A) : generator_calls 0 (lift r).
Proof. intros w. cbn. split; [lia | intros; lia]. Qed.

Lemma generator_calls_bind {A B} a b (m : M A) (k : A -> M B) :
  generator_calls a m -> (forall x, generator_calls b (k x)) ->
  generator_calls (a + b) (bind m k).
Proof.
  intros Hm Hk w. unfold bind. destruct (Hm w) as [Bm Em].
  destruct (m w) as [[e|x] w1]; cbn [fst snd] in Bm, Em |- *.
  - split; [lia | intros y [=]].
  - specialize (Em x eq_refl). destruct (Hk x w1) as [Bk Ek].
    split; [lia|]. intros y Hy. rewrite (Ek y Hy). lia.
Qed.

Lemma generator_calls_try {A} (m : M A) (h : exn -> M A) :
  generator_calls 0 m -> (forall e, generator_calls 0 (h e)) ->
  generator_calls 0 (try_except m h).
Proof.
  intros Hm Hh w. unfold try_except. destruct (Hm w) as [Bm Em].
  destruct (m w) as [[e|x] w1]; cbn [fst snd] in Bm, Em |- *.
  - destruct (Hh e w1) as [Bh Eh]. split; [lia|].
    intros y Hy. rewrite (Eh y Hy). lia.
  - split; [lia | intros; lia].
Qed.

Lemma generator_calls_for_each {A} (f : A -> M unit) l :
  (forall x, generator_calls 0 (f x)) -> generator_calls 0 (for_each f l).
Proof.
  intros Hf. induction l as [|x l IH]; cbn [for_each];
    [apply generator_calls_ret|].
  apply (generator_calls_bind 0 0); [apply Hf | intros _; exact IH].
Qed.

Lemma generator_calls_call_claude : generator_calls 1 call_claude.
Proof.
  intros w. unfold call_claude, try_except, bind, api_create, ret.
  destruct (api_reply w (api_calls w)); cbn; split; try lia; intros; lia.
Qed.

Lemma generator_calls_http_send rq : generator_calls 0 (http_send rq).
Proof. intros w. cbn. split; [lia | intros; lia]. Qed.

Lemma generator_calls_save_file project_name filename body :
  generator_calls 0 (save_file project_name filename body).
Proof.
  unfold save_file. destruct project_name; try apply generator_calls_raise.
  intros w. unfold fs_write.
  match goal with
  | |- context [write_error w ?n ?a ?b] => destruct (write_error w n a b)
  end; cbn; (split; [lia | intros; lia]).
Qed.

Lemma generator_calls_parse_and_save project_name parts : forall acc,
  generator_calls 0 (parse_and_save project_name parts acc).
Proof.
  induction parts as [|part parts IH]; intros acc; cbn [parse_and_save];
    [apply generator_calls_ret|].
  apply (generator_calls_bind 0 0); [apply generator_calls_lift|].
  intros [[k v]|]; [|apply IH].
  apply (generator_calls_bind 0 0);
    [apply generator_calls_save_file | intros _; apply IH].
Qed.

Ltac generator_free :=
  repeat first
    [ apply generator_calls_ret
    | apply generator_calls_raise
    | apply generator_calls_lift
    | apply generator_calls_http_send
    | apply generator_calls_try; [|intros ?]
    | apply (generator_calls_bind 0 0); [|intros ?]
    | match goal with
      | |- generator_calls 0 (if ?c then _ else _) => destruct c
      | |- generator_calls 0 (match ?x with _ => _ end) => destruct x
      end ].

Lemma generator_calls_github_operation operation repo_info :
  generator_calls 0 (github_operation operation repo_info).
Proof.
  unfold github_operation.
  apply (generator_calls_bind 0 0).
  { intros w. cbn. split; [lia | intros; lia]. }
  intros token. generator_free.
Qed.

Lemma generator_calls_deploy_to_vercel project_name repo :
  generator_calls 0 (deploy_to_vercel project_name repo).
Proof.
  unfold deploy_to_vercel.
  apply (generator_calls_bind 0 0).
  { intros w. cbn. split; [lia | intros; lia]. }
  intros token. generator_free.
Qed.

Lemma generator_calls_recording project_name r
      (setter : dict -> DevelopmentState -> DevelopmentState) state :
  generator_calls 0
    (if success r
     then files <- parse_and_save project_name
                     (tl (split FILE_START (content r))) [] ;;
          ret (setter files state)
     else ret state).
Proof.
  destruct (success r); [|apply generator_calls_ret].
  apply (generator_calls_bind 0 0);
    [apply generator_calls_parse_and_save | intros; apply generator_calls_ret].
Qed.

Lemma generator_calls_node n state :
  generator_calls (prompts n) (node_function n state).
Proof.
  assert (G : generator_calls 0 (github_agent_node state)).
  { unfold github_agent_node.
    apply (generator_calls_bind 0 0); [apply generator_calls_lift|].
    intros name. destruct (github_repo state) as [repo|].
    - destruct (json_eq_str (repo_url repo) LOCAL_ONLY);
        [apply generator_calls_ret|].
      destruct (milestone (current_stage state) name state) as [files msg].
      apply (generator_calls_bind 0 0);
        [|intros; apply generator_calls_ret].
      apply generator_calls_for_each. intros kv.
      apply (generator_calls_bind 0 0);
        [apply generator_calls_github_operation
        | intros; apply generator_calls_ret].
    - apply (generator_calls_bind 0 0);
        [apply generator_calls_github_operation|].
      intros r. generator_free. }
  destruct n; cbn [node_function prompts]; try exact G.
  - (* planner *)
    unfold planner_node.
    apply (generator_calls_bind 1 0);
      [apply generator_calls_call_claude | intros; apply generator_calls_ret].
  - (* developer *)
    unfold developer_node.
    apply (generator_calls_bind 0 2); [apply generator_calls_lift|].
    intros [plan name].
    apply (generator_calls_bind 0 2); [apply generator_calls_lift|]. intros _.
    apply (generator_calls_bind 1 1); [apply generator_calls_call_claude|].
    intros r1.
    apply (generator_calls_bind 0 1); [apply generator_calls_recording|].
    intros s1.
    apply (generator_calls_bind 0 1); [apply generator_calls_lift|]. intros _.
    apply (generator_calls_bind 1 0); [apply generator_calls_call_claude|].
    intros r2.
    apply (generator_calls_bind 0 0); [apply generator_calls_recording|].
    intros s2. apply generator_calls_ret.
  - (* tester *)
    unfold tester_node.
    apply (generator_calls_bind 0 1); [apply generator_calls_lift|].
    intros [plan name].
    apply (generator_calls_bind 0 1); [apply generator_calls_lift|]. intros _.
    apply (generator_calls_bind 1 0); [apply generator_calls_call_claude|].
    intros r1.
    apply (generator_calls_bind 0 0); [apply generator_calls_recording|].
    intros s1. apply generator_calls_ret.
  - (* deployer *)
    unfold deployer_node.
    apply (generator_calls_bind 0 0); [apply generator_calls_lift|].
    intros [plan name].
    apply (generator_calls_bind 0 0);
      [apply generator_calls_deploy_to_vercel
      | intros; apply generator_calls_ret].
Qed.

Lemma generator_calls_run_nodes nodes : forall state,
  generator_calls (list_sum (map prompts nodes)) (run_nodes nodes state).
Proof.
  induction nodes as [|n nodes IH]; intros state; cbn [run_nodes map].
  - apply generator_calls_ret.
  - change (list_sum (prompts n :: map prompts nodes))
      with (prompts n + list_sum (map prompts nodes)).
    rewrite <- (Nat.add_0_r (list_sum (map prompts nodes))).
    apply generator_calls_bind; [apply generator_calls_node|]. intros s1.
    apply generator_calls_bind; [apply IH | intros; apply generator_calls_ret].
Qed.

(** X26. A run of the workflow calls the generator at most four times,
    whatever happens, and exactly four times when it completes: once in
    the planner, twice in the developer, once in the tester; the
    repository nodes and the deployer never call it. *)
Theorem X26_four_generator_calls_per_run :
  forall (state : DevelopmentState) (w : World),
    api_calls w <= api_calls (snd (run_workflow state w)) <= api_calls w + 4
    /\ (forall events,
          fst (run_workflow state w) = inr events ->
          api_calls (snd (run_workflow state w)) = api_calls w + 4)
    /\ forall n state1, generator_calls (prompts n) (node_function n state1).
Proof.
  intros state w.
  pose proof (generator_calls_run_nodes
                (schedule (length edges) entry_point) state w) as [B E].
  split; [exact B|]. split; [exact E|].
  intros n state1. apply generator_calls_node.
Qed.

(* ================================================================== *)
(** ** Parsed paths and the delimiter *)
(* ================================================================== *)

Lemma rstrip_split s :
  exists ws, s = rstrip s ++ ws.
Proof.
  unfold rstrip. destruct (lstrip_split (rev s)) as (ws & E & _).
  exists (rev ws). rewrite <- rev_app_distr, <- E. now rewrite rev_involutive.
Qed.

Lemma strip_split s : exists a b, s = a ++ strip s ++ b.
Proof.
  unfold strip. destruct (lstrip_split s) as (a & E & _).
  destruct (rstrip_split (lstrip s)) as (b & E').
  exists a, b. now rewrite <- E', <- E.
Qed.

Lemma no_occ_inside pat a b rest :
  no_occ pat (a ++ pat ++ b) rest -> pat = [].
Proof.
  destruct pat as [|c p]; [reflexivity|]. intros H. exfalso.
  induction a as [|x a IH]; cbn [app no_occ] in H.
  - destruct H as [H _].
    change (c :: (p ++ b) ++ rest) with (((c :: p) ++ b) ++ rest) in H.
    rewrite <- app_assoc in H. now rewrite prefixb_app in H.
  - destruct H as [_ H]. exact (IH H).
Qed.

(** X27. A path the parser returns never contains the delimiter
    ['===']: the header is cut at the first ['==='] of its segment, and
    stripping adds nothing. *)
Theorem X27_parsed_paths_hold_no_delimiter :
  forall text : str,
    exists files : dict,
      artifact_parser text = inr files
      /\ Forall (fun kv => contains SEPARATOR (fst kv) = false
                           /\ contains FILE_START (fst kv) = false
                           /\ contains FILE_END (fst kv) = false) files.
Proof.
  intros text. unfold artifact_parser.
  destruct (parse_parts_total (tl (split FILE_START text)) []) as [files H].
  exists files. split; [exact H|]. apply Forall_forall. intros [k v] Hin.
  cbn [fst].
  destruct (parse_parts_origin _ _ _ _ _ H Hin) as [[]|(part & _ & P)].
  apply parse_part_some in P as (header & body & _ & N & -> & _).
  assert (F : forall pre post, strip header <> pre ++ SEPARATOR ++ post).
  { intros pre post E. destruct (strip_split header) as (a & b & Es).
    rewrite E in Es.
    replace (a ++ (pre ++ SEPARATOR ++ post) ++ b)
      with ((a ++ pre) ++ SEPARATOR ++ (post ++ b)) in Es
      by (now rewrite <- !app_assoc).
    rewrite Es in N. apply no_occ_inside in N. discriminate N. }
  assert (C : forall mark pre post,
              mark = pre ++ SEPARATOR ++ post ->
              contains mark (strip header) = false).
  { intros mark pre post Em.
    destruct (contains mark (strip header)) eqn:Cm; [|reflexivity].
    apply contains_true_iff in Cm as (u & r & Eu). exfalso.
    apply (F (u ++ pre) (post ++ r)). rewrite Eu, Em.
    now rewrite <- !app_assoc. }
  split; [|split].
  - apply (C SEPARATOR [] []). now rewrite app_nil_r.
  - apply (C FILE_START [] (lit "FILE:")). reflexivity.
  - apply (C FILE_END [] (lit "END FILE===")). reflexivity.
Qed.

(* ================================================================== *)
(** ** What cannot stop a node *)
(* ================================================================== *)

Lemma recording_block_accepted project r
      (setter : dict -> DevelopmentState -> DevelopmentState) state w :
  accepted w (fs_calls w) project (writes_of r) = true ->
  exists state1 w1,
    (if success r
     then files <- parse_and_save (JStr project)
                     (tl (split FILE_START (content r))) [] ;;
          ret (setter files state)
     else ret state) w = (inr state1, w1)
    /\ fs_fault w1 = fs_fault w
    /\ fs_calls w1 = fs_calls w + length (writes_of r)
    /\ api_reply w1 = api_reply w
    /\ api_calls w1 = api_calls w.
Proof.
  unfold writes_of. destruct (success r).
  - intros Ha.
    destruct (parse_and_save_accepted project
                (tl (split FILE_START (content r))) [] w Ha)
      as (d & w1 & Hp & F & C).
    destruct (parse_and_save_frame (JStr project)
                (tl (split FILE_START (content r))) [] w) as (A & B & _).
    rewrite Hp in A, B. cbn [snd] in A, B.
    unfold bind. rewrite Hp. unfold ret. eexists _, w1.
    split; [reflexivity|]. now repeat split.
  - intros _. unfold ret. exists state, w. cbn [length].
    rewrite Nat.add_0_r. now repeat split.
Qed.

Lemma recording_block_refused project r
      (setter : dict -> DevelopmentState -> DevelopmentState) state w :
  accepted w (fs_calls w) project (writes_of r) = false ->
  exists e w1,
    (if success r
     then files <- parse_and_save (JStr project)
                     (tl (split FILE_START (content r))) [] ;;
          ret (setter files state)
     else ret state) w = (inl e, w1).
Proof.
  unfold writes_of. destruct (success r); [|discriminate].
  intros Ha.
  destruct (parse_and_save_refused project
              (tl (split FILE_START (content r))) [] w Ha) as (e & w1 & Hp).
  unfold bind. rewrite Hp. eauto.
Qed.

(** X28. A reply of the generator can stop a generation node only
    through the file store. The planner, which writes no file, always
    completes. With a plan that names the project by a string and from
    which the prompts can be built, the tester completes exactly when
    the store takes, in order, every write its reply asks for (none when
    the call failed), and the developer exactly when the store takes the
    writes of its first and then of its second reply. A write with an
    empty file name is never taken, so a successful reply with a segment
    whose header is empty always makes the node raise. *)
Theorem X28_generation_nodes_stop_only_at_the_file_store :
  forall (state : DevelopmentState) (w : World),
    (exists state', planner_node state w = (inr state', snd (api_create w)))
    /\ forall plan project,
         require_plan state = inr (plan, JStr project) ->
         (e2e_prompt_check plan = inr tt ->
          ((exists state' w', tester_node state w = (inr state', w'))
           <-> accepted w (fs_calls w) project
                 (writes_of (claude_result (api_reply w (api_calls w))))
               = true))
         /\ (code_prompt_check plan = inr tt ->
             unit_test_prompt_check plan = inr tt ->
             ((exists state' w', developer_node state w = (inr state', w'))
              <-> accepted w (fs_calls w) project
                    (writes_of (claude_result (api_reply w (api_calls w)))
                     ++ writes_of
                          (claude_result (api_reply w (S (api_calls w)))))
                  = true))
         /\ (forall files body n,
               In ([], body) files -> accepted w n project files = false).
Proof.
  intros state w. split.
  { unfold planner_node, bind. rewrite call_claude_result. unfold ret. eauto. }
  intros plan project Hp.
  set (r1 := claude_result (api_reply w (api_calls w))).
  set (r2 := claude_result (api_reply w (S (api_calls w)))).
  assert (E1 : forall l, accepted (snd (api_create w))
                           (fs_calls (snd (api_create w))) project l
                         = accepted w (fs_calls w) project l).
  { intros l. now apply accepted_ext. }
  split; [|split].
  - intros Hq. unfold tester_node, bind at 1, lift. rewrite Hp.
    unfold bind at 1. rewrite Hq.
    unfold bind at 1. rewrite call_claude_result. fold r1.
    destruct (accepted w (fs_calls w) project (writes_of r1)) eqn:A.
    + rewrite <- E1 in A.
      destruct (recording_block_accepted project r1 set_e2e_tests state
                  _ A) as (s1 & w2 & Hb & _).
      unfold bind at 1. rewrite Hb. unfold ret. split; eauto.
    + rewrite <- E1 in A.
      destruct (recording_block_refused project r1 set_e2e_tests state
                  _ A) as (e & w2 & Hb).
      unfold bind at 1. rewrite Hb.
      split; [intros (s & w' & [=]) | discriminate].
  - intros Hq Hu. unfold developer_node, bind at 1, lift. rewrite Hp.
    unfold bind at 1. rewrite Hq.
    unfold bind at 1. rewrite call_claude_result. fold r1.
    rewrite accepted_app.
    destruct (accepted w (fs_calls w) project (writes_of r1)) eqn:A1.
    + rewrite <- E1 in A1.
      destruct (recording_block_accepted project r1 set_code_files state
                  _ A1) as (s1 & w2 & Hb1 & F2 & C2 & R2 & K2).
      unfold bind at 1. rewrite Hb1.
      unfold bind at 1. rewrite Hu.
      assert (Er : claude_result (api_reply w2 (api_calls w2)) = r2).
      { rewrite R2, K2. reflexivity. }
      unfold bind at 1. rewrite call_claude_result, Er.
      cbn [andb].
      assert (E2 : accepted (snd (api_create w2))
                     (fs_calls (snd (api_create w2))) project (writes_of r2)
                   = accepted w (fs_calls w + length (writes_of r1)) project
                       (writes_of r2)).
      { replace (fs_calls (snd (api_create w2)))
          with (fs_calls w + length (writes_of r1))
          by (cbn [api_create snd fs_calls]; rewrite C2; reflexivity).
        apply accepted_ext. cbn [api_create snd fs_fault]. exact F2. }
      destruct (accepted w (fs_calls w + length (writes_of r1)) project
                  (writes_of r2)) eqn:A2.
      * destruct (recording_block_accepted project r2 set_unit_tests s1
                    _ E2) as (s2 & w4 & Hb2 & _).
        unfold bind at 1. rewrite Hb2. unfold ret. split; eauto.
      * destruct (recording_block_refused project r2 set_unit_tests s1
                    _ E2) as (e & w4 & Hb2).
        unfold bind at 1. rewrite Hb2.
        split; [intros (s & w' & [=]) | discriminate].
    + rewrite <- E1 in A1.
      destruct (recording_block_refused project r1 set_code_files state
                  _ A1) as (e & w2 & Hb1).
      unfold bind at 1. rewrite Hb1. cbn [andb].
      split; [intros (s & w' & [=]) | discriminate].
  - intros files body n Hin. exact (accepted_empty_path w project files body n Hin).
Qed.




End Pipeline.

(* ================================================================== *)
(** ** The claims on the sample inputs *)
(* ================================================================== *)

(** With the generator down, the three generation nodes complete on the
    sample state and leave their completion value in the stage field. *)
Lemma C1_witness :
  exists r1 w1 r2 w2,
    call_claude sample_str_of_exn offline_world = (inr r1, w1)
    /\ success r1 = false
    /\ call_claude sample_str_of_exn w1 = (inr r2, w2)
    /\ success r2 = false
    /\ (exists state',
          planner_node sample_loads sample_format sample_str_of_exn
            sample_state offline_world = (inr state', w1)
          /\ current_stage state' = stage_planning_complete)
    /\ (exists state',
          tester_node sample_str_of_exn sample_state offline_world
            = (inr state', w1)
          /\ current_stage state' = stage_tests_written)
    /\ (exists state',
          developer_node sample_str_of_exn sample_state offline_world
            = (inr state', w2)
          /\ current_stage state' = stage_code_written).
Proof.
  eexists _, _, _, _.
  split; [reflexivity|]. split; [reflexivity|].
  split; [reflexivity|]. split; [reflexivity|].
  pose proof (C1_generation_failure_completes_the_stage
                sample_loads sample_format sample_str_of_exn
                sample_state offline_world _ _ eq_refl eq_refl) as (P & T & D).
  split; [exact P|].
  split; [exact (T _ _ eq_refl eq_refl)|].
  exact (D _ _ _ _ eq_refl eq_refl eq_refl eq_refl eq_refl).
Defined.

(** The claim as stated fails on the planner: with the generator down the
    stage field changes from [initial] to [planning_complete] and
    ['errors'] stays empty. *)
Lemma C1_counterexample :
  exists r w' state',
    call_claude sample_str_of_exn offline_world = (inr r, w')
    /\ success r = false
    /\ planner_node sample_loads sample_format sample_str_of_exn
         sample_state offline_world = (inr state', w')
    /\ current_stage sample_state = stage_initial
    /\ current_stage state' = stage_planning_complete
    /\ current_stage state' <> current_stage sample_state
    /\ errors state' = errors sample_state
    /\ length (errors state') <> S (length (errors sample_state)).
Proof.
  eexists _, _, _.
  split; [reflexivity|]. split; [reflexivity|]. split; [reflexivity|].
  split; [reflexivity|]. split; [reflexivity|].
  split; [discriminate|]. split; [reflexivity | discriminate].
Qed.

(** A run of the whole workflow in the sample world. *)
Lemma C2_witness :
  exists events w',
    current_stage sample_state = stage_initial
    /\ run_workflow ascii_lower sample_loads sample_b64encode sample_format
         sample_str_of_exn sample_state online_world = (inr events, w')
    /\ stage_trace events
       = [stage_initial; stage_planning_complete; stage_code_written;
          stage_code_written; stage_tests_written; stage_tests_written;
          stage_deployment_complete; stage_deployment_complete].
Proof.
  destruct (run_workflow ascii_lower sample_loads sample_b64encode
              sample_format sample_str_of_exn sample_state online_world)
    as [[e|events] w'] eqn:R.
  - exfalso. vm_compute in R. discriminate R.
  - exists events, w'. split; [reflexivity|]. split; [reflexivity|].
    exact (proj1 (proj2 (C2_stage_field_along_a_completed_run
                           ascii_lower sample_loads sample_b64encode
                           sample_format sample_str_of_exn
                           sample_state online_world w' events eq_refl R))).
Defined.

(** The claim as stated fails: no reading of the stage field as one of the
    nine states of the specification follows the sample run through
    [repoInit], [planned], ..., [deployCommitted], because the field has
    the same value before and after the first node. *)
Lemma C2_counterexample :
  ~ exists (abs : str -> SpecStage) events w',
      run_workflow ascii_lower sample_loads sample_b64encode sample_format
        sample_str_of_exn sample_state online_world = (inr events, w')
      /\ abs (current_stage sample_state) = init
      /\ map abs (stage_trace events)
         = [repoInit; planned; coded; codeCommitted;
            tested; testsCommitted; deployed; deployCommitted].
Proof.
  intros (abs & events & w' & R & H0 & Ht).
  vm_compute in R. injection R as <- _.
  vm_compute in H0. cbn [stage_trace map snd current_stage] in Ht.
  injection Ht as H1 _. vm_compute in H1. congruence.
Qed.

(** A reply in mixed case is approved, and the chat grows by two. *)
Lemma C3_witness :
  exists self' response w',
    contains (lit "looks good") (ascii_lower (lit "Looks GOOD to me")) = true
    /\ chat_with_manager ascii_lower sample_str_of_exn
         {| sys_conversation_history := []; sys_requirements := None |}
         (lit "Looks GOOD to me") [] online_world
       = (inr (self', (response, [(lit "Looks GOOD to me", response)],
                       lit "approved")), w')
    /\ sys_requirements self' = Some response
    /\ sys_conversation_history self'
       = [{| role := lit "user"; msg_content := lit "Looks GOOD to me" |};
          {| role := lit "assistant"; msg_content := response |}].
Proof.
  destruct (C3_looks_good_approves_and_chat_grows_by_two
              ascii_lower sample_str_of_exn
              {| sys_conversation_history := []; sys_requirements := None |}
              (lit "Looks GOOD to me") [] online_world)
    as (self' & response & status & w' & Hc & Hh & _ & Ha).
  destruct (Ha eq_refl) as [-> Hr].
  exists self', response, w'. split; [reflexivity|]. auto.
Defined.



(** A reply with a preamble, a start marker without any ['==='] after
    it and one well-formed file; a reply without any marker; and the loop
    on the first of them with a store that takes the write. *)
Lemma C5_witness :
  artifact_parser
    (lit "Sure! ===FILE: notes.txt ===FILE: a.js===x===END FILE=== bye")
  = inr [(lit "a.js", lit "x bye")]
  /\ artifact_parser (lit "no files here") = inr []
  /\ exists w',
       parse_and_save (JStr (lit "todo-app"))
         (tl (split FILE_START
                (lit "Sure! ===FILE: notes.txt ===FILE: a.js===x===END FILE=== bye")))
         [] offline_world
       = (inr [(lit "a.js", lit "x bye")], w').
Proof.
  split; [reflexivity|]. split.
  - destruct (C5_parsing_never_raises_but_the_loop_can (lit "no files here"))
      as (files & H & _ & Hn & _).
    rewrite H. f_equal. apply Hn. reflexivity.
  - destruct (C5_parsing_never_raises_but_the_loop_can
                (lit "Sure! ===FILE: notes.txt ===FILE: a.js===x===END FILE=== bye"))
      as (files & H & _ & _ & _ & _ & _ & _ & L & _).
    vm_compute in H. injection H as <-.
    apply (proj1 (L (lit "todo-app") offline_world)).
    vm_compute. reflexivity.
Defined.

(** The claim as stated fails twice. A segment whose path is not closed
    by ['==='] but which holds the end marker is not skipped: it yields
    a pair whose path is the path line and the content together. And the
    loop, which writes each file, raises on a segment with an empty path,
    whatever the store. *)
Lemma C5_counterexample :
  contains SEPARATOR (lit " a.js" ++ NL ++ lit "content" ++ NL) = false
  /\ artifact_parser
       (FILE_START ++ lit " a.js" ++ NL ++ lit "content" ++ NL ++ FILE_END)
     = inr [(lit "a.js" ++ NL ++ lit "content", lit "END FILE===")]
  /\ forall w,
       exists w',
         parse_and_save (JStr (lit "todo-app"))
           (tl (split FILE_START (lit "===FILE:===x"))) [] w
         = (inl IsADirectoryError, w').
Proof.
  split; [reflexivity|]. split; [reflexivity|].
  intros w. eexists. reflexivity.
Qed.


(** The JSON report of the sample world; and four lines with three
    U+2713 and one U+2717, for which the summary counts nothing. *)
Lemma C8_witness :
  (exists summary w',
      run_unit_tests sample_loads sample_str_of_exn (lit "todo-app") online_world
      = (inr summary, w')
      /\ ts_total summary = JInt 5
      /\ ts_passed summary = JInt 3
      /\ ts_failed summary = JInt 2)
  /\ count spec_pass_glyph (stdout glyph_output ++ stderr glyph_output) = 3
  /\ count spec_fail_glyph (stdout glyph_output ++ stderr glyph_output) = 1
  /\ (exists w',
      run_unit_tests sample_loads sample_str_of_exn (lit "todo-app") glyph_world
      = (inr {| ts_success := true; ts_total := JInt 0;
                ts_passed := JInt 0; ts_failed := JInt 0;
                ts_details := Some (JArr []); ts_error := None |}, w')).
Proof.
  split; [|split; [reflexivity|split; [reflexivity|]]].
  - destruct (C8_marker_fallback_misses_the_runner_glyphs
                sample_loads sample_str_of_exn
                (lit "todo-app") online_world _ _ eq_refl eq_refl)
      as (w' & A & _).
    destruct (A _ eq_refl eq_refl eq_refl eq_refl) as (summary & R & _ & Ht & Hp & Hf).
    exists summary, w'. auto.
  - destruct (C8_marker_fallback_misses_the_runner_glyphs
                sample_loads sample_str_of_exn
                (lit "todo-app") glyph_world _ _ eq_refl eq_refl)
      as (w' & _ & _ & B).
    exists w'. apply B.
    + intros data H. vm_compute in H. discriminate H.
    + not_in_literal.
Defined.

(** The test run times out: the summary reports the failure and one dev
    server is still alive. *)
Lemma C9_witness :
  exists w',
    run_e2e_tests sample_loads sample_str_of_exn (lit "todo-app")
      (lit "http://localhost:5173") timeout_world
    = (inr (failure_summary (lit "TimeoutExpired")), w')
    /\ live_servers timeout_world = 0
    /\ live_servers w' = 1.
Proof.
  destruct (C9_dev_server_outlives_a_raising_test_run
              sample_loads sample_str_of_exn (lit "todo-app")
              (lit "http://localhost:5173") timeout_world _ _ _
              eq_refl eq_refl eq_refl) as (w' & R & L).
  exists w'. split; [exact R|]. split; [reflexivity | exact L].
Defined.

(** A message that rejects the draft is approved all the same, because
    ["incorrect"] contains ["correct"]. *)
Lemma C10_witness :
  ascii_lower (lit "No, that is Incorrect")
  = lit "no, that is in" ++ lit "correct" ++ []
  /\ is_approved ascii_lower (lit "No, that is Incorrect") = true
  /\ exists r w',
       manager_agent ascii_lower sample_str_of_exn
         (lit "No, that is Incorrect") [] online_world
       = (inr (approval_reply (content r),
               [{| role := lit "user";
                   msg_content := lit "No, that is Incorrect" |};
                {| role := lit "assistant";
                   msg_content := approval_reply (content r) |}],
               true), w').
Proof.
  destruct (C10_approval_is_a_substring_test ascii_lower sample_str_of_exn
              (lit "No, that is Incorrect")) as (_ & C & A).
  pose proof (C (lit "no, that is in") [] eq_refl) as Happ.
  split; [reflexivity|]. split; [exact Happ|].
  destruct (A Happ [] online_world) as (r & _ & _ & Hm).
  exists r, (snd (api_create online_world)). exact Hm.
Defined.

(** In local-only mode the repository node leaves state and world alone,
    even with a token set and files to commit. *)
Lemma X1_witness :
  github_repo local_only_state
  = Some {| repo_name := JStr (lit "todo-app"); repo_url := JStr LOCAL_ONLY;
            repo_owner := None; repo_branch := None |}
  /\ github_agent_node ascii_lower sample_b64encode sample_format
       sample_str_of_exn local_only_state online_world
     = (inr local_only_state, online_world).
Proof.
  split; [reflexivity|].
  destruct (X1_local_only_disables_repository_sync
              ascii_lower sample_b64encode sample_format sample_str_of_exn
              local_only_state online_world _ eq_refl eq_refl) as [H|H].
  - exact H.
  - exfalso. vm_compute in H. discriminate H.
Defined.

(** A test run that returns leaves no dev server behind. *)
Lemma X2_witness :
  exists summary w',
    run_e2e_tests sample_loads sample_str_of_exn (lit "todo-app")
      (lit "http://localhost:5173") online_world = (inr summary, w')
    /\ ts_success summary = true
    /\ live_servers w' = 0.
Proof.
  destruct (X2_dev_server_terminated_after_the_test_run
              sample_loads sample_str_of_exn (lit "todo-app")
              (lit "http://localhost:5173") online_world _ _ _
              eq_refl eq_refl eq_refl) as (w' & R & L).
  eexists _, w'. split; [exact R|]. split; [reflexivity | exact L].
Defined.

(** A reply that holds files instead of a plan. *)
Lemma X3_witness :
  exists state' w1,
    planner_node sample_loads sample_format sample_str_of_exn
      sample_state (snd (api_create online_world)) = (inr state', w1)
    /\ errors state' = [lit "Failed to parse plan"]
    /\ current_stage state' = stage_planning_complete.
Proof.
  destruct (X3_unparsable_plan_is_logged_once
              sample_loads sample_format sample_str_of_exn
              sample_state (snd (api_create online_world)) _ _ ValueError
              eq_refl eq_refl eq_refl) as (state' & R & He & _ & Hs).
  eexists state', _. split; [exact R|]. split; [exact He | exact Hs].
Defined.


(** The developer completes on the sample state and counts one run. *)
Lemma X5_witness :
  exists state' w',
    developer_node sample_str_of_exn sample_state online_world
    = (inr state', w')
    /\ iteration_count sample_state = 0%Z
    /\ iteration_count state' = 1%Z.
Proof.
  destruct (developer_node sample_str_of_exn sample_state online_world)
    as [[e|state'] w'] eqn:R.
  - exfalso. vm_compute in R. discriminate R.
  - exists state', w'. split; [reflexivity|]. split; [reflexivity|].
    exact (X5_developer_counts_its_runs sample_str_of_exn
             sample_state state' online_world w' R).
Defined.

(** Both replies name [package.json]: the code files record the first
    reply's content for it, the last write carries the second's. *)
Lemma X9_witness :
  exists state' w',
    developer_node sample_str_of_exn sample_state overlap_world
    = (inr state', w')
    /\ dict_lookup (lit "package.json") (code_files state') = Some (lit "{}")
    /\ dict_lookup (lit "package.json") (unit_tests state')
       = Some (lit "{test: vitest}")
    /\ last_write (lit "Todo App") (lit "package.json") (fs_log w')
       = Some (lit "{test: vitest}").
Proof.
  destruct (developer_node sample_str_of_exn sample_state overlap_world)
    as [[e|state'] w'] eqn:R.
  - exfalso. vm_compute in R. discriminate R.
  - exists state', w'. split; [reflexivity|].
    destruct (X9_developer_records_and_writes_what_it_parsed
                sample_str_of_exn sample_state state' overlap_world w' R)
      as (plan & name & r1 & r2 & Hp & -> & -> & _ & _ & _ & _ & U & _).
    vm_compute in Hp. injection Hp as <- <-.
    vm_compute in R. injection R as <- <-.
    split; [reflexivity|]. split; [reflexivity|].
    apply (U eq_refl (lit "package.json") (lit "{test: vitest}")).
    reflexivity.
Defined.

(** The first repository node on a state without a repository entry
    stores a created repository on branch main. *)
Lemma X10_witness :
  exists state' w',
    github_agent_node ascii_lower sample_b64encode sample_format
      sample_str_of_exn sample_state online_world = (inr state', w')
    /\ exists repo,
         state' = set_github_repo (Some repo) sample_state
         /\ (repo_url repo = JStr LOCAL_ONLY /\ repo_owner repo = None
             \/ exists owner, repo_owner repo = Some owner
                              /\ repo_branch repo = Some (lit "main")).
Proof.
  destruct (github_agent_node ascii_lower sample_b64encode sample_format
              sample_str_of_exn sample_state online_world)
    as [[e|state'] w'] eqn:R.
  - exfalso. vm_compute in R. discriminate R.
  - exists state', w'. split; [reflexivity|].
    exact (proj2 (X10_repository_entry_is_set_once
                    ascii_lower sample_b64encode sample_format
                    sample_str_of_exn sample_state state' online_world w' R)
                 eq_refl).
Defined.

(** Between milestones the repository node sends nothing, even though
    the state holds files and the token is set. *)
Lemma X11_witness :
  github_repo planned_state = Some sample_repo
  /\ github_agent_node ascii_lower sample_b64encode sample_format
       sample_str_of_exn planned_state synced_world
     = (inr planned_state, synced_world).
Proof.
  split; [reflexivity|].
  destruct (X11_repository_node_without_milestone_is_a_no_op
              ascii_lower sample_b64encode sample_format sample_str_of_exn
              planned_state synced_world sample_repo
              eq_refl eq_refl eq_refl eq_refl) as [H|H].
  - exact H.
  - exfalso. vm_compute in H. discriminate H.
Defined.

(** With a Vercel token but a local-only repository, the deployer logs
    the missing owner and sends nothing. *)
Lemma X12_witness :
  exists error,
    deployer_node sample_format sample_str_of_exn local_only_state online_world
    = (inr (set_current_stage stage_deployment_complete
              (append_error (lit "Deployment failed: " ++ error)
                 local_only_state)),
       online_world)
    /\ error = lit "owner".
Proof.
  destruct (X12_local_only_deployment_fails_without_a_request
              sample_format sample_str_of_exn local_only_state online_world
              _ _ _ eq_refl eq_refl eq_refl) as (error & R & E).
  exists error. split; [exact R | exact E].
Defined.

(** A whole run without credentials sends no request. *)
Lemma X13_witness :
  offline offline_world
  /\ http_log (snd (run_workflow ascii_lower sample_loads sample_b64encode
                      sample_format sample_str_of_exn sample_state
                      offline_world)) = [].
Proof.
  assert (O : offline offline_world) by (split; reflexivity).
  split; [exact O|].
  exact (proj1 (X13_no_credentials_no_repository_or_deployment_request
                  ascii_lower sample_loads sample_b64encode sample_format
                  sample_str_of_exn sample_state offline_world O)).
Defined.

(** The developer on the state [run_development] starts from. *)
Lemma X16_witness :
  exists e,
    developer_node sample_str_of_exn (initial_state (lit "a todo app"))
      offline_world = (inl e, offline_world)
    /\ (e = AttributeError \/ e = TypeError).
Proof.
  destruct (X16_no_stage_runs_without_a_plan
              ascii_lower sample_loads sample_b64encode sample_format
              sample_str_of_exn developer (initial_state (lit "a todo app"))
              offline_world eq_refl ltac:(discriminate))
    as (e & R & He & _).
  exists e. split; [exact R | exact He].
Defined.

(** A reply that loads as a JSON object without ['project_name']. *)
Lemma X17_witness :
  exists state',
    planner_node sample_loads sample_format sample_str_of_exn
      sample_state report_world = (inr state', snd (api_create report_world))
    /\ development_plan state' = Some sample_report
    /\ errors state' = [lit "Failed to parse plan"]
    /\ developer_node sample_str_of_exn state' report_world
       = (inl (KeyError (lit "project_name")), report_world).
Proof.
  destruct (X17_plan_without_a_project_name_is_kept
              sample_loads sample_format sample_str_of_exn
              sample_state report_world sample_report_text sample_report
              (KeyError (lit "project_name")) eq_refl eq_refl eq_refl)
    as (state' & R & Hp & He & _ & Hn).
  exists state'. split; [exact R|]. split; [exact Hp|]. split; [exact He|].
  exact (proj1 (Hn report_world)).
Defined.


(** Creating the sample repository: one POST, answered 201. *)
Lemma X20_witness :
  no_token (env_GITHUB_TOKEN online_world) = false
  /\ exists r w',
       github_operation sample_b64encode sample_format sample_str_of_exn
         (create_repo (lit "todo-app") (lit "a todo app")) None online_world
       = (inr r, w')
       /\ length (http_log w') = 1.
Proof.
  split; [reflexivity|].
  destruct (X20_create_repo_sends_one_request
              sample_b64encode sample_format sample_str_of_exn
              (lit "todo-app") (lit "a todo app") None online_world eq_refl)
    as (r & R & L & _).
  eexists r, _. split; [exact R|]. rewrite L. reflexivity.
Defined.

(** The shared path is committed with the unit test's content. *)
Lemma X21_witness :
  exists files,
    milestone (current_stage overlap_state) (lit "todo-app") overlap_state
    = (files, lit "feat: Add application code with unit tests")
    /\ dict_lookup (lit "package.json") (code_files overlap_state)
       = Some (lit "{}")
    /\ dict_lookup (lit "package.json") files = Some (lit "{test: vitest}").
Proof.
  assert (Nc : NoDup (dict_keys (code_files overlap_state))).
  { repeat constructor; not_in_literal. }
  assert (Nu : NoDup (dict_keys (unit_tests overlap_state))).
  { repeat constructor; not_in_literal. }
  destruct (X21_unit_tests_override_code_in_the_commit
              overlap_state (lit "todo-app") (lit "package.json")
              eq_refl Nc Nu) as (files & M & _ & L).
  exists files. split; [exact M|]. split; [reflexivity | exact L].
Defined.


(** The tester on the sample state, with the generator answering in the
    delimiter format. *)
Lemma X24_witness :
  exists state' w' files,
    tester_node sample_str_of_exn sample_state (snd (api_create online_world))
    = (inr state', w')
    /\ state' = set_current_stage stage_tests_written
                  (set_e2e_tests files sample_state).
Proof.
  destruct (tester_node sample_str_of_exn sample_state
              (snd (api_create online_world))) as [[e|state'] w'] eqn:R.
  - exfalso. vm_compute in R. discriminate R.
  - destruct (X24_tester_records_and_writes_what_it_parsed
                sample_str_of_exn sample_state state'
                (snd (api_create online_world)) w' R)
      as (plan & name & r & files & _ & _ & _ & Hs & _).
    exists state', w', files. split; [reflexivity | exact Hs].
Defined.

(** Deploying the sample repository: the URL is built from the answer's
    ['url']. *)
Lemma X25_witness :
  no_token (env_VERCEL_TOKEN online_world) = false
  /\ exists w',
       deploy_to_vercel sample_format sample_str_of_exn
         (JStr (lit "Todo App")) (Some sample_repo) online_world
       = (inr (Deployed (lit "https://todo-app.vercel.app")), w').
Proof.
  split; [reflexivity|].
  destruct (X25_deployment_sends_one_request
              sample_format sample_str_of_exn (JStr (lit "Todo App"))
              sample_repo (JStr (lit "dev")) online_world eq_refl eq_refl)
    as (r & R & _ & D).
  eexists. rewrite R. f_equal. f_equal.
  apply D. eexists _, _, _. split; [reflexivity|].
  split; [right; reflexivity|]. split; [reflexivity|].
  split; reflexivity.
Defined.

(** The developer completes on the sample state, where the store takes
    every write the two replies ask for; no store takes a write with an
    empty file name. *)
Lemma X28_witness :
  (exists state' w',
      developer_node sample_str_of_exn sample_state online_world
      = (inr state', w'))
  /\ accepted online_world 0 (lit "Todo App") [([], lit "x")] = false.
Proof.
  destruct (proj2 (X28_generation_nodes_stop_only_at_the_file_store
                     sample_loads sample_format sample_str_of_exn
                     sample_state online_world)
              sample_plan (lit "Todo App") eq_refl) as (_ & D & E).
  split.
  - apply (D eq_refl eq_refl). vm_compute. reflexivity.
  - apply (E _ (lit "x")). now left.
Defined.

